(** * Nozzarri Tickets: configuration, premium entitlement and ticket life cycle

    A shallow embedding of the bot's core (the single-file Discord bot with
    its web dashboard) and the properties its specification states about it.

    Conventions of the embedding.
    - JavaScript strings are [string]s of ASCII code units; the character
      classes of the regular expressions ([\s], [\b], [[0-9]]) and
      [toLowerCase] are the ASCII ones.
    - JavaScript numbers that the program keeps integral (milliseconds, day
      counts, scores) are [Z]; the two places where a fraction matters
      ([Number] of a free-form string, the mean of the scores) go through
      [Double.round], the round-to-nearest-even of binary64.
    - Objects used as maps ([PREMIUM_KEYS], [PREMIUM_GUILDS], [GUILD_CONFIGS],
      [REVIEWS.trade], [RATED]) are [gmap]s on their own properties.
      [PREMIUM_KEYS] is looked up under a word a user types, so for it the
      properties every object inherits ([constructor] and the like) are
      embedded too, see [Entitlement.lookupKey]; the other maps are looked
      up under identifiers the chat platform gives, strings of digits.
      Records with optional fields stand for the JSON records, [None] being
      an absent (or null) field.
    - Reads of the clock, results of file writes and of calls to the chat
      platform are inputs of the handler that performs them, in source order. *)

From Stdlib Require Import ZArith QArith Qround Qabs Lqa String Ascii List Lia.
From stdpp Require Import gmap strings list pretty.

Local Open Scope string_scope.
Local Open Scope Z_scope.

(** ** Characters and strings *)

Module Str.

Definition code (c : ascii) : N := N_of_ascii c.

Definition isDigit (c : ascii) : bool := ((48 <=? code c) && (code c <=? 57))%N.
Definition isUpper (c : ascii) : bool := ((65 <=? code c) && (code c <=? 90))%N.
Definition isLower (c : ascii) : bool := ((97 <=? code c) && (code c <=? 122))%N.

(** [\w]: the characters on either side of which [\b] finds no boundary. *)
Definition isWordChar (c : ascii) : bool :=
  isDigit c || isUpper c || isLower c || (code c =? 95)%N.

(** [\s] and the characters [trim] strips: tab, LF, VT, FF, CR, space. *)
Definition isSpace (c : ascii) : bool :=
  ((9 <=? code c) && (code c <=? 13) || (code c =? 32))%N.

Definition toLower (c : ascii) : ascii :=
  if isUpper c then ascii_of_N (code c + 32) else c.

Definition digitVal (c : ascii) : Z := Z.of_N (code c) - 48.

Fixpoint map (f : ascii -> ascii) (s : string) : string :=
  match s with
  | EmptyString => EmptyString
  | String c s' => String (f c) (map f s')
  end.

Definition toLowerCase (s : string) : string := map toLower s.

Fixpoint forallb (p : ascii -> bool) (s : string) : bool :=
  match s with
  | EmptyString => true
  | String c s' => p c && forallb p s'
  end.

Definition isEmpty (s : string) : bool :=
  match s with EmptyString => true | _ => false end.

(** No character of [s] is [c]. *)
Definition noneOf (c : ascii) (s : string) : bool :=
  forallb (fun x => negb (Ascii.eqb x c)) s.

Fixpoint trimStart (s : string) : string :=
  match s with
  | String c s' => if isSpace c then trimStart s' else s
  | EmptyString => EmptyString
  end.

(** Drops the trailing white space: a character is kept when it is not
    white space or something is kept after it. *)
Fixpoint trimEnd (s : string) : string :=
  match s with
  | EmptyString => EmptyString
  | String c s' =>
      match trimEnd s' with
      | EmptyString => if isSpace c then EmptyString else String c EmptyString
      | t => String c t
      end
  end.

Definition trim (s : string) : string := trimEnd (trimStart s).

Definition startsWith (s p : string) : bool := String.prefix p s.

(** [s.slice(0, n)] and [s.slice(n)] *)
Definition take (n : nat) (s : string) : string := String.substring 0 n s.
Fixpoint drop (n : nat) (s : string) : string :=
  match n, s with
  | S n', String _ s' => drop n' s'
  | _, _ => s
  end.

(** [s.split(sep)] for a one-character separator: one more part than there
    are separators, the empty string giving one empty part. *)
Fixpoint split (sep : ascii) (s : string) : list string :=
  match s with
  | EmptyString => [EmptyString]
  | String c s' =>
      if Ascii.eqb c sep then EmptyString :: split sep s'
      else match split sep s' with
           | p :: ps => String c p :: ps
           | [] => [String c EmptyString]
           end
  end.

(** [parts.join(sep)] *)
Fixpoint join (sep : ascii) (parts : list string) : string :=
  match parts with
  | [] => EmptyString
  | [p] => p
  | p :: ps => p +:+ String sep (join sep ps)
  end.

(** [s.split(/\s+/).filter(Boolean)]: the maximal runs of non-space
    characters. [cur] is the run being read, reversed. *)
Fixpoint wordsFrom (cur : list ascii) (s : string) : list string :=
  let flush (rest : list string) :=
    match cur with
    | [] => rest
    | _ => string_of_list_ascii (rev cur) :: rest
    end in
  match s with
  | EmptyString => flush []
  | String c s' =>
      if isSpace c then flush (wordsFrom [] s') else wordsFrom (c :: cur) s'
  end.

Definition words (s : string) : list string := wordsFrom [] s.

(** The longest prefix of characters satisfying [p], and what follows. *)
Fixpoint span (p : ascii -> bool) (s : string) : string * string :=
  match s with
  | String c s' =>
      if p c then let '(a, b) := span p s' in (String c a, b) else (EmptyString, s)
  | EmptyString => (EmptyString, EmptyString)
  end.

(** Value of a digit string in the given radix, most significant first. *)
Fixpoint valueFrom (radix acc : Z) (val : ascii -> Z) (s : string) : Z :=
  match s with
  | EmptyString => acc
  | String c s' => valueFrom radix (acc * radix + val c) val s'
  end.

Definition decimal (s : string) : Z := valueFrom 10 0 digitVal s.

End Str.

(** ** Binary64 numbers *)

Module Double.

Inductive number : Type :=
| NaN
| Infinity (negative : bool)
| Finite (q : Q).

Definition pow2 (k : Z) : Q :=
  if 0 <=? k then inject_Z (2 ^ k) else Qinv (inject_Z (2 ^ (- k))).

Definition pow10 (k : Z) : Q :=
  if 0 <=? k then inject_Z (10 ^ k) else Qinv (inject_Z (10 ^ (- k))).

(** [floor (log2 x)] for a positive [x]. *)
Definition ilog2 (x : Q) : Z :=
  let e := Z.log2 (Qnum x) - Z.log2 (Zpos (Qden x)) in
  if Qle_bool (pow2 e) x then e else e - 1.

Definition roundHalfEven (y : Q) : Z :=
  let f := Qfloor y in
  match Qcompare (Qminus y (inject_Z f)) (Qmake 1 2) with
  | Lt => f
  | Gt => f + 1
  | Eq => if Z.even f then f else f + 1
  end.

(** The double nearest to a positive rational: 53 significant bits, the
    spacing never below [2^-1074], ties to the even significand, and
    overflow to infinity from [2^1024 - 2^970] on. *)
Definition roundPos (x : Q) : number :=
  let q := Z.max (ilog2 x - 52) (-1074) in
  let m := roundHalfEven (Qdiv x (pow2 q)) in
  let v := Qmult (inject_Z m) (pow2 q) in
  if Qle_bool (pow2 1024) v then Infinity false else Finite (Qred v).

Definition opp (n : number) : number :=
  match n with
  | NaN => NaN
  | Infinity b => Infinity (negb b)
  | Finite q => Finite (Qopp q)
  end.

Definition round (x : Q) : number :=
  match Qcompare x (inject_Z 0) with
  | Eq => Finite (inject_Z 0)
  | Gt => roundPos x
  | Lt => opp (roundPos (Qopp x))
  end.

Definition ofZ (z : Z) : number := round (inject_Z z).

(** [a / b] for two integers, [b] positive. *)
Definition divZ (a b : Z) : number :=
  match b with
  | Zpos p => round (Qmake a p)
  | _ => NaN
  end.

(** [x.toFixed(2)] read back by unary [+], as a number of hundredths: the
    integer [n] with [n / 100] nearest to [x], the larger one on a tie
    (taken on the absolute value, the sign put back in front). At [1e21]
    and above [toFixed] prints the number itself. *)
Definition toFixed2 (x : Q) : Q :=
  let a := Qabs x in
  if Qle_bool (inject_Z (10 ^ 21)) a then x
  else
    let n := Qfloor (Qplus (Qmult a (inject_Z 100)) (Qmake 1 2)) in
    Qmake (if Qle_bool (inject_Z 0) x then n else - n) 100.

End Double.

(** ** [Number(string)] *)

Module Numeric.
Import Str Double.

Definition hexVal (c : ascii) : Z :=
  if isDigit c then digitVal c
  else if isLower c then Z.of_N (code c) - 87
  else Z.of_N (code c) - 55.

Definition isHexDigit (c : ascii) : bool :=
  isDigit c || ((97 <=? code c) && (code c <=? 102))%N
            || ((65 <=? code c) && (code c <=? 70))%N.
Definition isOctDigit (c : ascii) : bool := ((48 <=? code c) && (code c <=? 55))%N.
Definition isBinDigit (c : ascii) : bool := ((48 <=? code c) && (code c <=? 49))%N.

(** [0x..], [0o..], [0b..]: at least one digit of the radix and nothing else. *)
Definition nonDecimal (radix : Z) (ok : ascii -> bool) (digits : string) : number :=
  if negb (isEmpty digits) && forallb ok digits
  then ofZ (valueFrom radix 0 hexVal digits)
  else NaN.

(** The exponent part: nothing, or [e], an optional sign and digits. *)
Definition exponent (s : string) : option Z :=
  match s with
  | EmptyString => Some 0
  | String c r =>
      if Ascii.eqb (toLower c) "e" then
        let '(sign, ds) :=
          match r with
          | String "+" ds => (1, ds)
          | String "-" ds => (-1, ds)
          | _ => (1, r)
          end in
        if negb (isEmpty ds) && forallb isDigit ds
        then Some (sign * decimal ds) else None
      else None
  end.

(** [digits . digits? exp?], [. digits exp?] or [digits exp?], as the exact
    rational it denotes. *)
Definition unsignedDecimal (s : string) : option Q :=
  let '(ip, r) := span isDigit s in
  let '(fp, r') :=
    match r with
    | String "." r1 => span isDigit r1
    | _ => (EmptyString, r)
    end in
  if isEmpty ip && isEmpty fp then None
  else
    match exponent r' with
    | Some e =>
        Some (Qmult (inject_Z (decimal (ip ++ fp)))
                    (pow10 (e - Z.of_nat (String.length fp))))
    | None => None
    end.

Definition strDecimal (s : string) : number :=
  let '(negative, u) :=
    match s with
    | String "+" u => (false, u)
    | String "-" u => (true, u)
    | _ => (false, s)
    end in
  let v :=
    if String.eqb u "Infinity" then Infinity false
    else match unsignedDecimal u with
         | Some q => round q
         | None => NaN
         end in
  if negative then opp v else v.

(** [Number(s)]: white space around the literal is ignored, the empty
    string is zero, anything that is not one numeric literal is [NaN]. *)
Definition Number (s : string) : number :=
  match trim s with
  | EmptyString => Finite (inject_Z 0)
  | String "0" (String x ds) as t =>
      match toLower x with
      | "x"%char => nonDecimal 16 isHexDigit ds
      | "o"%char => nonDecimal 8 isOctDigit ds
      | "b"%char => nonDecimal 2 isBinDigit ds
      | _ => strDecimal t
      end
  | t => strDecimal t
  end.

End Numeric.

(** ** Durations of licence keys *)

Module Duration.
Import Str Double Numeric.

Record Plan : Type := { plan : string; days : Z }.

(** The plan of a plain number below 1. *)
Definition zeroDays : Plan := {| plan := "custom"; days := 0 |}.

Definition oneOf (p : string) (l : list string) : bool :=
  existsb (String.eqb p) l.

Definition planToDays (plan : string) : option Plan :=
  let p := toLowerCase plan in
  if oneOf p ["15d"; "15days"; "15"] then Some {| plan := "15d"; days := 15 |}
  else if oneOf p ["1m"; "1month"; "30d"; "30"] then Some {| plan := "1m"; days := 30 |}
  else if oneOf p ["3m"; "3month"; "90d"; "90"] then Some {| plan := "3m"; days := 90 |}
  else
    match Number p with
    | Finite n =>
        if Qlt_le_dec (inject_Z 0) n then
          if Qle_bool n (inject_Z 3650)
          then Some {| plan := "custom"; days := Qfloor n |}
          else None
        else None
    | _ => None
    end.

(** The units of [/([0-9]+)\s*(mo|y|w|d|h|m|s)\b/gi], in the order of the
    alternation, with the milliseconds the [switch] adds for each. *)
Definition units : list (string * Z) :=
  [ ("mo", 30 * 24 * 60 * 60 * 1000);
    ("y", 365 * 24 * 60 * 60 * 1000);
    ("w", 7 * 24 * 60 * 60 * 1000);
    ("d", 24 * 60 * 60 * 1000);
    ("h", 60 * 60 * 1000);
    ("m", 60 * 1000);
    ("s", 1000) ].

(** [\b] right after the unit: the end of the input or a non-word
    character (the unit's last letter is a word character). *)
Definition boundary (rest : string) : bool :=
  match rest with
  | EmptyString => true
  | String c _ => negb (isWordChar c)
  end.

(** The unit matched at the head of [s], if any, with its length. *)
Fixpoint unitAt (us : list (string * Z)) (s : string) : option (Z * nat) :=
  match us with
  | [] => None
  | (u, k) :: us' =>
      let n := String.length u in
      if String.eqb (toLowerCase (take n s)) u && boundary (drop n s)
      then Some (k, n)
      else unitAt us' s
  end.

(** One attempt of the expression at the head of [s]: the digits, the
    unit's milliseconds and the length of the match. The greedy [[0-9]+]
    and [\s*] never give a character back with success, since what follows
    either of them must be a letter. *)
Definition matchAt (s : string) : option (string * Z * nat) :=
  let '(ds, r1) := span isDigit s in
  if isEmpty ds then None
  else
    let '(ws, r2) := span isSpace r1 in
    match unitAt units r2 with
    | Some (k, n) => Some (ds, k, (String.length ds + String.length ws + n)%nat)
    | None => None
    end.

(** The matches [re.exec] returns in turn: the leftmost match from
    [lastIndex] on, the next search starting where it ended. [skip] counts
    the characters of the last match still to pass. *)
Fixpoint execAll (skip : nat) (s : string) : list (string * Z) :=
  match s with
  | EmptyString => []
  | String _ s' =>
      match skip with
      | S k => execAll k s'
      | O =>
          match matchAt s with
          | Some (ds, k, len) => (ds, k) :: execAll (Nat.pred len) s'
          | None => execAll 0 s'
          end
      end
  end.

(** [Number.isFinite(Number(digits))]: a digit string is finite below the
    point where binary64 rounds to infinity. *)
Definition finiteDigits (ds : string) : bool :=
  decimal ds <? 2 ^ 1024 - 2 ^ 970.

(** The body of the [while] loop for one match: what it adds to [totalMs].
    The integer kept here is the exact one; the double the program holds
    differs from it only beyond [2^53], far above [maxMs], and both are
    then cut to [maxMs]. *)
Definition contribution (m : string * Z) : Z :=
  let '(ds, k) := m in
  let n := decimal ds in
  if negb (finiteDigits ds) || (n <=? 0) then 0 else n * k.

Definition maxMs : Z := 10 * 365 * 24 * 60 * 60 * 1000.
Definition dayMs : Z := 24 * 60 * 60 * 1000.

Definition ceilDiv (a b : Z) : Z := - ((- a) / b).

Record t : Type := { ms : Z; label : string; plan_ : string; days_ : Z }.

Definition parseDurationToMs (input : string) : option t :=
  let raw := trim input in
  if isEmpty raw then None
  else
    match planToDays raw with
    | Some asPlan =>
        Some {| ms := days asPlan * 24 * 60 * 60 * 1000;
                label := pretty (days asPlan) +:+ "d";
                plan_ := plan asPlan;
                days_ := days asPlan |}
    | None =>
        let matches := execAll 0 raw in
        let used := negb (Nat.eqb (length matches) 0) in
        let totalMs := fold_left (fun acc m => acc + contribution m) matches 0 in
        if negb used || (totalMs <=? 0) then None
        else
          let totalMs := if maxMs <? totalMs then maxMs else totalMs in
          Some {| ms := totalMs;
                  label := toLowerCase raw;
                  plan_ := "custom";
                  days_ := Z.max 1 (ceilDiv totalMs dayMs) |}
    end.

End Duration.

(** ** Identifiers and the ticket topic *)

Module Topic.
Import Str.

(** [/^[0-9]{15,25}$/] on a string. *)
Definition isValidSnowflake (id : string) : bool :=
  forallb isDigit id
  && (15 <=? String.length id)%nat && (String.length id <=? 25)%nat.

(** An identifier that the topic can carry: not empty, and free of the two
    separators. *)
Definition plainId (s : string) : bool :=
  negb (isEmpty s) && noneOf ":" s && noneOf ";" s.

(** What a template literal prints for a string or [null]. *)
Definition show (v : option string) : string :=
  match v with Some s => s | None => "null" end.

Definition makeTopic (openerId claimerId : option string) : string :=
  "opened:" +:+ show openerId +:+ ";claimed:" +:+ show claimerId.

Record t : Type := { opened : option string; claimed : option string }.

(** [v || null] for the second element of a part, absent when the part has
    no colon. *)
Definition orNull (v : option string) : option string :=
  match v with
  | Some s => if isEmpty s then None else Some s
  | None => None
  end.

(** One turn of the loop over the parts, [kv] being a part split at its
    colons: only the first two elements are read. *)
Definition assign (def : t) (kv : list string) : t :=
  let k := hd "" kv in
  let v := nth_error kv 1 in
  let def :=
    if String.eqb k "opened"
    then {| opened := orNull v; claimed := claimed def |} else def in
  if String.eqb k "claimed"
  then {| opened := opened def;
          claimed := match orNull v with
                     | Some s => if String.eqb s "null" then None else Some s
                     | None => None
                     end |}
  else def.

Definition parseTopic (topic : option string) : t :=
  let def := {| opened := None; claimed := None |} in
  match orNull topic with
  | None => def
  | Some s => fold_left assign (List.map (split ":") (split ";" s)) def
  end.

(** A string free of both separators of the topic. *)
Definition clean (s : string) : Prop := noneOf ":" s = true /\ noneOf ";" s = true.

(** A parsed topic whose fields can be written back and read again. *)
Definition fit (t : t) : Prop :=
  (forall o, opened t = Some o -> plainId o = true)
  /\ (forall c, claimed t = Some c -> plainId c = true /\ c <> "null").

End Topic.

(** ** Per-guild configuration *)

Module Config.
Import Str Topic.

Record PanelText : Type :=
  { supportDescription : option string; tradeDescription : option string }.

(** A record of [GUILD_CONFIGS] as stored: every key may be missing; an
    identifier that is missing, null or empty is falsy. *)
Record Saved : Type :=
  { s_supportCategoryId : option string;
    s_mmCategoryId : option string;
    s_logChannelId : option string;
    s_transcriptChannelId : option string;
    s_supportEnabled : option bool;
    s_tradeEnabled : option bool;
    s_logsEnabled : option bool;
    s_supportRoles : option (list string);
    s_mmRoles : option (list string);
    s_adminRoles : option (list string);
    s_panelText : option PanelText }.

(** The empty object [{}]. *)
Definition noSaved : Saved :=
  {| s_supportCategoryId := None; s_mmCategoryId := None; s_logChannelId := None;
     s_transcriptChannelId := None;
     s_supportEnabled := None; s_tradeEnabled := None; s_logsEnabled := None;
     s_supportRoles := None; s_mmRoles := None; s_adminRoles := None;
     s_panelText := None |}.

(** What [getGuildConfig] returns. *)
Record t : Type :=
  { supportCategoryId : option string;
    mmCategoryId : option string;
    logChannelId : option string;
    transcriptChannelId : option string;
    supportEnabled : bool;
    tradeEnabled : bool;
    logsEnabled : bool;
    supportRoles : list string;
    mmRoles : list string;
    adminRoles : list string;
    panelText : PanelText }.

(** [!!id] *)
Definition truthy (id : option string) : bool :=
  match id with Some s => negb (isEmpty s) | None => false end.

(** An identifier is set: present and not empty. *)
Definition isSet (id : option string) : Prop :=
  exists s : string, id = Some s /\ s <> "".

(** [Array.isArray(arr) ? arr.filter(isValidSnowflake) : []] *)
Definition normalizeArray (arr : option (list string)) : list string :=
  match arr with Some l => List.filter isValidSnowflake l | None => [] end.

Definition getDefaultConfig : t :=
  {| supportCategoryId := None; mmCategoryId := None; logChannelId := None;
     transcriptChannelId := None;
     supportEnabled := false; tradeEnabled := false; logsEnabled := false;
     supportRoles := []; mmRoles := []; adminRoles := [];
     panelText := {| supportDescription := None; tradeDescription := None |} |}.

(** [saved.toggle !== undefined ? !!saved.toggle : !!saved.id] *)
Definition inferred (toggle : option bool) (id : option string) : bool :=
  match toggle with Some b => b | None => truthy id end.

Definition mergePanel (def : PanelText) (saved : option PanelText) : PanelText :=
  match saved with
  | None => def
  | Some p =>
      {| supportDescription :=
           match supportDescription p with Some d => Some d | None => supportDescription def end;
         tradeDescription :=
           match tradeDescription p with Some d => Some d | None => tradeDescription def end |}
  end.

Definition getGuildConfig (GUILD_CONFIGS : gmap string Saved) (guildId : string) : t :=
  let def := getDefaultConfig in
  let saved := default noSaved (GUILD_CONFIGS !! guildId) in
  {| supportCategoryId := s_supportCategoryId saved;
     mmCategoryId := s_mmCategoryId saved;
     logChannelId := s_logChannelId saved;
     transcriptChannelId := s_transcriptChannelId saved;
     supportEnabled := inferred (s_supportEnabled saved) (s_supportCategoryId saved);
     tradeEnabled := inferred (s_tradeEnabled saved) (s_mmCategoryId saved);
     logsEnabled := inferred (s_logsEnabled saved) (s_logChannelId saved);
     panelText := mergePanel (panelText def) (s_panelText saved);
     supportRoles := normalizeArray (s_supportRoles saved);
     mmRoles := normalizeArray (s_mmRoles saved);
     adminRoles := normalizeArray (s_adminRoles saved) |}.

(** A patch: the keys it has, each with its new value ([Some None] sets an
    identifier to null). *)
Record Patch : Type :=
  { p_supportCategoryId : option (option string);
    p_mmCategoryId : option (option string);
    p_logChannelId : option (option string);
    p_transcriptChannelId : option (option string);
    p_supportEnabled : option bool;
    p_tradeEnabled : option bool;
    p_logsEnabled : option bool;
    p_supportRoles : option (list string);
    p_mmRoles : option (list string);
    p_adminRoles : option (list string);
    p_panelText : option PanelText }.

(** [{ ...current, ...patch }] with the three role lists of the patch
    cleaned; the result is stored with every key present. *)
Definition next (current : t) (patch : Patch) : t :=
  {| supportCategoryId := default (supportCategoryId current) (p_supportCategoryId patch);
     mmCategoryId := default (mmCategoryId current) (p_mmCategoryId patch);
     logChannelId := default (logChannelId current) (p_logChannelId patch);
     transcriptChannelId := default (transcriptChannelId current) (p_transcriptChannelId patch);
     supportEnabled := default (supportEnabled current) (p_supportEnabled patch);
     tradeEnabled := default (tradeEnabled current) (p_tradeEnabled patch);
     logsEnabled := default (logsEnabled current) (p_logsEnabled patch);
     supportRoles :=
       match p_supportRoles patch with
       | Some l => normalizeArray (Some l) | None => supportRoles current end;
     mmRoles :=
       match p_mmRoles patch with
       | Some l => normalizeArray (Some l) | None => mmRoles current end;
     adminRoles :=
       match p_adminRoles patch with
       | Some l => normalizeArray (Some l) | None => adminRoles current end;
     panelText := default (panelText current) (p_panelText patch) |}.

Definition stored (c : t) : Saved :=
  {| s_supportCategoryId := supportCategoryId c;
     s_mmCategoryId := mmCategoryId c;
     s_logChannelId := logChannelId c;
     s_transcriptChannelId := transcriptChannelId c;
     s_supportEnabled := Some (supportEnabled c);
     s_tradeEnabled := Some (tradeEnabled c);
     s_logsEnabled := Some (logsEnabled c);
     s_supportRoles := Some (supportRoles c);
     s_mmRoles := Some (mmRoles c);
     s_adminRoles := Some (adminRoles c);
     s_panelText := Some (panelText c) |}.

End Config.

(** ** Premium state and licence keys: the records *)

Module Premium.
Import Str.

(** A stored date string, known by what [Date.parse] makes of it.
    [new Date(ms).toISOString()] is [Parsable ms]. *)
Inductive DateStr : Type :=
| Parsable (ms : Z)
| Unparsable.

(** [Date.parse], [None] standing for [NaN]. *)
Definition parse (d : DateStr) : option Z :=
  match d with Parsable ms => Some ms | Unparsable => None end.

(** The largest time value of a [Date], 8.64e15 ms either side of the epoch. *)
Definition maxTime : Z := 8640000000000000.

(** [new Date(ms).toISOString()], a [RangeError] outside the range. *)
Definition toISOString (ms : Z) : option DateStr :=
  if (- maxTime <=? ms) && (ms <=? maxTime) then Some (Parsable ms) else None.

Record RawBranding : Type :=
  { b_name : option string; b_iconUrl : option string; b_accent : option string }.

(** The stored feature flags this development reads. The ping settings,
    the bot nickname and the close reasons are stored and defaulted the
    same way and are left out. *)
Record RawFeatures : Type :=
  { f_ticketNameTemplate : option string;
    f_welcomeMessage : option string;
    f_transcripts : option bool;
    f_transcriptChannelId : option string;
    f_autoCloseMinutes : option Z;
    f_autoTagClaims : option bool;
    f_prioritySupport : option bool }.

(** A record of [PREMIUM_GUILDS]. *)
Record Raw : Type :=
  { r_isPremium : option bool;
    r_plan : option string;
    r_activatedAt : option DateStr;
    r_expiresAt : option DateStr;
    r_branding : RawBranding;
    r_features : RawFeatures }.

Definition noBranding : RawBranding :=
  {| b_name := None; b_iconUrl := None; b_accent := None |}.
Definition noFeatures : RawFeatures :=
  {| f_ticketNameTemplate := None; f_welcomeMessage := None; f_transcripts := None;
     f_transcriptChannelId := None; f_autoCloseMinutes := None;
     f_autoTagClaims := None; f_prioritySupport := None |}.
(** The empty object [{}]. *)
Definition noRaw : Raw :=
  {| r_isPremium := None; r_plan := None; r_activatedAt := None; r_expiresAt := None;
     r_branding := noBranding; r_features := noFeatures |}.

(** [{ ...s, isPremium: false }] *)
Definition demoted (s : Raw) : Raw :=
  {| r_isPremium := Some false; r_plan := r_plan s;
     r_activatedAt := r_activatedAt s; r_expiresAt := r_expiresAt s;
     r_branding := r_branding s; r_features := r_features s |}.

Record Branding : Type :=
  { name : string; iconUrl : option string; accent : option string }.

Record Features : Type :=
  { ticketNameTemplate : string;
    welcomeMessage : string;
    transcripts : bool;
    transcriptChannelId : option string;
    autoCloseMinutes : Z;
    autoTagClaims : bool;
    prioritySupport : bool }.

(** What [getPremiumState] returns. *)
Record State : Type :=
  { isPremium : bool;
    plan : option string;
    activatedAt : option DateStr;
    expiresAt : option DateStr;
    branding : Branding;
    features : Features }.

(** A string that is present and not blank, or the default. *)
Definition nonBlankOr (d : string) (v : option string) : string :=
  match v with
  | Some s => if isEmpty (trim s) then d else s
  | None => d
  end.

(** [v || null] for a string field. *)
Definition orNull (v : option string) : option string :=
  match v with
  | Some s => if isEmpty s then None else Some s
  | None => None
  end.

(** The object [getPremiumState] builds from the stored record. *)
Definition view (raw : Raw) : State :=
  let b := r_branding raw in
  let f := r_features raw in
  {| isPremium := default false (r_isPremium raw);
     plan := orNull (r_plan raw);
     activatedAt := r_activatedAt raw;
     expiresAt := r_expiresAt raw;
     branding :=
       {| name := nonBlankOr "Nozzarri Tickets" (b_name b);
          iconUrl := b_iconUrl b;
          accent := b_accent b |};
     features :=
       {| ticketNameTemplate := nonBlankOr "ticket-{user}" (f_ticketNameTemplate f);
          welcomeMessage := default "" (f_welcomeMessage f);
          transcripts := default false (f_transcripts f);
          transcriptChannelId := f_transcriptChannelId f;
          autoCloseMinutes := default 0 (f_autoCloseMinutes f);
          autoTagClaims := default false (f_autoTagClaims f);
          prioritySupport := default false (f_prioritySupport f) |} |}.

(** A patch given to [savePremiumState]: the keys it has. In [branding]
    and [features] a key may be set to null ([Some None]). *)
Record BrandingPatch : Type :=
  { pb_name : option (option string);
    pb_iconUrl : option (option string);
    pb_accent : option (option string) }.

Record FeaturesPatch : Type :=
  { pf_ticketNameTemplate : option string;
    pf_welcomeMessage : option string;
    pf_transcripts : option bool;
    pf_transcriptChannelId : option (option string);
    pf_autoCloseMinutes : option Z;
    pf_autoTagClaims : option bool;
    pf_prioritySupport : option bool }.

Record Patch : Type :=
  { p_isPremium : option bool;
    p_plan : option string;
    p_activatedAt : option DateStr;
    p_expiresAt : option DateStr;
    p_branding : BrandingPatch;
    p_features : FeaturesPatch }.

Definition noBrandingPatch : BrandingPatch :=
  {| pb_name := None; pb_iconUrl := None; pb_accent := None |}.
Definition noFeaturesPatch : FeaturesPatch :=
  {| pf_ticketNameTemplate := None; pf_welcomeMessage := None; pf_transcripts := None;
     pf_transcriptChannelId := None; pf_autoCloseMinutes := None;
     pf_autoTagClaims := None; pf_prioritySupport := None |}.

(** One key of [{ ...raw, ...patch }]: the patch's value when it has the key. *)
Definition over {A : Type} (patch : option A) (raw : option A) : option A :=
  match patch with Some v => Some v | None => raw end.
Definition overNull {A : Type} (patch : option (option A)) (raw : option A) : option A :=
  match patch with Some v => v | None => raw end.

(** [nextRaw] of [savePremiumState]: the patch spread over the record,
    [branding] and [features] merged key by key, and [isPremium] made a
    boolean when the spread left it without one. *)
Definition merge (raw : Raw) (patch : Patch) : Raw :=
  {| r_isPremium :=
       Some (default (default false (r_isPremium raw))
                     (over (p_isPremium patch) (r_isPremium raw)));
     r_plan := over (p_plan patch) (r_plan raw);
     r_activatedAt := over (p_activatedAt patch) (r_activatedAt raw);
     r_expiresAt := over (p_expiresAt patch) (r_expiresAt raw);
     r_branding :=
       {| b_name := overNull (pb_name (p_branding patch)) (b_name (r_branding raw));
          b_iconUrl := overNull (pb_iconUrl (p_branding patch)) (b_iconUrl (r_branding raw));
          b_accent := overNull (pb_accent (p_branding patch)) (b_accent (r_branding raw)) |};
     r_features :=
       let pf := p_features patch in
       let rf := r_features raw in
       {| f_ticketNameTemplate := over (pf_ticketNameTemplate pf) (f_ticketNameTemplate rf);
          f_welcomeMessage := over (pf_welcomeMessage pf) (f_welcomeMessage rf);
          f_transcripts := over (pf_transcripts pf) (f_transcripts rf);
          f_transcriptChannelId :=
            overNull (pf_transcriptChannelId pf) (f_transcriptChannelId rf);
          f_autoCloseMinutes := over (pf_autoCloseMinutes pf) (f_autoCloseMinutes rf);
          f_autoTagClaims := over (pf_autoTagClaims pf) (f_autoTagClaims rf);
          f_prioritySupport := over (pf_prioritySupport pf) (f_prioritySupport rf) |} |}.

(** A record of [PREMIUM_KEYS]. [durationMs] and [durationDays] are [None]
    when the field is not a finite number. *)
Record Key : Type :=
  { k_plan : option string;
    durationMs : option Z;
    durationDays : option Z;
    durationLabel : option string;
    createdAt : option DateStr;
    createdBy : option string;
    used : bool;
    usedByGuildId : option string;
    usedAt : option DateStr }.

(** What the handler reads of a value that has none of these fields: a
    function, [Object.prototype], a string or a boolean. *)
Definition blank : Key :=
  {| k_plan := None; durationMs := None; durationDays := None;
     durationLabel := None; createdAt := None; createdBy := None;
     used := false; usedByGuildId := None; usedAt := None |}.

(** [{ ...k, used: true, usedByGuildId, usedAt }] *)
Definition consumed (k : Key) (guildId : string) (at_ : DateStr) : Key :=
  {| k_plan := k_plan k; durationMs := durationMs k; durationDays := durationDays k;
     durationLabel := durationLabel k; createdAt := createdAt k; createdBy := createdBy k;
     used := true; usedByGuildId := Some guildId; usedAt := Some at_ |}.

(** [addMs]: the key's milliseconds, or its days (30 without any). *)
Definition addMs (k : Key) : Z :=
  match durationMs k with
  | Some d => d
  | None => default 30 (durationDays k) * 24 * 60 * 60 * 1000
  end.

(** [base]: the current expiry when it parses and lies after [now]. *)
Definition base (now : Z) (current : Raw) : Z :=
  match r_expiresAt current with
  | Some d =>
      match parse d with
      | Some curMs => if now <? curMs then curMs else now
      | None => now
      end
  | None => now
  end.

End Premium.

(** ** The rating ledger: the records *)

Module Rating.
Import Str.

(** One bucket of [REVIEWS]. [avg] is the decimal with two places that the
    stored number denotes. *)
Record Entry : Type :=
  { reviews : list Z; avg : Double.number; count : Z }.

Record Reviews : Type :=
  { trade : gmap string Entry; service : gmap string Entry }.

Definition fresh : Entry :=
  {| reviews := []; avg := Double.Finite (inject_Z 0); count := 0 |}.

(** [+(sum / count).toFixed(2)] *)
Definition mean2 (sum cnt : Z) : Double.number :=
  match Double.divZ sum cnt with
  | Double.Finite q => Double.Finite (Double.toFixed2 q)
  | other => other
  end.

(** The bucket after [push(score)] and the two recomputations. *)
Definition pushed (e : Entry) (score : Z) : Entry :=
  let rs := (reviews e ++ [score])%list in
  let cnt := Z.of_nat (length rs) in
  let sum := fold_left Z.add rs 0 in
  {| reviews := rs; count := cnt; avg := mean2 sum cnt |}.

(** [parseInt(s, 10)], [None] standing for [NaN]: leading white space, an
    optional sign, then the longest run of digits, read as the double
    nearest to the integer they spell (an integer again; beyond [2^53] not
    always the same one). The id of a button has at most 100 characters,
    the platform's limit, so the digits spell less than [10^100] and the
    double is finite; digits that would give an infinite one are outside
    the embedding and read as [NaN] here. *)
Definition parseInt (s : option string) : option Z :=
  match s with
  | None => None
  | Some s =>
      let t := trimStart s in
      let '(sign, r) :=
        match t with
        | String "+" r => (1, r)
        | String "-" r => (-1, r)
        | _ => (1, t)
        end in
      let '(ds, _) := span isDigit r in
      if isEmpty ds then None
      else
        match Double.ofZ (decimal ds) with
        | Double.Finite q => Some (sign * Qfloor q)
        | _ => None
        end
  end.

End Rating.

(** ** The program's variables and its files *)

Module World.

Inductive File : Type :=
| GUILD_CFG_FILE | PREMIUM_FILE | PREMIUM_KEYS_FILE | REVIEWS_FILE | RATED_FILE.

(** How a write to a file ends: done, out of space ([ENOSPC]), or another
    error. [writeJsonSafe] catches both failures. *)
Inductive WriteResult : Type := Written | NoSpace | WriteError.

(** The documents on disk. *)
Record Files : Type :=
  { guildConfigs_json : gmap string Config.Saved;
    premiumGuilds_json : gmap string Premium.Raw;
    premiumKeys_json : gmap string Premium.Key;
    reviews_json : Rating.Reviews;
    ratedTickets_json : gmap string bool }.

(** The module-level variables, and the files. [keysPrototype] is the
    object [PREMIUM_KEYS] inherits from: [Object.prototype] at the start
    ([None]), or the record that an assignment to
    [PREMIUM_KEYS["__proto__"]] has put in its place, given by the guild
    and the time of its [usedByGuildId] and [usedAt]. *)
Record t : Type :=
  { GUILD_CONFIGS : gmap string Config.Saved;
    PREMIUM_GUILDS : gmap string Premium.Raw;
    PREMIUM_KEYS : gmap string Premium.Key;
    keysPrototype : option (string * Z);
    REVIEWS : Rating.Reviews;
    RATED : gmap string bool;
    DISK_FULL : bool;
    _cfgDirty : bool;
    _cfgSaveTimer : bool;
    files : Files }.

Definition setGuildConfigs (v : gmap string Config.Saved) (w : t) : t :=
  {| GUILD_CONFIGS := v; PREMIUM_GUILDS := PREMIUM_GUILDS w;
     PREMIUM_KEYS := PREMIUM_KEYS w; keysPrototype := keysPrototype w;
     REVIEWS := REVIEWS w; RATED := RATED w;
     DISK_FULL := DISK_FULL w; _cfgDirty := _cfgDirty w;
     _cfgSaveTimer := _cfgSaveTimer w; files := files w |}.

Definition setPremiumGuilds (v : gmap string Premium.Raw) (w : t) : t :=
  {| GUILD_CONFIGS := GUILD_CONFIGS w; PREMIUM_GUILDS := v;
     PREMIUM_KEYS := PREMIUM_KEYS w; keysPrototype := keysPrototype w;
     REVIEWS := REVIEWS w; RATED := RATED w;
     DISK_FULL := DISK_FULL w; _cfgDirty := _cfgDirty w;
     _cfgSaveTimer := _cfgSaveTimer w; files := files w |}.

Definition setPremiumKeys (v : gmap string Premium.Key) (w : t) : t :=
  {| GUILD_CONFIGS := GUILD_CONFIGS w; PREMIUM_GUILDS := PREMIUM_GUILDS w;
     PREMIUM_KEYS := v; keysPrototype := keysPrototype w;
     REVIEWS := REVIEWS w; RATED := RATED w;
     DISK_FULL := DISK_FULL w; _cfgDirty := _cfgDirty w;
     _cfgSaveTimer := _cfgSaveTimer w; files := files w |}.

Definition setKeysPrototype (v : option (string * Z)) (w : t) : t :=
  {| GUILD_CONFIGS := GUILD_CONFIGS w; PREMIUM_GUILDS := PREMIUM_GUILDS w;
     PREMIUM_KEYS := PREMIUM_KEYS w; keysPrototype := v;
     REVIEWS := REVIEWS w; RATED := RATED w;
     DISK_FULL := DISK_FULL w; _cfgDirty := _cfgDirty w;
     _cfgSaveTimer := _cfgSaveTimer w; files := files w |}.

Definition setReviews (v : Rating.Reviews) (w : t) : t :=
  {| GUILD_CONFIGS := GUILD_CONFIGS w; PREMIUM_GUILDS := PREMIUM_GUILDS w;
     PREMIUM_KEYS := PREMIUM_KEYS w; keysPrototype := keysPrototype w;
     REVIEWS := v; RATED := RATED w;
     DISK_FULL := DISK_FULL w; _cfgDirty := _cfgDirty w;
     _cfgSaveTimer := _cfgSaveTimer w; files := files w |}.

Definition setRated (v : gmap string bool) (w : t) : t :=
  {| GUILD_CONFIGS := GUILD_CONFIGS w; PREMIUM_GUILDS := PREMIUM_GUILDS w;
     PREMIUM_KEYS := PREMIUM_KEYS w; keysPrototype := keysPrototype w;
     REVIEWS := REVIEWS w; RATED := v;
     DISK_FULL := DISK_FULL w; _cfgDirty := _cfgDirty w;
     _cfgSaveTimer := _cfgSaveTimer w; files := files w |}.

Definition setDisk (full : bool) (fs : Files) (w : t) : t :=
  {| GUILD_CONFIGS := GUILD_CONFIGS w; PREMIUM_GUILDS := PREMIUM_GUILDS w;
     PREMIUM_KEYS := PREMIUM_KEYS w; keysPrototype := keysPrototype w;
     REVIEWS := REVIEWS w; RATED := RATED w;
     DISK_FULL := full; _cfgDirty := _cfgDirty w;
     _cfgSaveTimer := _cfgSaveTimer w; files := fs |}.

Definition setCfgTimer (dirty timer : bool) (w : t) : t :=
  {| GUILD_CONFIGS := GUILD_CONFIGS w; PREMIUM_GUILDS := PREMIUM_GUILDS w;
     PREMIUM_KEYS := PREMIUM_KEYS w; keysPrototype := keysPrototype w;
     REVIEWS := REVIEWS w; RATED := RATED w;
     DISK_FULL := DISK_FULL w; _cfgDirty := dirty;
     _cfgSaveTimer := timer; files := files w |}.

(** The file with the variable it is written from put in its place. Every
    call of [writeJsonSafe] passes a file together with its own variable. *)
Definition flushed (file : File) (w : t) : Files :=
  let fs := files w in
  {| guildConfigs_json :=
       match file with GUILD_CFG_FILE => GUILD_CONFIGS w | _ => guildConfigs_json fs end;
     premiumGuilds_json :=
       match file with PREMIUM_FILE => PREMIUM_GUILDS w | _ => premiumGuilds_json fs end;
     premiumKeys_json :=
       match file with PREMIUM_KEYS_FILE => PREMIUM_KEYS w | _ => premiumKeys_json fs end;
     reviews_json :=
       match file with REVIEWS_FILE => REVIEWS w | _ => reviews_json fs end;
     ratedTickets_json :=
       match file with RATED_FILE => RATED w | _ => ratedTickets_json fs end |}.

(** [writeJsonSafe(file, data)]: temporary file then rename, so the file
    changes only when the write is done; [DISK_FULL] follows the outcome. *)
Definition writeJsonSafe (file : File) (r : WriteResult) (w : t) : t :=
  match r with
  | Written => setDisk false (flushed file w) w
  | NoSpace => setDisk true (files w) w
  | WriteError => w
  end.

(** [scheduleConfigSave()]: the configuration is dirty and a timer of
    250 ms is pending, any earlier one cleared. *)
Definition scheduleConfigSave (w : t) : t := setCfgTimer true true w.

(** The timer of [scheduleConfigSave] firing. The write is the
    asynchronous one, taken here as done when the timer fires. *)
Definition configTimer (r : WriteResult) (w : t) : t :=
  let w := setCfgTimer (_cfgDirty w) false w in
  if negb (_cfgDirty w) then w
  else
    let w := setCfgTimer false false w in
    if DISK_FULL w then w else writeJsonSafe GUILD_CFG_FILE r w.

Definition getGuildConfig (guildId : string) (w : t) : Config.t :=
  Config.getGuildConfig (GUILD_CONFIGS w) guildId.

Definition saveGuildConfig (guildId : string) (patch : Config.Patch) (w : t)
  : Config.t * t :=
  let current := getGuildConfig guildId w in
  let next := Config.next current patch in
  (next,
   scheduleConfigSave
     (setGuildConfigs (<[guildId := Config.stored next]> (GUILD_CONFIGS w)) w)).

End World.

(** ** Premium entitlement: expiry, save, redeem *)

Module Entitlement.
Import Str World.

(** [ensurePremiumActiveOrExpire(guildId)]; [now] is the one reading of
    the clock and [wr] the outcome of the one write, both used only when
    the branch that needs them is taken. *)
Definition ensurePremiumActiveOrExpire
    (guildId : string) (now : Z) (wr : WriteResult) (w : t) : t :=
  match PREMIUM_GUILDS w !! guildId with
  | None => w
  | Some s =>
      if negb (default false (Premium.r_isPremium s)) then w
      else
        match Premium.r_expiresAt s with
        | None => w
        | Some d =>
            match Premium.parse d with
            | None => w
            | Some ms =>
                if ms <? now then
                  writeJsonSafe PREMIUM_FILE wr
                    (setPremiumGuilds
                       (<[guildId := Premium.demoted s]> (PREMIUM_GUILDS w)) w)
                else w
            end
        end
  end.

(** What [ensurePremiumActiveOrExpire] does, by cases: it demotes the
    record of a premium guild whose expiry parses to a time before [now],
    and otherwise does nothing. *)
Inductive Ensured (g : string) (now : Z) (wr : WriteResult) (w : t) : t -> Prop :=
| Kept : Ensured g now wr w w
| Demoted s ms :
    PREMIUM_GUILDS w !! g = Some s ->
    Premium.r_isPremium s = Some true ->
    (exists d, Premium.r_expiresAt s = Some d /\ Premium.parse d = Some ms) ->
    ms < now ->
    Ensured g now wr w
      (writeJsonSafe PREMIUM_FILE wr
         (setPremiumGuilds (<[g := Premium.demoted s]> (PREMIUM_GUILDS w)) w)).

(** [PREMIUM_GUILDS[guildId] || {}] *)
Definition stored (guildId : string) (w : t) : Premium.Raw :=
  default Premium.noRaw (PREMIUM_GUILDS w !! guildId).

(** The premium flag as stored for a guild, [!!raw.isPremium]. *)
Definition premiumFlag (guildId : string) (w : t) : bool :=
  Premium.isPremium (Premium.view (stored guildId w)).

Definition getPremiumState
    (guildId : string) (now : Z) (wr : WriteResult) (w : t) : Premium.State * t :=
  let w := ensurePremiumActiveOrExpire guildId now wr w in
  let raw := stored guildId w in
  (Premium.view raw, w).

(** [savePremiumState(guildId, patch)]: [wrSave] is the outcome of its own
    write, [now] and [wr] belong to the [getPremiumState] it ends with. *)
Definition savePremiumState
    (guildId : string) (patch : Premium.Patch)
    (wrSave : WriteResult) (now : Z) (wr : WriteResult) (w : t) : Premium.State * t :=
  let raw := stored guildId w in
  let nextRaw := Premium.merge raw patch in
  let w := setPremiumGuilds (<[guildId := nextRaw]> (PREMIUM_GUILDS w)) w in
  let w := writeJsonSafe PREMIUM_FILE wrSave w in
  getPremiumState guildId now wr w.

Record Guild : Type := { id : string; ownerId : string }.

(** A message: the guild it was sent in, if any, its author (the id, and
    whether the author is a bot) and its text. *)
Record Message : Type :=
  { guild : option Guild; authorId : string; authorBot : bool; content : string }.

(** What the handler of [?premium-redeem] reads from its environment, in
    source order. *)
Record Env : Type :=
  { usedAtClock : Z;          (* new Date() for usedAt *)
    keysWrite : WriteResult;  (* writeJsonSafe(PREMIUM_KEYS_FILE, ..) *)
    now : Z;                  (* Date.now() *)
    activatedAtClock : Z;     (* new Date() for a first activatedAt *)
    stateWrite : WriteResult; (* the write of savePremiumState *)
    readClock : Z;            (* Date.now() of the closing getPremiumState *)
    expireWrite : WriteResult (* its write, if it demotes *) }.

Inductive Reply : Type :=
| FromBot          (* message.author.bot: return without a reply *)
| NotThisCommand   (* the content does not start with ?premium-redeem *)
| NoGuild          (* return without a reply *)
| OwnerOnly        (* "Only the server owner can redeem premium." *)
| Usage            (* "Usage: ?premium-redeem DS-XXXX-XXXX-XXXX" *)
| InvalidKey       (* "Invalid key." *)
| KeyAlreadyUsed   (* "This key was already used." *)
| Activated        (* "Premium activated for this server!" *)
| RangeError.      (* toISOString throws on an invalid time value *)

(** The message is a redemption of [key]: its trimmed content starts with
    the command and its second word is the key. *)
Definition asksToRedeem (message : Message) (key : string) : Prop :=
  startsWith (trim (content message)) "?premium-redeem" = true
  /\ nth_error (words (trim (content message))) 1 = Some key.

(** The author, a user and not a bot, owns the guild the message was
    sent in. *)
Definition fromOwnerOf (message : Message) (g : Guild) : Prop :=
  guild message = Some g /\ authorBot message = false
  /\ authorId message = ownerId g.

(** A time value that a [Date] can hold. *)
Definition representable (ms : Z) : Prop :=
  - Premium.maxTime <= ms <= Premium.maxTime.

(** The patch of a redemption: premium on, the key's plan, the first
    activation time kept when there is one, the new expiry. *)
Definition activation (k : Premium.Key) (current : Premium.Raw)
    (activatedAtClock : Z) (nextExpiresAt : Premium.DateStr) : Premium.Patch :=
  {| Premium.p_isPremium := Some true;
     Premium.p_plan := Some (default "custom" (Premium.orNull (Premium.k_plan k)));
     Premium.p_activatedAt :=
       Some (default (Premium.Parsable activatedAtClock) (Premium.r_activatedAt current));
     Premium.p_expiresAt := Some nextExpiresAt;
     Premium.p_branding := Premium.noBrandingPatch;
     Premium.p_features := Premium.noFeaturesPatch |}.

(** The properties every object inherits from [Object.prototype] that are
    functions; [__proto__], the one that is not, is read and written
    through an accessor. *)
Definition objectMethods : list string :=
  [ "constructor"; "hasOwnProperty"; "isPrototypeOf"; "propertyIsEnumerable";
    "toLocaleString"; "toString"; "valueOf";
    "__defineGetter__"; "__defineSetter__"; "__lookupGetter__"; "__lookupSetter__" ].

(** The record that has taken the place of [Object.prototype]. *)
Definition prototypeRecord (p : string * Z) : Premium.Key :=
  Premium.consumed Premium.blank (fst p) (Premium.Parsable (snd p)).

(** [PREMIUM_KEYS[key]] as the handler uses it, [None] for a falsy value:
    an own property of the object; else, under [__proto__], the object it
    inherits from; else a function of [Object.prototype]; else a truthy
    property of the record it inherits from, when there is one ([true]
    under [used], the time under [usedAt], the guild under
    [usedByGuildId]). A value that is not a key record has none of the
    fields the handler reads. *)
Definition lookupKey (key : string) (w : t) : option Premium.Key :=
  match PREMIUM_KEYS w !! key with
  | Some k => Some k
  | None =>
      if String.eqb key "__proto__" then
        Some (match keysPrototype w with
              | Some p => prototypeRecord p
              | None => Premium.blank
              end)
      else if existsb (String.eqb key) objectMethods then Some Premium.blank
      else
        match keysPrototype w with
        | Some (guildId, _) =>
            if String.eqb key "used" || String.eqb key "usedAt" then Some Premium.blank
            else if String.eqb key "usedByGuildId" && negb (isEmpty guildId)
                 then Some Premium.blank
            else None
        | None => None
        end
  end.

(** [PREMIUM_KEYS[key] = { ...k, used: true, usedByGuildId, usedAt }]: an
    own property is set, but for [__proto__] where the object has no own
    property of that name: there the accessor makes the new record the
    object [PREMIUM_KEYS] inherits from ([k] being then the object it
    inherited from, which has no field to copy). *)
Definition assignConsumed (key : string) (k : Premium.Key) (guildId : string)
    (usedAtClock : Z) (w : t) : t :=
  match PREMIUM_KEYS w !! key with
  | None =>
      if String.eqb key "__proto__"
      then setKeysPrototype (Some (guildId, usedAtClock)) w
      else setPremiumKeys
             (<[key := Premium.consumed k guildId (Premium.Parsable usedAtClock)]>
                (PREMIUM_KEYS w)) w
  | Some _ =>
      setPremiumKeys
        (<[key := Premium.consumed k guildId (Premium.Parsable usedAtClock)]>
           (PREMIUM_KEYS w)) w
  end.

(** The key marked used in [PREMIUM_KEYS] and the file of keys written;
    the file holds the own properties. *)
Definition consume (key : string) (k : Premium.Key) (guildId : string)
    (usedAtClock : Z) (wr : WriteResult) (w : t) : t :=
  writeJsonSafe PREMIUM_KEYS_FILE wr (assignConsumed key k guildId usedAtClock w).

Definition redeem (message : Message) (env : Env) (w : t) : Reply * t :=
  if authorBot message then (FromBot, w)
  else
  let content := trim (content message) in
  if negb (startsWith content "?premium-redeem") then (NotThisCommand, w)
  else
    match guild message with
    | None => (NoGuild, w)
    | Some g =>
        if negb (String.eqb (authorId message) (ownerId g)) then (OwnerOnly, w)
        else
          match nth_error (words content) 1 with
          | None => (Usage, w)
          | Some key =>
              match lookupKey key w with
              | None => (InvalidKey, w)
              | Some k =>
                  if Premium.used k then (KeyAlreadyUsed, w)
                  else
                    let w := consume key k (id g) (usedAtClock env) (keysWrite env) w in
                    let addMs := Premium.addMs k in
                    let current := stored (id g) w in
                    let base := Premium.base (now env) current in
                    match Premium.toISOString (base + addMs) with
                    | None => (RangeError, w)
                    | Some nextExpiresAt =>
                        let '(_, w) :=
                          savePremiumState (id g)
                            (activation k current (activatedAtClock env) nextExpiresAt)
                            (stateWrite env) (readClock env) (expireWrite env) w in
                        (Activated, w)
                    end
              end
          end
    end.

(** What a call of the handler may do to the world. *)
Inductive Redeemed (m : Message) (env : Env) (w : t) : t -> Prop :=
| Untouched : Redeemed m env w w
| Consumed g key k :
    guild m = Some g -> lookupKey key w = Some k -> Premium.used k = false ->
    Redeemed m env w (consume key k (id g) (usedAtClock env) (keysWrite env) w)
| Saved g key k patch :
    guild m = Some g -> lookupKey key w = Some k -> Premium.used k = false ->
    Redeemed m env w
      (snd (savePremiumState (id g) patch
              (stateWrite env) (readClock env) (expireWrite env)
              (consume key k (id g) (usedAtClock env) (keysWrite env) w))).

End Entitlement.

(** ** Licence keys: generation *)

Module KeyGen.
Import Str World.

(** What the handler of [?premium-gen] reads from its environment:
    [OWNER_IDS] (taken from [process.env] when the program starts), the
    draws of [Math.random] as the indices [Math.floor(Math.random() * 32)]
    they give, the clock read for each key and the outcome of the write. *)
Record Env : Type :=
  { OWNER_IDS : list string;
    random : nat -> nat;
    createdAtClock : nat -> Z;
    genWrite : WriteResult }.

Definition isBotOwner (userId : string) (env : Env) : bool :=
  existsb (String.eqb userId) (OWNER_IDS env).

Definition alphabet : string := "ABCDEFGHJKLMNPQRSTUVWXYZ23456789".

(** [alphabet[i]], the index read modulo the length of the alphabet. *)
Definition letter (i : nat) : ascii :=
  default "A"%char (String.get (i mod String.length alphabet) alphabet).

(** [chunk()]: four letters, from the draw numbered [from] on. *)
Definition chunk (env : Env) (from : nat) : string :=
  string_of_list_ascii
    (List.map (fun j => letter (random env (from + j))) (seq 0 4)).

(** [makeLicenseKey()], the first of its twelve draws being numbered
    [from]. *)
Definition makeLicenseKey (env : Env) (from : nat) : string :=
  "DS-" +:+ chunk env from +:+ "-" +:+ chunk env (from + 4)
  +:+ "-" +:+ chunk env (from + 8).

(** The key drawn in turn [i] of the loop. *)
Definition draw (env : Env) (i : nat) : string := makeLicenseKey env (12 * i).

(** The record stored for a new key. *)
Definition fresh (dur : Duration.t) (author : string) (createdAt : Z) : Premium.Key :=
  {| Premium.k_plan := Some (Duration.plan_ dur);
     Premium.durationMs := Some (Duration.ms dur);
     Premium.durationDays := Some (Duration.days_ dur);
     Premium.durationLabel := Some (Duration.label dur);
     Premium.createdAt := Some (Premium.Parsable createdAt);
     Premium.createdBy := Some author;
     Premium.used := false;
     Premium.usedByGuildId := None;
     Premium.usedAt := None |}.

(** [count]: 1 without a third word, else [Math.floor(Number(countArg))]
    for a number from 1 to 25. *)
Definition countOf (countArg : option string) : option nat :=
  match countArg with
  | None => Some 1%nat
  | Some a =>
      match Numeric.Number a with
      | Double.Finite n =>
          if Qle_bool (inject_Z 1) n && Qle_bool n (inject_Z 25)
          then Some (Z.to_nat (Qfloor n))
          else None
      | _ => None
      end
  end.

Inductive Reply : Type :=
| FromBot           (* message.author.bot: return without a reply *)
| NotThisCommand    (* the content does not start with ?premium-gen *)
| NoGuild           (* return without a reply *)
| BotOwnerOnly      (* "This is a bot-owner command." *)
| Usage             (* "Usage: ?premium-gen 15d ..." *)
| InvalidDuration   (* "Invalid duration. Examples: ..." *)
| BadCount          (* "Count must be between 1 and 25." *)
| Generated (keys : list string).

(** The loop, from turn [i], [count] turns to go: a key is drawn and its
    record stored, over whatever the store held under that key. *)
Fixpoint issue (dur : Duration.t) (author : string) (env : Env)
    (i count : nat) (store : gmap string Premium.Key)
  : list string * gmap string Premium.Key :=
  match count with
  | O => ([], store)
  | S count' =>
      let key := draw env i in
      let store := <[key := fresh dur author (createdAtClock env i)]> store in
      let '(keys, store) := issue dur author env (S i) count' store in
      (key :: keys, store)
  end.

Definition generate (message : Entitlement.Message) (env : Env) (w : t) : Reply * t :=
  if Entitlement.authorBot message then (FromBot, w)
  else
  let content := trim (Entitlement.content message) in
  if negb (startsWith content "?premium-gen") then (NotThisCommand, w)
  else
    match Entitlement.guild message with
    | None => (NoGuild, w)
    | Some _ =>
        if negb (isBotOwner (Entitlement.authorId message) env) then (BotOwnerOnly, w)
        else
          let parts := words content in
          match nth_error parts 1 with
          | None => (Usage, w)
          | Some planArg =>
              match Duration.parseDurationToMs planArg with
              | None => (InvalidDuration, w)
              | Some dur =>
                  match countOf (nth_error parts 2) with
                  | None => (BadCount, w)
                  | Some count =>
                      let '(keys, store) :=
                        issue dur (Entitlement.authorId message) env 0 count
                          (PREMIUM_KEYS w) in
                      (Generated keys,
                       writeJsonSafe PREMIUM_KEYS_FILE (genWrite env)
                         (setPremiumKeys store w))
                  end
              end
          end
    end.

End KeyGen.

(** ** Tickets: who may manage them, claim and unclaim *)

Module Tickets.
Import Str World.

Inductive ChannelType : Type := GuildText | OtherChannel.

(** A channel as the handlers see it; [topic] and [name] are what the chat
    platform holds and are changed by [setTopic] and [setName]. *)
Record Channel : Type :=
  { type : ChannelType;
    guildId : string;
    parentId : option string;
    topic : option string;
    name : string }.

(** A guild member: the user, the guild and the roles held. *)
Record Member : Type :=
  { userId : string; memberGuildId : string; roles : list string }.

Definition setTopic (newTopic : string) (ok : bool) (c : Channel) : Channel :=
  if ok then
    {| type := type c; guildId := guildId c; parentId := parentId c;
       topic := Some newTopic; name := name c |}
  else c.

Definition setName (newName : string) (ok : bool) (c : Channel) : Channel :=
  if ok then
    {| type := type c; guildId := guildId c; parentId := parentId c;
       topic := topic c; name := newName |}
  else c.

(** Two channels that differ in topic and name only. *)
Definition sameChannel (c c' : Channel) : Prop :=
  type c' = type c /\ guildId c' = guildId c /\ parentId c' = parentId c.

(** [member.roles.cache.some(r => list.includes(r.id))] *)
Definition holdsAny (member : Member) (l : list string) : bool :=
  existsb (fun r => existsb (String.eqb r) l) (roles member).

Definition isAdmin (member : Member) (w : t) : bool :=
  holdsAny member (Config.adminRoles (getGuildConfig (memberGuildId member) w)).
Definition isSupport (member : Member) (w : t) : bool :=
  holdsAny member (Config.supportRoles (getGuildConfig (memberGuildId member) w)).
Definition isTradeStaff (member : Member) (w : t) : bool :=
  holdsAny member (Config.mmRoles (getGuildConfig (memberGuildId member) w)).

(** [a === b] on identifiers that may be null. *)
Definition sameId (a b : option string) : bool :=
  match a, b with
  | Some x, Some y => String.eqb x y
  | None, None => true
  | _, _ => false
  end.

Definition isText (channel : option Channel) : bool :=
  match channel with
  | Some c => match type c with GuildText => true | OtherChannel => false end
  | None => false
  end.

Definition canManageTicket (member : Member) (channel : option Channel) (w : t) : bool :=
  match channel with
  | None => false
  | Some c =>
      if negb (isText channel) then false
      else if isAdmin member w then true
      else
        let cfg := getGuildConfig (guildId c) w in
        if sameId (parentId c) (Config.supportCategoryId cfg) then isSupport member w
        else if sameId (parentId c) (Config.mmCategoryId cfg)
             then isSupport member w || isTradeStaff member w
        else false
  end.

Definition isTicketChannel (channel : option Channel) (w : t) : bool :=
  match channel with
  | None => false
  | Some c =>
      if negb (isText channel) then false
      else
        let cfg := getGuildConfig (guildId c) w in
        if Config.truthy (Config.supportCategoryId cfg)
           && sameId (parentId c) (Config.supportCategoryId cfg) then true
        else if Config.truthy (Config.mmCategoryId cfg)
                && sameId (parentId c) (Config.mmCategoryId cfg) then true
        else if Config.truthy (Topic.opened (Topic.parseTopic (topic c))) then true
        else
          let n := toLowerCase (name c) in
          startsWith n "ticket-" || startsWith n "support-"
          || startsWith n "trade-" || startsWith n "mm-"
  end.

Fixpoint dropDashes (s : string) : string :=
  match s with
  | String "-" r => dropDashes r
  | _ => s
  end.

(** [s.replace(/^claimed-+/i, "")] *)
Definition stripClaimed (s : string) : string :=
  if String.eqb (toLowerCase (take 7 s)) "claimed" then
    match drop 7 s with
    | String "-" r => dropDashes r
    | _ => s
    end
  else s.

(** [s || d] *)
Definition orElse (s d : string) : string := if isEmpty s then d else s.

Inductive Reply : Type :=
| InvalidChannel       (* button: "Invalid channel." *)
| NotTicketChannel     (* "This command can only be used inside a ticket channel." *)
| NotAllowed           (* "You are not allowed to claim / unclaim this ticket." *)
| AlreadyClaimed       (* "This ticket is already claimed." *)
| NotClaimed           (* "This ticket is not claimed." *)
| ClaimerOrAdminOnly   (* "Only <claimer> or an Admin can unclaim this ticket." *)
| Claimed
| Unclaimed.

(** The error of the specification's taxonomy a reply stands for. *)
Inductive Error : Type := EInvalid | EForbidden | EAlreadyClaimed | ENotClaimed.

Definition errorOf (r : Reply) : option Error :=
  match r with
  | InvalidChannel | NotTicketChannel => Some EInvalid
  | NotAllowed | ClaimerOrAdminOnly => Some EForbidden
  | AlreadyClaimed => Some EAlreadyClaimed
  | NotClaimed => Some ENotClaimed
  | Claimed | Unclaimed => None
  end.

(** The [claim_ticket] button. [setTopicOk] tells whether the platform
    applies the topic; a refusal is swallowed by [.catch]. *)
Definition claimButton
    (member : Member) (channel : option Channel) (setTopicOk : bool) (w : t)
  : Reply * option Channel :=
  match channel with
  | None => (InvalidChannel, channel)
  | Some c =>
      if negb (isText channel) then (InvalidChannel, channel)
      else if negb (canManageTicket member channel w) then (NotAllowed, channel)
      else
        let t := Topic.parseTopic (topic c) in
        match Topic.claimed t with
        | Some _ => (AlreadyClaimed, channel)
        | None =>
            (Claimed,
             Some (setTopic (Topic.makeTopic (Topic.opened t) (Some (userId member)))
                            setTopicOk c))
        end
  end.

(** What [/claim] and [/unclaim] read from their environment, in source
    order: the platform's answer to [setTopic], the clock and the write of
    the first [getPremiumState], the answer to [setName], and the clock
    and the write of the [getPremiumState] inside [applyBranding]. *)
Record Env : Type :=
  { setTopicOk : bool;
    now1 : Z; write1 : WriteResult;
    setNameOk : bool;
    now2 : Z; write2 : WriteResult }.

(** The renaming [/claim] does for a premium guild with claim tagging on:
    the prefix [claimed-] put once in front of the name. *)
Definition autoTag (prem : Premium.State) (ok : bool) (c : Channel) : Channel :=
  if Premium.isPremium prem && Premium.autoTagClaims (Premium.features prem)
  then
    let base := stripClaimed (orElse (name c) "ticket") in
    let nextName := take 90 ("claimed-" +:+ base) in
    if negb (isEmpty nextName) && negb (String.eqb nextName (name c))
    then setName nextName ok c
    else c
  else c.

(** The renaming [/unclaim] does for such a guild: the prefix taken off a
    name that starts with it. *)
Definition autoUntag (prem : Premium.State) (ok : bool) (c : Channel) : Channel :=
  if Premium.isPremium prem && Premium.autoTagClaims (Premium.features prem)
  then
    if startsWith (toLowerCase (name c)) "claimed-"
    then
      let base := stripClaimed (name c) in
      setName (take 90 (orElse base "ticket")) ok c
    else c
  else c.

(** The two calls of [getPremiumState] of a slash command, as they act on
    the world: the expiry check of the guild, twice. *)
Definition checkedTwice (g : string) (env : Env) (w : t) : t :=
  Entitlement.ensurePremiumActiveOrExpire g (now2 env) (write2 env)
    (Entitlement.ensurePremiumActiveOrExpire g (now1 env) (write1 env) w).

Definition claimCommand
    (member : Member) (channel : option Channel) (env : Env) (w : t)
  : Reply * option Channel * t :=
  match channel with
  | None => (NotTicketChannel, channel, w)
  | Some c =>
      if negb (isText channel) || negb (isTicketChannel channel w)
      then (NotTicketChannel, channel, w)
      else if negb (canManageTicket member channel w) then (NotAllowed, channel, w)
      else
        let topic := Topic.parseTopic (topic c) in
        let claimedAlready :=
          match Topic.claimed topic with
          | Some cl => negb (String.eqb cl "null")
          | None => false
          end in
        if claimedAlready then (AlreadyClaimed, channel, w)
        else
          let opened := default "unknown" (Topic.opened topic) in
          let newTopic := "opened:" +:+ opened +:+ ";claimed:" +:+ userId member in
          let c := setTopic newTopic (setTopicOk env) c in
          let '(prem, w) :=
            Entitlement.getPremiumState (guildId c) (now1 env) (write1 env) w in
          let c := autoTag prem (setNameOk env) c in
          let '(_, w) :=
            Entitlement.getPremiumState (guildId c) (now2 env) (write2 env) w in
          (Claimed, Some c, w)
  end.

(** The channel a successful [/unclaim] leaves: the topic without a
    claimer when the platform applies it, the name untagged. *)
Definition released (c : Channel) (env : Env) (w : t) : Channel :=
  autoUntag
    (fst (Entitlement.getPremiumState (guildId c) (now1 env) (write1 env) w))
    (setNameOk env)
    (setTopic ("opened:" +:+ default "unknown" (Topic.opened (Topic.parseTopic (topic c)))
               +:+ ";claimed:null")
              (setTopicOk env) c).

Definition unclaimCommand
    (member : Member) (channel : option Channel) (env : Env) (w : t)
  : Reply * option Channel * t :=
  match channel with
  | None => (NotTicketChannel, channel, w)
  | Some c =>
      if negb (isText channel) || negb (isTicketChannel channel w)
      then (NotTicketChannel, channel, w)
      else if negb (canManageTicket member channel w) then (NotAllowed, channel, w)
      else
        let topic := Topic.parseTopic (topic c) in
        match Topic.claimed topic with
        | None => (NotClaimed, channel, w)
        | Some cl =>
            if negb (String.eqb cl (userId member)) && negb (isAdmin member w)
            then (ClaimerOrAdminOnly, channel, w)
            else
              let opened := default "unknown" (Topic.opened topic) in
              let newTopic := "opened:" +:+ opened +:+ ";claimed:null" in
              let c := setTopic newTopic (setTopicOk env) c in
              let '(prem, w) :=
                Entitlement.getPremiumState (guildId c) (now1 env) (write1 env) w in
              let c := autoUntag prem (setNameOk env) c in
              let '(_, w) :=
                Entitlement.getPremiumState (guildId c) (now2 env) (write2 env) w in
              (Unclaimed, Some c, w)
        end
  end.

End Tickets.

(** ** Ratings: the handler of the [rate:] buttons *)

Module Ratings.
Import Str World.

(** [addReviewForStaff(staffId, score)], with the outcome of its write. *)
Definition addReviewForStaff (staffId : string) (score : Z) (wr : WriteResult) (w : t) : t :=
  let R := REVIEWS w in
  let e := default Rating.fresh (Rating.trade R !! staffId) in
  let R :=
    {| Rating.trade := <[staffId := Rating.pushed e score]> (Rating.trade R);
       Rating.service := Rating.service R |} in
  writeJsonSafe REVIEWS_FILE wr (setReviews R w).

(** [addReviewForService(score)]: the one bucket ["global"]. *)
Definition addReviewForService (score : Z) (wr : WriteResult) (w : t) : t :=
  let key := "global" in
  let R := REVIEWS w in
  let e := default Rating.fresh (Rating.service R !! key) in
  let R :=
    {| Rating.trade := Rating.trade R;
       Rating.service := <[key := Rating.pushed e score]> (Rating.service R) |} in
  writeJsonSafe REVIEWS_FILE wr (setReviews R w).

(** A button press: the button's id and the user who pressed it. *)
Record Interaction : Type := { customId : string; userId : string }.

(** The outcomes of the two writes of a recorded rating. *)
Record Env : Type := { reviewsWrite : WriteResult; ratedWrite : WriteResult }.

Inductive Reply : Type :=
| NotARating           (* the id does not start with rate: *)
| InvalidData          (* "Invalid rating data." *)
| AlreadyRated         (* "You already rated ... for this ticket." *)
| Thanks (score : Z)   (* "Thanks - you rated ... <score>" *)
| UnknownType.         (* "Unknown rating type." *)

(** [RATED[key]] read as a condition. *)
Definition rated (key : string) (w : t) : bool := default false (RATED w !! key).

Definition markRated (key : string) (wr : WriteResult) (w : t) : t :=
  writeJsonSafe RATED_FILE wr (setRated (<[key := true]> (RATED w)) w).

(** The block of the listener for the ids that start with [rate:]
    (3867-3949), by itself: what it does with a press when it is run. The
    listener as written does not run it: control never gets past line
    3844, see [Listener.button]. *)
Definition rate (interaction : Interaction) (env : Env) (w : t) : Reply * t :=
  if negb (startsWith (customId interaction) "rate:") then (NotARating, w)
  else
    let parts := split ":" (customId interaction) in
    let kind := default "" (nth_error parts 1) in
    if String.eqb kind "trade" || String.eqb kind "mm" then
      let ticketName := nth_error parts 2 in
      let staffId := nth_error parts 3 in
      let score := Rating.parseInt (nth_error parts 4) in
      match ticketName, staffId, score with
      | Some ticketName, Some staffId, Some score =>
          if isEmpty ticketName || isEmpty staffId || (score =? 0) then (InvalidData, w)
          else
            let key := ticketName +:+ "_" +:+ userId interaction +:+ "_mm" in
            if rated key w then (AlreadyRated, w)
            else
              let w := addReviewForStaff staffId score (reviewsWrite env) w in
              let w := markRated key (ratedWrite env) w in
              (Thanks score, w)
      | _, _, _ => (InvalidData, w)
      end
    else if String.eqb kind "service" then
      let ticketName := nth_error parts 2 in
      let score := Rating.parseInt (nth_error parts 3) in
      match ticketName, score with
      | Some ticketName, Some score =>
          if isEmpty ticketName || (score =? 0) then (InvalidData, w)
          else
            let key := ticketName +:+ "_" +:+ userId interaction +:+ "_service" in
            if rated key w then (AlreadyRated, w)
            else
              let w := addReviewForService score (reviewsWrite env) w in
              let w := markRated key (ratedWrite env) w in
              (Thanks score, w)
      | _, _ => (InvalidData, w)
      end
    else (UnknownType, w).

(** The two kinds of rating a closed ticket asks for. *)
Inductive Kind : Type := Trade | Service.

(** The ids [dmSummaryAndRating] gives its buttons:
    [rate:trade:<ticket>:<staff>:<s>] and [rate:service:<ticket>:<s>],
    [s] from 1 to 5. *)
Definition buttonId (kind : Kind) (ticketName staffId : string) (s : Z) : string :=
  match kind with
  | Trade => "rate:trade:" +:+ ticketName +:+ ":" +:+ staffId +:+ ":" +:+ pretty s
  | Service => "rate:service:" +:+ ticketName +:+ ":" +:+ pretty s
  end.

(** The key of [RATED] for a ticket, a rater and a kind. *)
Definition dedupKey (kind : Kind) (ticketName rater : string) : string :=
  match kind with
  | Trade => ticketName +:+ "_" +:+ rater +:+ "_mm"
  | Service => ticketName +:+ "_" +:+ rater +:+ "_service"
  end.

(** The bucket of the ledger a rating of that kind goes to. *)
Definition bucket (kind : Kind) (staffId : string) (R : Rating.Reviews)
  : option Rating.Entry :=
  match kind with
  | Trade => Rating.trade R !! staffId
  | Service => Rating.service R !! "global"
  end.

(** The world after a rating is recorded. *)
Definition record (kind : Kind) (staffId : string) (score : Z) (key : string)
    (env : Env) (w : t) : t :=
  markRated key (ratedWrite env)
    (match kind with
     | Trade => addReviewForStaff staffId score (reviewsWrite env) w
     | Service => addReviewForService score (reviewsWrite env) w
     end).

(** A ticket name or staff id as the button ids carry them: not empty and
    without a colon. *)
Definition fitsId (s : string) : Prop := s <> "" /\ noneOf ":" s = true.

End Ratings.

(** ** The dashboard: saving a server's settings *)

Module Dashboard.
Import Str World.

(** The fields of the posted form; a field may be missing. *)
Record Body : Type :=
  { supportCategoryId : option string;
    mmCategoryId : option string;
    logChannelId : option string;
    transcriptChannelId : option string;
    supportRoles : option string;
    mmRoles : option string;
    adminRoles : option string }.

(** [/^\d{10,25}$/] *)
Definition looksLikeId (s : string) : bool :=
  forallb isDigit s && (10 <=? String.length s)%nat && (String.length s <=? 25)%nat.

Definition cleanId (v : option string) : option string :=
  let s := trim (default "" v) in
  if isEmpty s then None
  else if looksLikeId s then Some s else None.

Definition parseIdList (v : option string) : list string :=
  let s := trim (default "" v) in
  if isEmpty s then []
  else List.filter looksLikeId (List.map trim (split "," s)).

Definition patchOf (body : Body) : Config.Patch :=
  {| Config.p_supportCategoryId := Some (cleanId (supportCategoryId body));
     Config.p_mmCategoryId := Some (cleanId (mmCategoryId body));
     Config.p_logChannelId := Some (cleanId (logChannelId body));
     Config.p_transcriptChannelId := Some (cleanId (transcriptChannelId body));
     Config.p_supportEnabled := None;
     Config.p_tradeEnabled := None;
     Config.p_logsEnabled := None;
     Config.p_supportRoles := Some (parseIdList (supportRoles body));
     Config.p_mmRoles := Some (parseIdList (mmRoles body));
     Config.p_adminRoles := Some (parseIdList (adminRoles body));
     Config.p_panelText := None |}.

(** The functions the program declares that take a guild id and a
    configuration patch, by name. A call of a name that is not declared
    throws a [ReferenceError]. *)
Definition declared : list (string * (string -> Config.Patch -> t -> Config.t * t)) :=
  [ ("saveGuildConfig", saveGuildConfig) ].

Definition resolve (name : string)
  : option (string -> Config.Patch -> t -> Config.t * t) :=
  snd <$> List.find (fun d => String.eqb (fst d) name) declared.

Inductive Flash : Type :=
| Saved            (* "Saved" *)
| SaveFailed       (* "Save failed." *)
| NeedsPremium     (* "Branding requires premium for that server." *)
| BrandingSaved.   (* "Branding saved" *)

Inductive Response : Type :=
| ToLogin                     (* requireLogin: redirect to /dashboard *)
| ToServer (flash : Flash).   (* redirect to /server/<guildId> *)

(** [POST /server/:guildId/save]: the patch is built and handed to
    [patchGuildConfig] inside a [try]; whatever is thrown there is caught
    and reported as a failed save. *)
Definition postSave (logged : bool) (guildId : string) (body : Body) (w : t)
  : Response * t :=
  if negb logged then (ToLogin, w)
  else
    let patch := patchOf body in
    match resolve "patchGuildConfig" with
    | Some patchGuildConfig =>
        let '(_, w) := patchGuildConfig guildId patch w in
        (ToServer Saved, w)
    | None => (ToServer SaveFailed, w)
    end.

(** The fields of the branding form. *)
Record BrandingBody : Type :=
  { brandName : option string; iconUrl : option string; accent : option string }.

(** [String(v || "").trim().slice(0, n) || old] *)
Definition cut (n : nat) (v : option string) (old : option string) : option string :=
  let s := take n (trim (default "" v)) in
  if isEmpty s then old else Some s.

(** [POST /server/:guildId/branding]: the branding of a guild whose stored
    flag is on, changed in place; the expiry is not looked at. *)
Definition postBranding (logged : bool) (guildId : string) (body : BrandingBody)
    (wr : WriteResult) (w : t) : Response * t :=
  if negb logged then (ToLogin, w)
  else
    match PREMIUM_GUILDS w !! guildId with
    | None => (ToServer NeedsPremium, w)
    | Some next =>
        if negb (default false (Premium.r_isPremium next))
        then (ToServer NeedsPremium, w)
        else
          let b := Premium.r_branding next in
          let next :=
            {| Premium.r_isPremium := Premium.r_isPremium next;
               Premium.r_plan := Premium.r_plan next;
               Premium.r_activatedAt := Premium.r_activatedAt next;
               Premium.r_expiresAt := Premium.r_expiresAt next;
               Premium.r_branding :=
                 {| Premium.b_name := cut 40 (brandName body) (Premium.b_name b);
                    Premium.b_iconUrl := cut 300 (iconUrl body) (Premium.b_iconUrl b);
                    Premium.b_accent := cut 20 (accent body) (Premium.b_accent b) |};
               Premium.r_features := Premium.r_features next |} in
          (ToServer BrandingSaved,
           writeJsonSafe PREMIUM_FILE wr
             (setPremiumGuilds (<[guildId := next]> (PREMIUM_GUILDS w)) w))
    end.

End Dashboard.

(** ** Runs of the program *)

Module Run.
Import World.

(** The two ways to claim a ticket. *)
Inductive Route : Type := Button | Slash.

Definition claim (route : Route) (member : Tickets.Member)
    (channel : option Tickets.Channel) (env : Tickets.Env) (w : t)
  : Tickets.Reply * option Tickets.Channel * t :=
  match route with
  | Button =>
      let '(r, c) := Tickets.claimButton member channel (Tickets.setTopicOk env) w in
      (r, c, w)
  | Slash => Tickets.claimCommand member channel env w
  end.

(** The claimer the channel's topic records. *)
Definition claimer (channel : option Tickets.Channel) : option string :=
  match channel with
  | Some c => Topic.claimed (Topic.parseTopic (Tickets.topic c))
  | None => None
  end.

(** What happens to the program's variables, one handler call at a time.
    Apart from the redemption of a key, every caller of
    [savePremiumState] passes a patch of [branding] or of [features]
    only. [Rate] is a run of the [rate:] block, which the listener as
    written never reaches, so a list of events with [Rate] in it covers
    more than the program does. *)
Inductive Event : Type :=
| Redeem (message : Entitlement.Message) (env : Entitlement.Env)
| Generate (message : Entitlement.Message) (env : KeyGen.Env)
| ConfigTimer (wr : WriteResult)
| DashboardSave (logged : bool) (guildId : string) (body : Dashboard.Body)
| DashboardBranding (logged : bool) (guildId : string)
    (body : Dashboard.BrandingBody) (wr : WriteResult)
| GetPremiumState (guildId : string) (now : Z) (wr : WriteResult)
| SavePremiumSettings (guildId : string)
    (branding : Premium.BrandingPatch) (features : Premium.FeaturesPatch)
    (wrSave : WriteResult) (now : Z) (wr : WriteResult)
| SaveGuildConfig (guildId : string) (patch : Config.Patch)
| Rate (interaction : Ratings.Interaction) (env : Ratings.Env)
| Claim (route : Route) (member : Tickets.Member)
    (channel : option Tickets.Channel) (env : Tickets.Env)
| Unclaim (member : Tickets.Member)
    (channel : option Tickets.Channel) (env : Tickets.Env).

Definition settingsPatch
    (branding : Premium.BrandingPatch) (features : Premium.FeaturesPatch)
  : Premium.Patch :=
  {| Premium.p_isPremium := None; Premium.p_plan := None;
     Premium.p_activatedAt := None; Premium.p_expiresAt := None;
     Premium.p_branding := branding; Premium.p_features := features |}.

Definition step (w : t) (ev : Event) : t :=
  match ev with
  | Redeem message env => snd (Entitlement.redeem message env w)
  | Generate message env => snd (KeyGen.generate message env w)
  | ConfigTimer wr => configTimer wr w
  | DashboardSave logged guildId body => snd (Dashboard.postSave logged guildId body w)
  | DashboardBranding logged guildId body wr =>
      snd (Dashboard.postBranding logged guildId body wr w)
  | GetPremiumState guildId now wr =>
      snd (Entitlement.getPremiumState guildId now wr w)
  | SavePremiumSettings guildId branding features wrSave now wr =>
      snd (Entitlement.savePremiumState guildId (settingsPatch branding features)
             wrSave now wr w)
  | SaveGuildConfig guildId patch => snd (saveGuildConfig guildId patch w)
  | Rate interaction env => snd (Ratings.rate interaction env w)
  | Claim route member channel env => snd (claim route member channel env w)
  | Unclaim member channel env => snd (Tickets.unclaimCommand member channel env w)
  end.

Definition run (events : list Event) (w : t) : t := fold_left step events w.

(** No generation of the list draws the key. *)
Definition neverDraws (key : string) (events : list Event) : Prop :=
  Forall (fun ev =>
            match ev with
            | Generate _ env => forall i : nat, KeyGen.draw env i <> key
            | _ => True
            end) events.


End Run.

(** ** Sample data *)

Module Sample.

Definition noReviews : Rating.Reviews := {| Rating.trade := ∅; Rating.service := ∅ |}.

Definition noFiles : World.Files :=
  {| World.guildConfigs_json := ∅; World.premiumGuilds_json := ∅;
     World.premiumKeys_json := ∅; World.reviews_json := noReviews;
     World.ratedTickets_json := ∅ |}.

(** A guild set up under the old schema: ids and roles, no toggle. *)
Definition legacyConfig : Config.Saved :=
  {| Config.s_supportCategoryId := Some "200000000000000002";
     Config.s_mmCategoryId := None;
     Config.s_logChannelId := Some "";
     Config.s_transcriptChannelId := None;
     Config.s_supportEnabled := None;
     Config.s_tradeEnabled := None;
     Config.s_logsEnabled := None;
     Config.s_supportRoles := Some ["300000000000000003"; "bad"];
     Config.s_mmRoles := None;
     Config.s_adminRoles := Some ["400000000000000004"];
     Config.s_panelText := None |}.

Definition legacyWorld : World.t :=
  {| World.GUILD_CONFIGS := {[ "100000000000000001" := legacyConfig ]};
     World.PREMIUM_GUILDS := ∅;
     World.PREMIUM_KEYS := ∅;
     World.keysPrototype := None;
     World.REVIEWS := noReviews;
     World.RATED := ∅;
     World.DISK_FULL := false;
     World._cfgDirty := false;
     World._cfgSaveTimer := false;
     World.files := noFiles |}.

Definition sampleBody : Dashboard.Body :=
  {| Dashboard.supportCategoryId := Some "223456789012345678";
     Dashboard.mmCategoryId := None;
     Dashboard.logChannelId := None;
     Dashboard.transcriptChannelId := None;
     Dashboard.supportRoles := Some "323456789012345678, 423456789012345678";
     Dashboard.mmRoles := None;
     Dashboard.adminRoles := None |}.


(** A key of one day, not yet used, and the owner of a guild redeeming it. *)
Definition dayKey : Premium.Key :=
  {| Premium.k_plan := Some "custom";
     Premium.durationMs := Some 86400000;
     Premium.durationDays := Some 1;
     Premium.durationLabel := Some "1d";
     Premium.createdAt := Some (Premium.Parsable 1700000000000);
     Premium.createdBy := Some "900000000000000009";
     Premium.used := false;
     Premium.usedByGuildId := None;
     Premium.usedAt := None |}.

(** A guild whose premium ran out at 1700000000000 and was not read since. *)
Definition lapsed : Premium.Raw :=
  {| Premium.r_isPremium := Some true;
     Premium.r_plan := Some "1m";
     Premium.r_activatedAt := Some (Premium.Parsable 1690000000000);
     Premium.r_expiresAt := Some (Premium.Parsable 1700000000000);
     Premium.r_branding := Premium.noBranding;
     Premium.r_features :=
       {| Premium.f_ticketNameTemplate := None; Premium.f_welcomeMessage := None;
          Premium.f_transcripts := None; Premium.f_transcriptChannelId := None;
          Premium.f_autoCloseMinutes := None;
          Premium.f_autoTagClaims := Some true; Premium.f_prioritySupport := None |} |}.

Definition keyWorld : World.t :=
  {| World.GUILD_CONFIGS := {[ "100000000000000001" := legacyConfig ]};
     World.PREMIUM_GUILDS := {[ "100000000000000001" := lapsed ]};
     World.PREMIUM_KEYS := {[ "DS-AAAA-BBBB-CCCC" := dayKey ]};
     World.keysPrototype := None;
     World.REVIEWS := noReviews;
     World.RATED := ∅;
     World.DISK_FULL := false;
     World._cfgDirty := false;
     World._cfgSaveTimer := false;
     World.files := noFiles |}.

Definition homeGuild : Entitlement.Guild :=
  {| Entitlement.id := "100000000000000001";
     Entitlement.ownerId := "500000000000000005" |}.

Definition redeemMessage : Entitlement.Message :=
  {| Entitlement.guild := Some homeGuild;
     Entitlement.authorId := "500000000000000005";
     Entitlement.authorBot := false;
     Entitlement.content := "?premium-redeem DS-AAAA-BBBB-CCCC" |}.

(** Every clock reading at [t], every write done. *)
Definition calmAt (t : Z) : Entitlement.Env :=
  {| Entitlement.usedAtClock := t; Entitlement.keysWrite := World.Written;
     Entitlement.now := t; Entitlement.activatedAtClock := t;
     Entitlement.stateWrite := World.Written;
     Entitlement.readClock := t; Entitlement.expireWrite := World.Written |}.


(** A ticket of the guild, under its support category. *)
Definition ticket (topic : string) (name : string) : Tickets.Channel :=
  {| Tickets.type := Tickets.GuildText;
     Tickets.guildId := "100000000000000001";
     Tickets.parentId := Some "200000000000000002";
     Tickets.topic := Some topic;
     Tickets.name := name |}.

Definition openTicket : Tickets.Channel :=
  ticket "opened:600000000000000006;claimed:null" "ticket-bob".
Definition claimedTicket : Tickets.Channel :=
  ticket "opened:600000000000000006;claimed:700000000000000007" "claimed-ticket-bob".

Definition memberWith (userId : string) (roles : list string) : Tickets.Member :=
  {| Tickets.userId := userId;
     Tickets.memberGuildId := "100000000000000001";
     Tickets.roles := roles |}.

(** Two members of the support team, and a member without any role. *)
Definition staffA : Tickets.Member := memberWith "700000000000000007" ["300000000000000003"].
Definition staffB : Tickets.Member := memberWith "710000000000000007" ["300000000000000003"].
Definition outsider : Tickets.Member := memberWith "800000000000000008" [].

Definition smooth : Tickets.Env :=
  {| Tickets.setTopicOk := true;
     Tickets.now1 := 1700000005000; Tickets.write1 := World.Written;
     Tickets.setNameOk := true;
     Tickets.now2 := 1700000005001; Tickets.write2 := World.Written |}.


(** A ledger in which one helper has 199 ratings of 1 and is given a 2. *)
Definition manyOnes : Rating.Entry :=
  {| Rating.reviews := List.repeat 1 199;
     Rating.avg := Double.Finite (Qmake 100 100);
     Rating.count := 199 |}.

Definition press (kind : Ratings.Kind) (s : Z) : Ratings.Interaction :=
  {| Ratings.customId := Ratings.buttonId kind "ticket-bob" "700000000000000007" s;
     Ratings.userId := "600000000000000006" |}.

Definition bothWritten : Ratings.Env :=
  {| Ratings.reviewsWrite := World.Written; Ratings.ratedWrite := World.Written |}.

End Sample.

(** ** Text helpers: channel names, colours, minutes, HTML *)

Module Text.
Import Str.

(** The characters a channel name is made of: [[a-z0-9-]]. *)
Definition isNameChar (c : ascii) : bool :=
  isLower c || isDigit c || Ascii.eqb c "-".

(** [.replace(/[^a-z0-9-]/g, "-")] *)
Definition dashOthers (s : string) : string :=
  map (fun c => if isNameChar c then c else "-"%char) s.

(** The string starts with a dash. *)
Definition startsDash (s : string) : bool :=
  match s with String c _ => Ascii.eqb c "-" | EmptyString => false end.

(** [.replace(/-+/g, "-")]: every run of dashes becomes one dash. *)
Fixpoint squeeze (s : string) : string :=
  match s with
  | EmptyString => EmptyString
  | String c r =>
      if Ascii.eqb c "-" && startsDash r then squeeze r else String c (squeeze r)
  end.

(** [.replace(/^-|-$/g, "")]: a dash at the very start is removed, and a
    dash at the very end. *)
Definition dropFirstDash (s : string) : string :=
  match s with
  | String c r => if Ascii.eqb c "-" then r else s
  | EmptyString => EmptyString
  end.

Fixpoint dropLastDash (s : string) : string :=
  match s with
  | EmptyString => EmptyString
  | String c r =>
      if Ascii.eqb c "-" && isEmpty r then EmptyString else String c (dropLastDash r)
  end.

Definition sanitizeChannelName (name : string) : string :=
  let s := take 90 (dropLastDash (dropFirstDash (squeeze (dashOthers (toLowerCase name))))) in
  if isEmpty s then "ticket" else s.

(** No two dashes in a row. *)
Fixpoint singleDashes (s : string) : bool :=
  match s with
  | EmptyString => true
  | String c r => negb (Ascii.eqb c "-" && startsDash r) && singleDashes r
  end.

(** [/^[0-9A-Fa-f]{6}$/] *)
Definition isHex6 (s : string) : bool :=
  forallb Numeric.isHexDigit s && (String.length s =? 6)%nat.

(** [/^#?[0-9A-Fa-f]{6}$/.test(str.trim())]: the sign is not a hex digit,
    so a string that starts with it matches only with the sign taken. *)
Definition isValidHexColor (str : string) : bool :=
  let s := trim str in
  if startsWith s "#" then isHex6 (drop 1 s) else isHex6 s.

Definition normalizeHexColor (str : string) : string :=
  let s := trim str in
  if startsWith s "#" then s else "#" +:+ s.

(** [normalizeMinutes(n)], [x] being [Number(n)]. *)
Definition normalizeMinutes (x : Double.number) : Z :=
  match x with
  | Double.Finite q =>
      if Qle_bool (inject_Z 0) q then Z.min 1440 (Qfloor q) else 0
  | _ => 0
  end.

(** [s.replaceAll(c, by)] for a pattern of one character and a
    replacement without [$]. *)
Fixpoint replaceAll (c : ascii) (by_ : string) (s : string) : string :=
  match s with
  | EmptyString => EmptyString
  | String x r =>
      if Ascii.eqb x c then by_ +:+ replaceAll c by_ r
      else String x (replaceAll c by_ r)
  end.

(** The double quotation mark. *)
Definition dquote : ascii := ascii_of_N 34.

(** [escapeHtml(s)], [None] being [null] or [undefined]. *)
Definition escapeHtml (s : option string) : string :=
  replaceAll "'" "&#039;"
    (replaceAll dquote "&quot;"
       (replaceAll ">" "&gt;"
          (replaceAll "<" "&lt;"
             (replaceAll "&" "&amp;" (default "" s))))).

(** The five characters [escapeHtml] replaces. *)
Definition isMarkup (c : ascii) : bool :=
  Ascii.eqb c "&" || Ascii.eqb c "<" || Ascii.eqb c ">"
  || Ascii.eqb c dquote || Ascii.eqb c "'".

End Text.

(** ** Premium settings by message: [?accent] and [?autoclose] *)

Module Settings.
Import Str World.

(** What a settings handler reads from its environment, in source order:
    the clock and the write of the [getPremiumState] that checks the
    entitlement, the write of [savePremiumState], and the clock and the
    write of the [getPremiumState] that [savePremiumState] ends with. *)
Record Env : Type :=
  { now1 : Z; write1 : WriteResult;
    saveWrite : WriteResult;
    now2 : Z; write2 : WriteResult }.

Inductive Reply : Type :=
| FromBot          (* message.author.bot: return without a reply *)
| NotThisCommand   (* the content does not start with the command *)
| NoGuild          (* return without a reply *)
| OwnerOnly        (* "Only the server owner can change ..." *)
| PremiumOnly      (* "This is a Premium feature. ..." *)
| Invalid          (* "Use a hex color like ..." / "Use a number of minutes ..." *)
| Disabled         (* "Auto-close disabled." *)
| Saved.           (* "Saved accent color." / "Auto-close set to ..." *)

(** [{ branding: { accent } }] *)
Definition accentPatch (accent : string) : Premium.Patch :=
  Run.settingsPatch
    {| Premium.pb_name := None; Premium.pb_iconUrl := None;
       Premium.pb_accent := Some (Some accent) |}
    Premium.noFeaturesPatch.

(** [{ features: { autoCloseMinutes } }] *)
Definition autoClosePatch (mins : Z) : Premium.Patch :=
  Run.settingsPatch Premium.noBrandingPatch
    {| Premium.pf_ticketNameTemplate := None; Premium.pf_welcomeMessage := None;
       Premium.pf_transcripts := None; Premium.pf_transcriptChannelId := None;
       Premium.pf_autoCloseMinutes := Some mins;
       Premium.pf_autoTagClaims := None; Premium.pf_prioritySupport := None |}.

(** [?accent <hex>] *)
Definition accent (message : Entitlement.Message) (env : Env) (w : t) : Reply * t :=
  if Entitlement.authorBot message then (FromBot, w)
  else
  let content := trim (Entitlement.content message) in
  if negb (startsWith content "?accent ") then (NotThisCommand, w)
  else
    match Entitlement.guild message with
    | None => (NoGuild, w)
    | Some g =>
        if negb (String.eqb (Entitlement.authorId message) (Entitlement.ownerId g))
        then (OwnerOnly, w)
        else
          let '(p, w) :=
            Entitlement.getPremiumState (Entitlement.id g) (now1 env) (write1 env) w in
          if negb (Premium.isPremium p) then (PremiumOnly, w)
          else
            let hex := trim (drop 8 content) in
            if negb (Text.isValidHexColor hex) then (Invalid, w)
            else
              let '(_, w) :=
                Entitlement.savePremiumState (Entitlement.id g)
                  (accentPatch (Text.normalizeHexColor hex))
                  (saveWrite env) (now2 env) (write2 env) w in
              (Saved, w)
    end.

(** [?autoclose <minutes>], [off] disabling it. *)
Definition autoclose (message : Entitlement.Message) (env : Env) (w : t) : Reply * t :=
  if Entitlement.authorBot message then (FromBot, w)
  else
  let content := trim (Entitlement.content message) in
  if negb (startsWith content "?autoclose ") then (NotThisCommand, w)
  else
    match Entitlement.guild message with
    | None => (NoGuild, w)
    | Some g =>
        if negb (String.eqb (Entitlement.authorId message) (Entitlement.ownerId g))
        then (OwnerOnly, w)
        else
          let '(p, w) :=
            Entitlement.getPremiumState (Entitlement.id g) (now1 env) (write1 env) w in
          if negb (Premium.isPremium p) then (PremiumOnly, w)
          else
            let raw := toLowerCase (trim (drop 11 content)) in
            if String.eqb raw "off" then
              let '(_, w) :=
                Entitlement.savePremiumState (Entitlement.id g) (autoClosePatch 0)
                  (saveWrite env) (now2 env) (write2 env) w in
              (Disabled, w)
            else
              let mins := Text.normalizeMinutes (Numeric.Number raw) in
              if mins <=? 0 then (Invalid, w)
              else
                let '(_, w) :=
                  Entitlement.savePremiumState (Entitlement.id g) (autoClosePatch mins)
                    (saveWrite env) (now2 env) (write2 env) w in
                (Saved, w)
    end.

(** Everything but the flag, of a stored record. *)
Definition rest (s : Premium.Raw)
  : option string * option Premium.DateStr * option Premium.DateStr
    * Premium.RawBranding * Premium.RawFeatures :=
  (Premium.r_plan s, Premium.r_activatedAt s, Premium.r_expiresAt s,
   Premium.r_branding s, Premium.r_features s).

(** A colour as the program stores it: the sign and six hex digits. *)
Definition isStoredColor (c : string) : Prop :=
  exists h : string, c = "#" +:+ h /\ Text.isHex6 h = true.

End Settings.

(** ** Branding of embeds *)

Module Embeds.
Import Str World.

(** The two fields of an embed that branding sets. *)
Record Embed : Type := { color : option string; thumbnail : option string }.

Definition setColor (c : string) (e : Embed) : Embed :=
  {| color := Some c; thumbnail := thumbnail e |}.

Definition setThumbnail (u : string) (e : Embed) : Embed :=
  {| color := color e; thumbnail := Some u |}.

(** [applyBranding(embed, guildId)]. [looksLikeUrl] stands for the
    function of that name, whose answer is the URL parser's of the
    platform; [now] and [wr] belong to the call of [getPremiumState]. *)
Definition applyBranding (looksLikeUrl : string -> bool) (embed : Embed)
    (guildId : string) (now : Z) (wr : WriteResult) (w : t) : Embed * t :=
  let '(p, w) := Entitlement.getPremiumState guildId now wr w in
  if negb (Premium.isPremium p) then (embed, w)
  else
    let accent :=
      match Premium.accent (Premium.branding p) with
      | Some a =>
          if negb (isEmpty a) && Text.isValidHexColor a
          then Some (Text.normalizeHexColor a) else None
      | None => None
      end in
    let embed := match accent with Some c => setColor c embed | None => embed end in
    let embed :=
      match Premium.iconUrl (Premium.branding p) with
      | Some u => if negb (isEmpty u) && looksLikeUrl u then setThumbnail u embed else embed
      | None => embed
      end in
    (embed, w).

End Embeds.

(** ** The [interactionCreate] listener, for a press of a button *)

Module Listener.
Import Str World.

(** The blocks of the listener that a press of a button can enter before
    line 3841, in source order; the other blocks ask for a slash command,
    a select menu or a modal. *)
Inductive Block : Type :=
| MercyButtons      (* 2067: the id starts with mercy_ *)
| HelpPanel         (* 2142: open_help_panel (2144) or one of the tabs (2177-2184) *)
| PremiumPanel      (* 2342: the id starts with prem_ *)
| PremiumCommands   (* 2811: the id starts with premcmd_ *)
| SetupPanel        (* 2961: the id starts with setup_ *)
| ClaimTicket       (* 3693: claim_ticket *)
| CloseTicket       (* 3753: close_ticket *)
| CloseWithReason.  (* 3795: close_with_reason *)

Definition helpIds : list string :=
  [ "open_help_panel"; "tab_description"; "tab_features"; "tab_ticket";
    "tab_trade"; "tab_ratings"; "tab_premium" ].

(** The condition of a block on the id of the button. *)
Definition enters (b : Block) (customId : string) : bool :=
  match b with
  | MercyButtons => startsWith customId "mercy_"
  | HelpPanel => existsb (String.eqb customId) helpIds
  | PremiumPanel => startsWith customId "prem_"
  | PremiumCommands => startsWith customId "premcmd_"
  | SetupPanel => startsWith customId "setup_"
  | ClaimTicket => String.eqb customId "claim_ticket"
  | CloseTicket => String.eqb customId "close_ticket"
  | CloseWithReason => String.eqb customId "close_with_reason"
  end.

Definition blocks : list Block :=
  [ MercyButtons; HelpPanel; PremiumPanel; PremiumCommands; SetupPanel;
    ClaimTicket; CloseTicket; CloseWithReason ].

(** What a press comes to: it enters a block (the first whose condition
    holds), or the listener throws at line 3841 with the variables of the
    program as they are. *)
Inductive Outcome : Type :=
| Enters (b : Block)
| Thrown (w : t).

(** The listener on a press of a button. A press that enters none of the
    blocks reaches line 3841, [const { opened, claimed } =
    parseTopic(channel.topic)], at the top level of the listener, where
    no [channel] is declared: the read throws a [ReferenceError], nothing
    having run but the conditions of the blocks; and line 3844 returns in
    any case. The block for the ids that start with [rate:] stands after
    that, at 3867, and is never run. *)
Definition button (interaction : Ratings.Interaction) (w : t) : Outcome :=
  match List.find (fun b => enters b (Ratings.customId interaction)) blocks with
  | Some b => Enters b
  | None => Thrown w
  end.

End Listener.

(** ** Two claims whose handlers overlap *)

Module Overlap.
Import World Tickets.

(** The [claim_ticket] handler from its checks to its call of [setTopic]
    (3697-3715), which runs without a pause: the reply it is heading for
    and, when it goes on, the topic it asks the platform for. The topic of
    the channel changes only once the platform has answered that call,
    while the handler waits at its [await]. *)
Definition asks (member : Member) (channel : option Channel) (w : t)
  : Reply * option string :=
  match channel with
  | None => (InvalidChannel, None)
  | Some c =>
      if negb (isText channel) then (InvalidChannel, None)
      else if negb (canManageTicket member channel w) then (NotAllowed, None)
      else
        let t := Topic.parseTopic (topic c) in
        match Topic.claimed t with
        | Some _ => (AlreadyClaimed, None)
        | None =>
            (Claimed, Some (Topic.makeTopic (Topic.opened t) (Some (userId member))))
        end
  end.

(** The platform's answer to the call, on the channel. *)
Definition answered (ask : option string) (ok : bool) (channel : option Channel)
  : option Channel :=
  match ask, channel with
  | Some newTopic, Some c => Some (setTopic newTopic ok c)
  | _, _ => channel
  end.

(** Two presses of the button, the second handler reaching its checks
    before the platform has answered the first one's [setTopic]: both read
    the channel as it is, then the two answers arrive in turn. *)
Definition bothPress (a b : Member) (channel : option Channel)
    (okA okB : bool) (w : t) : Reply * Reply * option Channel :=
  let '(replyA, askA) := asks a channel w in
  let '(replyB, askB) := asks b channel w in
  (replyA, replyB, answered askB okB (answered askA okA channel)).

End Overlap.

(** ** Sample data for the further properties *)

Module Cases.

(** A premium record without expiry, as the old lifetime keys left it. *)
Definition lifetime : Premium.Raw :=
  {| Premium.r_isPremium := Some true;
     Premium.r_plan := Some "1m";
     Premium.r_activatedAt := Some (Premium.Parsable 1690000000000);
     Premium.r_expiresAt := None;
     Premium.r_branding := Premium.noBranding;
     Premium.r_features := Premium.noFeatures |}.

(** The world of [Sample.keyWorld] with the guild premium for good. *)
Definition activeWorld : World.t :=
  World.setPremiumGuilds {[ "100000000000000001" := lifetime ]} Sample.keyWorld.

(** A premium record that expires at 1700000000000. *)
Definition dated : Premium.Raw :=
  {| Premium.r_isPremium := Some true;
     Premium.r_plan := Some "1m";
     Premium.r_activatedAt := Some (Premium.Parsable 1690000000000);
     Premium.r_expiresAt := Some (Premium.Parsable 1700000000000);
     Premium.r_branding := Premium.noBranding;
     Premium.r_features := Premium.noFeatures |}.

Definition datedWorld : World.t :=
  World.setPremiumGuilds {[ "100000000000000001" := dated ]} Sample.keyWorld.

(** The bot owner, and a generator whose every draw is the first letter. *)
Definition botOwnerSays (text : string) : Entitlement.Message :=
  {| Entitlement.guild := Some Sample.homeGuild;
     Entitlement.authorId := "900000000000000009";
     Entitlement.authorBot := false;
     Entitlement.content := text |}.

Definition zeros : KeyGen.Env :=
  {| KeyGen.OWNER_IDS := ["900000000000000009"];
     KeyGen.random := fun _ => 0%nat;
     KeyGen.createdAtClock := fun _ => 1700000000000;
     KeyGen.genWrite := World.Written |}.

Definition ownerSays (text : string) : Entitlement.Message :=
  {| Entitlement.guild := Some Sample.homeGuild;
     Entitlement.authorId := "500000000000000005";
     Entitlement.authorBot := false;
     Entitlement.content := text |}.

(** The platform refuses the topic; everything else goes well. *)
Definition refusing : Tickets.Env :=
  {| Tickets.setTopicOk := false;
     Tickets.now1 := 1700000005000; Tickets.write1 := World.Written;
     Tickets.setNameOk := true;
     Tickets.now2 := 1700000005001; Tickets.write2 := World.Written |}.

(** Another member without any role. *)
Definition passerby : Tickets.Member := Sample.memberWith "810000000000000008" [].

(** An unused key with the given duration fields. *)
Definition keyOf (ms days : option Z) : Premium.Key :=
  {| Premium.k_plan := Some "custom";
     Premium.durationMs := ms;
     Premium.durationDays := days;
     Premium.durationLabel := None;
     Premium.createdAt := Some (Premium.Parsable 1700000000000);
     Premium.createdBy := Some "900000000000000009";
     Premium.used := false;
     Premium.usedByGuildId := None;
     Premium.usedAt := None |}.

(** The world of [Sample.keyWorld] with that key under the sample name. *)
Definition worldWith (k : Premium.Key) : World.t :=
  World.setPremiumKeys {[ "DS-AAAA-BBBB-CCCC" := k ]} Sample.keyWorld.

(** The handler reads the clock at [t]; the closing read of the state
    comes [delay] milliseconds later. Every write is done. *)
Definition readBackAfter (t delay : Z) : Entitlement.Env :=
  {| Entitlement.usedAtClock := t; Entitlement.keysWrite := World.Written;
     Entitlement.now := t; Entitlement.activatedAtClock := t;
     Entitlement.stateWrite := World.Written;
     Entitlement.readClock := t + delay; Entitlement.expireWrite := World.Written |}.

(** [{ supportRoles: [...] }], the patch of the role picker of [?setup]. *)
Definition rolesPatch : Config.Patch :=
  {| Config.p_supportCategoryId := None; Config.p_mmCategoryId := None;
     Config.p_logChannelId := None; Config.p_transcriptChannelId := None;
     Config.p_supportEnabled := None; Config.p_tradeEnabled := None;
     Config.p_logsEnabled := None;
     Config.p_supportRoles := Some ["323456789012345678"];
     Config.p_mmRoles := None; Config.p_adminRoles := None;
     Config.p_panelText := None |}.

(** [{ supportCategoryId: null }] *)
Definition clearSupportCategory : Config.Patch :=
  {| Config.p_supportCategoryId := Some None; Config.p_mmCategoryId := None;
     Config.p_logChannelId := None; Config.p_transcriptChannelId := None;
     Config.p_supportEnabled := None; Config.p_tradeEnabled := None;
     Config.p_logsEnabled := None;
     Config.p_supportRoles := None;
     Config.p_mmRoles := None; Config.p_adminRoles := None;
     Config.p_panelText := None |}.

(** The world of [Sample.legacyWorld] after a write that found no space. *)
Definition fullWorld : World.t :=
  World.writeJsonSafe World.REVIEWS_FILE World.NoSpace Sample.legacyWorld.

(** Every clock reading at [t], every write done. *)
Definition settled (t : Z) : Settings.Env :=
  {| Settings.now1 := t; Settings.write1 := World.Written;
     Settings.saveWrite := World.Written;
     Settings.now2 := t; Settings.write2 := World.Written |}.

End Cases.

(** ** The ledger over several ratings *)

Module Ledger.
Import World.



End Ledger.

(** * Properties *)

(** ** Strings *)

Module StrFacts.
Import Str.

Lemma app_nil (b : string) : "" +:+ b = b.
Proof. reflexivity. Qed.

Lemma app_cons (c : ascii) (a b : string) : String c a +:+ b = String c (a +:+ b).
Proof. reflexivity. Qed.

Lemma split_nonempty sep s : split sep s <> [].
Proof.
  destruct s as [|c s]; simpl; [discriminate|].
  destruct (Ascii.eqb c sep); [discriminate|].
  destruct (split sep s); discriminate.
Qed.

Lemma split_none sep s : noneOf sep s = true -> split sep s = [s].
Proof.
  induction s as [|c s IH]; simpl; [reflexivity|].
  intros H. apply andb_prop in H as [Hc Hs].
  apply negb_true_iff in Hc. rewrite Hc, (IH Hs). reflexivity.
Qed.

Lemma split_prefix sep a b :
  noneOf sep a = true -> split sep (a +:+ String sep b) = a :: split sep b.
Proof.
  induction a as [|c a IH]; intros H.
  - rewrite app_nil. simpl. rewrite Ascii.eqb_refl. reflexivity.
  - rewrite app_cons. simpl in *. apply andb_prop in H as [Hc Ha].
    apply negb_true_iff in Hc. rewrite Hc, (IH Ha). reflexivity.
Qed.

(** Splitting at a separator splits the parts on either side of it. *)
Lemma split_app sep a b :
  split sep (a +:+ String sep b) = (split sep a ++ split sep b)%list.
Proof.
  induction a as [|c a IH].
  - rewrite app_nil. simpl. now rewrite Ascii.eqb_refl.
  - rewrite app_cons. simpl. destruct (Ascii.eqb c sep); rewrite IH; [reflexivity|].
    pose proof (split_nonempty sep a) as Hne.
    destruct (split sep a); [congruence|reflexivity].
Qed.

(** Joining the parts of a split gives the string back. *)
Lemma join_split sep s : join sep (split sep s) = s.
Proof.
  induction s as [|c s IH]; [reflexivity|]. simpl.
  pose proof (split_nonempty sep s) as Hne.
  destruct (Ascii.eqb c sep) eqn:E.
  - apply Ascii.eqb_eq in E. subst c.
    destruct (split sep s) as [|p ps]; [congruence|].
    change (join sep ("" :: p :: ps)) with ("" +:+ String sep (join sep (p :: ps))).
    now rewrite app_nil, IH.
  - destruct (split sep s) as [|p ps]; [congruence|].
    destruct ps as [|q qs].
    + simpl in IH. subst p. reflexivity.
    + change (join sep (String c p :: q :: qs))
        with (String c p +:+ String sep (join sep (q :: qs))).
      change (join sep (p :: q :: qs))
        with (p +:+ String sep (join sep (q :: qs))) in IH.
      now rewrite app_cons, IH.
Qed.

Lemma split_inj sep s s' : split sep s = split sep s' -> s = s'.
Proof. intros H. rewrite <- (join_split sep s), <- (join_split sep s'). now rewrite H. Qed.

Lemma forallb_app p (a b : string) : forallb p (a +:+ b) = forallb p a && forallb p b.
Proof.
  induction a as [|x a IH]; [reflexivity|].
  rewrite app_cons. simpl. rewrite <- andb_assoc. f_equal. exact IH.
Qed.

Lemma noneOf_app c a b : noneOf c (a +:+ b) = noneOf c a && noneOf c b.
Proof. apply forallb_app. Qed.

Lemma app_assoc (a b c : string) : (a +:+ b) +:+ c = a +:+ (b +:+ c).
Proof.
  induction a as [|x a IH]; [reflexivity|].
  rewrite !app_cons. f_equal. exact IH.
Qed.

Lemma isEmpty_false s : s <> "" -> isEmpty s = false.
Proof. destruct s; [congruence|reflexivity]. Qed.

(** The parts of a split hold no separator, and no character the whole
    string was free of. *)
Lemma split_parts sep c s p :
  In p (split sep s) ->
  noneOf sep p = true /\ (noneOf c s = true -> noneOf c p = true).
Proof.
  unfold noneOf. revert p. induction s as [|x s IH]; simpl; intros p Hp.
  - destruct Hp as [<-|[]]. split; reflexivity.
  - destruct (Ascii.eqb x sep) eqn:Hx.
    + destruct Hp as [<-|Hp]; [split; reflexivity|].
      destruct (IH p Hp) as [H1 H2]. split; [exact H1|].
      intros H. apply andb_prop in H as [_ H]. auto.
    + pose proof (split_nonempty sep s) as Hne.
      destruct (split sep s) as [|q qs]; [congruence|].
      destruct Hp as [<-|Hp].
      * destruct (IH q (or_introl eq_refl)) as [H1 H2]. simpl.
        rewrite Hx. simpl. split; [exact H1|].
        intros H. apply andb_prop in H as [Ha Hb]. rewrite Ha. simpl. auto.
      * destruct (IH p (or_intror Hp)) as [H1 H2]. split; [exact H1|].
        intros H. apply andb_prop in H as [_ H]. auto.
Qed.

End StrFacts.

(** ** The ticket topic *)

Module TopicFacts.
Import Str StrFacts Topic.

Lemma plainId_inv s :
  plainId s = true -> s <> "" /\ noneOf ":" s = true /\ noneOf ";" s = true.
Proof.
  unfold plainId. intros H.
  apply andb_prop in H as [H H3]. apply andb_prop in H as [H1 H2].
  repeat split; try assumption. intros ->. discriminate.
Qed.

Lemma digits_noneOf c s :
  isDigit c = false -> forallb isDigit s = true -> noneOf c s = true.
Proof.
  unfold noneOf. intros Hc. induction s as [|x s IH]; simpl; [reflexivity|].
  intros H. apply andb_prop in H as [Hx Hs]. rewrite (IH Hs), andb_true_r.
  apply negb_true_iff. destruct (Ascii.eqb x c) eqn:E; [|reflexivity].
  apply Ascii.eqb_eq in E. congruence.
Qed.

(** A snowflake is such an identifier, and is not the word [null]. *)
Lemma snowflake_plain s :
  isValidSnowflake s = true -> plainId s = true /\ s <> "null".
Proof.
  unfold isValidSnowflake, plainId. intros H.
  apply andb_prop in H as [H H3]. apply andb_prop in H as [H1 H2].
  split.
  - rewrite (digits_noneOf ":" s eq_refl H1), (digits_noneOf ";" s eq_refl H1).
    destruct s; [discriminate|reflexivity].
  - intros ->. discriminate.
Qed.

(** The two parts of a topic written by the program, split at their colons. *)
Lemma parts_of_topic o c :
  noneOf ":" o = true -> noneOf ";" o = true ->
  noneOf ":" c = true -> noneOf ";" c = true ->
  List.map (split ":") (split ";" ("opened:" +:+ o +:+ ";claimed:" +:+ c))
  = [["opened"; o]; ["claimed"; c]].
Proof.
  intros Ho1 Ho2 Hc1 Hc2.
  replace ("opened:" +:+ o +:+ ";claimed:" +:+ c)
    with (("opened:" +:+ o) +:+ String ";" ("claimed:" +:+ c))
    by (rewrite app_assoc; reflexivity).
  rewrite split_prefix by (rewrite noneOf_app, Ho2; reflexivity).
  rewrite split_none by (rewrite noneOf_app, Hc2; reflexivity).
  change ("opened:" +:+ o) with ("opened" +:+ String ":" o).
  change ("claimed:" +:+ c) with ("claimed" +:+ String ":" c).
  cbv [List.map]. rewrite !split_prefix by reflexivity.
  rewrite !split_none by assumption. reflexivity.
Qed.

Lemma parseTopic_nonempty t :
  isEmpty t = false ->
  parseTopic (Some t)
  = fold_left assign (List.map (split ":") (split ";" t))
              {| opened := None; claimed := None |}.
Proof. intros H. unfold parseTopic, orNull. rewrite H. reflexivity. Qed.

(** Reading back a topic with any plain opener text and a claimer. *)
Lemma parse_written o c :
  plainId o = true -> plainId c = true -> c <> "null" ->
  parseTopic (Some ("opened:" +:+ o +:+ ";claimed:" +:+ c))
  = {| opened := Some o; claimed := Some c |}.
Proof.
  intros Ho Hc Hn.
  apply plainId_inv in Ho as (Ho0 & Ho1 & Ho2).
  apply plainId_inv in Hc as (Hc0 & Hc1 & Hc2).
  rewrite parseTopic_nonempty by reflexivity.
  rewrite parts_of_topic by assumption.
  unfold assign, orNull. simpl.
  rewrite (isEmpty_false o Ho0), (isEmpty_false c Hc0).
  destruct (String.eqb c "null") eqn:E; [|reflexivity].
  apply String.eqb_eq in E. contradiction.
Qed.

Lemma parse_written_null o :
  plainId o = true ->
  parseTopic (Some ("opened:" +:+ o +:+ ";claimed:null"))
  = {| opened := Some o; claimed := None |}.
Proof.
  intros Ho. apply plainId_inv in Ho as (Ho0 & Ho1 & Ho2).
  change ("opened:" +:+ o +:+ ";claimed:null")
    with ("opened:" +:+ o +:+ ";claimed:" +:+ "null").
  rewrite parseTopic_nonempty by reflexivity.
  rewrite (parts_of_topic o "null") by first [assumption | reflexivity].
  unfold assign, orNull. simpl. now rewrite (isEmpty_false o Ho0).
Qed.

End TopicFacts.

(** C10. Topic encoding round-trips: for every opener id and claimer id (not
    empty, without [:] or [;], the claimer not the word [null]),
    [parseTopic (makeTopic opener claimer)] is [{opened: opener, claimed:
    claimer}], and [parseTopic (makeTopic opener null)] is [{opened: opener,
    claimed: null}]. *)
Theorem topic_roundtrip (opener claimer : string) :
  Topic.plainId opener = true ->
  Topic.plainId claimer = true ->
  claimer <> "null" ->
  Topic.parseTopic (Some (Topic.makeTopic (Some opener) (Some claimer)))
  = {| Topic.opened := Some opener; Topic.claimed := Some claimer |}
  /\ Topic.parseTopic (Some (Topic.makeTopic (Some opener) None))
     = {| Topic.opened := Some opener; Topic.claimed := None |}.
Proof.
  intros Ho Hc Hn. split.
  - apply TopicFacts.parse_written; assumption.
  - apply TopicFacts.parse_written_null; assumption.
Qed.

Lemma topic_roundtrip_witness :
  Topic.parseTopic (Some (Topic.makeTopic (Some "123456789012345678")
                                          (Some "876543210987654321")))
  = {| Topic.opened := Some "123456789012345678";
       Topic.claimed := Some "876543210987654321" |}
  /\ Topic.parseTopic (Some (Topic.makeTopic (Some "123456789012345678") None))
     = {| Topic.opened := Some "123456789012345678"; Topic.claimed := None |}.
Proof.
  apply (topic_roundtrip "123456789012345678" "876543210987654321");
    [reflexivity | reflexivity | discriminate].
Defined.

(** The same for the identifiers the program itself accepts as snowflakes. *)
Corollary topic_roundtrip_snowflakes (opener claimer : string) :
  Topic.isValidSnowflake opener = true ->
  Topic.isValidSnowflake claimer = true ->
  Topic.parseTopic (Some (Topic.makeTopic (Some opener) (Some claimer)))
  = {| Topic.opened := Some opener; Topic.claimed := Some claimer |}.
Proof.
  intros Ho Hc.
  apply TopicFacts.snowflake_plain in Ho as [Ho _].
  apply TopicFacts.snowflake_plain in Hc as [Hc Hn].
  apply TopicFacts.parse_written; assumption.
Qed.

(** ** Durations *)

Module DurationFacts.
Import Str Duration.

(** A plan is of 0 to 3650 days, and of 0 days only for a plain number
    below 1. *)
Lemma planToDays_range p a :
  planToDays p = Some a ->
  0 <= days a <= 3650 /\ (days a = 0 -> a = zeroDays).
Proof.
  unfold planToDays.
  destruct (oneOf _ _); [intros [= <-]; simpl; split; [lia|discriminate]|].
  destruct (oneOf _ _); [intros [= <-]; simpl; split; [lia|discriminate]|].
  destruct (oneOf _ _); [intros [= <-]; simpl; split; [lia|discriminate]|].
  destruct (Numeric.Number _) as [| |n]; try discriminate.
  destruct (Qlt_le_dec (inject_Z 0) n) as [Hpos|]; [|discriminate].
  destruct (Qle_bool n (inject_Z 3650)) eqn:Hle; [|discriminate].
  intros [= <-]. simpl. apply Qle_bool_iff in Hle.
  split.
  - split.
    + rewrite <- (Qfloor_Z 0). apply Qfloor_resp_le, Qlt_le_weak, Hpos.
    + rewrite <- (Qfloor_Z 3650). apply Qfloor_resp_le, Hle.
  - intros ->. reflexivity.
Qed.

Lemma maxMs_value : maxMs = 315360000000.
Proof. reflexivity. Qed.

(** Every successful parse is between 0 and ten years, and positive
    unless the input is a plain number below 1. *)
Lemma parse_bounds input r :
  parseDurationToMs input = Some r ->
  0 <= ms r <= maxMs
  /\ (0 < ms r \/ planToDays (trim input) = Some zeroDays).
Proof.
  unfold parseDurationToMs.
  destruct (isEmpty (trim input)); [discriminate|].
  destruct (planToDays (trim input)) as [a|] eqn:Hp.
  - intros [= <-]. simpl.
    destruct (planToDays_range _ _ Hp) as [[Hlo Hhi] Hz].
    rewrite maxMs_value. split; [lia|].
    destruct (Z.eq_dec (days a) 0) as [E|E].
    + right. now rewrite (Hz E).
    + left. lia.
  - set (total := fold_left _ _ _).
    destruct (negb _ || (total <=? 0)) eqn:G; [discriminate|].
    apply orb_false_elim in G as [_ G]. apply Z.leb_gt in G.
    intros [= <-]. simpl. rewrite maxMs_value in *.
    destruct (315360000000 <? total) eqn:C.
    + split; [lia|left; lia].
    + apply Z.ltb_ge in C. split; [lia|left; lia].
Qed.

End DurationFacts.

(** What does hold of the parser: a duration of one unit such as [36h]
    yields 129600000 ms, [15d] yields 1296000000 ms (the legacy bucket), the
    empty string yields no duration, and no successful parse yields more
    than ten years (315360000000 ms) or less than 0 ms. *)
Lemma parseDuration_single_units_and_cap :
  Duration.ms <$> Duration.parseDurationToMs "36h" = Some 129600000
  /\ Duration.ms <$> Duration.parseDurationToMs "15d" = Some 1296000000
  /\ Duration.parseDurationToMs "" = None
  /\ forall (input : string) (r : Duration.t),
       Duration.parseDurationToMs input = Some r ->
       0 <= Duration.ms r <= 315360000000.
Proof.
  split; [vm_compute; reflexivity|].
  split; [vm_compute; reflexivity|].
  split; [reflexivity|].
  intros input r H. apply DurationFacts.parse_bounds in H.
  rewrite DurationFacts.maxMs_value in H. apply H.
Qed.

(** C6, at the code. The compound durations that the function's comment,
    the usage text of [?premium-gen] and its error message list are not
    added up: in [2d12h] the unit [d] is followed by a digit, so the [\b]
    of the expression refuses it and only [12h] counts, 43200000 ms, the
    same as for [12h] alone (likewise [1h30m] counts as [30m]), whereas the
    same components with a space between them are added up to 216000000
    ms. And the plain number [0.5] passes the test [n > 0] of [planToDays],
    is floored to 0 days and parses with success to 0 ms, which is not
    positive, although the unit path refuses a total of 0. *)
Theorem parseDuration_drops_components_and_accepts_zero :
  Duration.ms <$> Duration.parseDurationToMs "2d12h" = Some 43200000
  /\ Duration.parseDurationToMs "2d12h"
     = Some {| Duration.ms := 43200000; Duration.label := "2d12h";
               Duration.plan_ := "custom"; Duration.days_ := 1 |}
  /\ Duration.ms <$> Duration.parseDurationToMs "12h" = Some 43200000
  /\ Duration.ms <$> Duration.parseDurationToMs "1h30m"
     = Duration.ms <$> Duration.parseDurationToMs "30m"
  /\ Duration.ms <$> Duration.parseDurationToMs "2d 12h" = Some 216000000
  /\ Duration.ms <$> Duration.parseDurationToMs "2d12h" <> Some 129600000
  /\ Duration.parseDurationToMs "0.5"
     = Some {| Duration.ms := 0; Duration.label := "0d";
               Duration.plan_ := "custom"; Duration.days_ := 0 |}
  /\ Duration.parseDurationToMs "0s" = None.
Proof.
  repeat split; try (vm_compute; reflexivity). vm_compute. discriminate.
Qed.

(** ** Configuration *)

Module ConfigFacts.
Import Config.

Lemma truthy_isSet id : truthy id = true <-> isSet id.
Proof.
  unfold truthy, isSet. destruct id as [s|].
  - destruct s as [|c s]; simpl; split.
    + discriminate.
    + intros (s' & [= <-] & H). congruence.
    + intros _. eexists. split; [reflexivity|discriminate].
    + reflexivity.
  - split; [discriminate|]. intros (s & H & _). discriminate.
Qed.

Lemma filter_snowflake_idem l :
  normalizeArray (Some (normalizeArray (Some l))) = normalizeArray (Some l).
Proof.
  simpl. induction l as [|x l IH]; simpl; [reflexivity|].
  destruct (Topic.isValidSnowflake x) eqn:E; simpl; [rewrite E|]; now rewrite ?IH.
Qed.

Lemma normalizeArray_idem a :
  normalizeArray (Some (normalizeArray a)) = normalizeArray a.
Proof. destruct a; [apply filter_snowflake_idem|reflexivity]. Qed.

End ConfigFacts.

(** What [saveGuildConfig] returns is what [getGuildConfig] reads
    afterwards: the merge contract of the command layer. *)
Lemma saveGuildConfig_then_get (guildId : string) (patch : Config.Patch) (w : World.t) :
  World.getGuildConfig guildId (snd (World.saveGuildConfig guildId patch w))
  = fst (World.saveGuildConfig guildId patch w).
Proof.
  unfold World.saveGuildConfig, World.getGuildConfig. simpl.
  unfold Config.getGuildConfig at 1. rewrite lookup_insert_eq. simpl.
  set (cur := Config.getGuildConfig (World.GUILD_CONFIGS w) guildId).
  unfold Config.next. simpl.
  assert (Hs : Config.normalizeArray (Some (Config.supportRoles cur)) = Config.supportRoles cur)
    by apply ConfigFacts.normalizeArray_idem.
  assert (Hm : Config.normalizeArray (Some (Config.mmRoles cur)) = Config.mmRoles cur)
    by apply ConfigFacts.normalizeArray_idem.
  assert (Ha : Config.normalizeArray (Some (Config.adminRoles cur)) = Config.adminRoles cur)
    by apply ConfigFacts.normalizeArray_idem.
  f_equal.
  - destruct (Config.p_supportRoles patch);
      [apply (ConfigFacts.filter_snowflake_idem l)|exact Hs].
  - destruct (Config.p_mmRoles patch);
      [apply (ConfigFacts.filter_snowflake_idem l)|exact Hm].
  - destruct (Config.p_adminRoles patch);
      [apply (ConfigFacts.filter_snowflake_idem l)|exact Ha].
  - destruct (default _ _) as [a b]. destruct a, b; reflexivity.
Qed.

(** A save stores the three toggles as read at that moment, inferred ones
    included: from then on the record carries them explicitly. *)
Lemma saveGuildConfig_stores_toggles (guildId : string) (patch : Config.Patch) (w : World.t) :
  exists saved : Config.Saved,
    World.GUILD_CONFIGS (snd (World.saveGuildConfig guildId patch w)) !! guildId = Some saved
    /\ Config.s_supportEnabled saved
       = Some (Config.supportEnabled (fst (World.saveGuildConfig guildId patch w)))
    /\ Config.s_tradeEnabled saved
       = Some (Config.tradeEnabled (fst (World.saveGuildConfig guildId patch w)))
    /\ Config.s_logsEnabled saved
       = Some (Config.logsEnabled (fst (World.saveGuildConfig guildId patch w))).
Proof.
  eexists. simpl. rewrite lookup_insert_eq. repeat split; reflexivity.
Qed.

(** C8, as the code has it. For a stored configuration without the three
    toggle keys, [getGuildConfig] reports each feature enabled exactly when
    its category or channel id is set. The read computes the flags; the
    first [saveGuildConfig] for the guild, whatever its patch, stores them:
    the record it leaves carries each toggle explicitly, with the value the
    patch names or else the one inferred from the id the record had before
    the save, and that is what is read from then on, whatever the id has
    become. *)
Theorem legacy_toggles_inferred (w : World.t) (guildId : string) (saved : Config.Saved) :
  World.GUILD_CONFIGS w !! guildId = Some saved ->
  Config.s_supportEnabled saved = None ->
  Config.s_tradeEnabled saved = None ->
  Config.s_logsEnabled saved = None ->
  let cfg := World.getGuildConfig guildId w in
  (Config.supportEnabled cfg = true <-> Config.isSet (Config.s_supportCategoryId saved))
  /\ (Config.tradeEnabled cfg = true <-> Config.isSet (Config.s_mmCategoryId saved))
  /\ (Config.logsEnabled cfg = true <-> Config.isSet (Config.s_logChannelId saved))
  /\ forall patch : Config.Patch,
       let w' := snd (World.saveGuildConfig guildId patch w) in
       let support :=
         default (Config.supportEnabled cfg) (Config.p_supportEnabled patch) in
       let trade := default (Config.tradeEnabled cfg) (Config.p_tradeEnabled patch) in
       let logs := default (Config.logsEnabled cfg) (Config.p_logsEnabled patch) in
       (exists saved' : Config.Saved,
           World.GUILD_CONFIGS w' !! guildId = Some saved'
           /\ Config.s_supportEnabled saved' = Some support
           /\ Config.s_tradeEnabled saved' = Some trade
           /\ Config.s_logsEnabled saved' = Some logs)
       /\ Config.supportEnabled (World.getGuildConfig guildId w') = support
       /\ Config.tradeEnabled (World.getGuildConfig guildId w') = trade
       /\ Config.logsEnabled (World.getGuildConfig guildId w') = logs.
Proof.
  intros Hg Hs Ht Hl cfg.
  assert (Hcfg : Config.supportEnabled cfg = Config.truthy (Config.s_supportCategoryId saved)
                 /\ Config.tradeEnabled cfg = Config.truthy (Config.s_mmCategoryId saved)
                 /\ Config.logsEnabled cfg = Config.truthy (Config.s_logChannelId saved)).
  { subst cfg. unfold World.getGuildConfig, Config.getGuildConfig. rewrite Hg.
    simpl. rewrite Hs, Ht, Hl. repeat split. }
  destruct Hcfg as (Es & Et & El).
  split; [rewrite Es; apply ConfigFacts.truthy_isSet|].
  split; [rewrite Et; apply ConfigFacts.truthy_isSet|].
  split; [rewrite El; apply ConfigFacts.truthy_isSet|].
  intros patch w' support trade logs. subst w'.
  rewrite saveGuildConfig_then_get.
  split; [|repeat split].
  eexists. unfold World.saveGuildConfig.
  cbn [snd World.GUILD_CONFIGS World.scheduleConfigSave World.setCfgTimer
         World.setGuildConfigs].
  rewrite lookup_insert_eq. split; [reflexivity|]. repeat split.
Qed.

Lemma legacy_toggles_witness :
  Config.supportEnabled (World.getGuildConfig "100000000000000001" Sample.legacyWorld) = true
  /\ Config.supportEnabled
       (World.getGuildConfig "100000000000000001"
          (snd (World.saveGuildConfig "100000000000000001" Cases.clearSupportCategory
                  Sample.legacyWorld))) = true.
Proof.
  destruct (legacy_toggles_inferred Sample.legacyWorld "100000000000000001" _
              eq_refl eq_refl eq_refl eq_refl) as (H & _ & _ & Hsave).
  split.
  - apply H. exists "200000000000000002". split; [reflexivity|discriminate].
  - destruct (Hsave Cases.clearSupportCategory) as (_ & -> & _).
    apply H. exists "200000000000000002". split; [reflexivity|discriminate].
Defined.

(** C8 as stated fails in its last part: the inference is stored. The
    record of the sample guild has no toggle; after the role picker's save,
    which names neither a toggle nor an id, the record holds the three
    toggles as they were inferred, and the timer writes them to the file;
    and once the support category is cleared by a save, support still reads
    as enabled, with no category set. *)
Lemma legacy_toggles_counterexample :
  Config.s_supportEnabled <$> World.GUILD_CONFIGS Sample.legacyWorld !! "100000000000000001"
  = Some None
  /\ Config.s_supportEnabled
     <$> World.GUILD_CONFIGS
           (snd (World.saveGuildConfig "100000000000000001" Cases.rolesPatch
                   Sample.legacyWorld)) !! "100000000000000001"
     = Some (Some true)
  /\ Config.s_logsEnabled
     <$> World.guildConfigs_json
           (World.files
              (World.configTimer World.Written
                 (snd (World.saveGuildConfig "100000000000000001" Cases.rolesPatch
                         Sample.legacyWorld)))) !! "100000000000000001"
     = Some (Some false)
  /\ Config.supportCategoryId
       (World.getGuildConfig "100000000000000001"
          (snd (World.saveGuildConfig "100000000000000001" Cases.clearSupportCategory
                  Sample.legacyWorld))) = None
  /\ Config.supportEnabled
       (World.getGuildConfig "100000000000000001"
          (snd (World.saveGuildConfig "100000000000000001" Cases.clearSupportCategory
                  Sample.legacyWorld))) = true.
Proof. repeat split; vm_compute; reflexivity. Qed.

(** ** The dashboard *)

(** C7, at the code: the route hands its patch to [patchGuildConfig], a name
    the program does not declare, so the call throws inside the [try], the
    flash says the save failed, and no variable of the program changes:
    the configuration read afterwards is the one read before. *)
Theorem dashboard_save_changes_nothing
    (guildId : string) (body : Dashboard.Body) (w : World.t) :
  Dashboard.postSave true guildId body w = (Dashboard.ToServer Dashboard.SaveFailed, w)
  /\ World.getGuildConfig guildId (snd (Dashboard.postSave true guildId body w))
     = World.getGuildConfig guildId w.
Proof. split; reflexivity. Qed.

(** The same form handed to [saveGuildConfig] would be read back. *)
Example dashboard_save_expected :
  Config.supportCategoryId
    (World.getGuildConfig "100000000000000001"
       (snd (World.saveGuildConfig "100000000000000001"
               (Dashboard.patchOf Sample.sampleBody) Sample.legacyWorld)))
  = Some "223456789012345678"
  /\ Config.supportCategoryId
       (World.getGuildConfig "100000000000000001"
          (snd (Dashboard.postSave true "100000000000000001" Sample.sampleBody Sample.legacyWorld)))
     = Some "200000000000000002".
Proof. split; reflexivity. Qed.

(** ** Premium entitlement *)

Module EntitlementFacts.
Import World Entitlement.

Lemma flag_lookup g w s :
  PREMIUM_GUILDS w !! g = Some s ->
  premiumFlag g w = default false (Premium.r_isPremium s).
Proof. intros H. unfold premiumFlag, stored. now rewrite H. Qed.

Lemma write_guilds f r w : PREMIUM_GUILDS (writeJsonSafe f r w) = PREMIUM_GUILDS w.
Proof. destruct r; reflexivity. Qed.
Lemma write_keys f r w : PREMIUM_KEYS (writeJsonSafe f r w) = PREMIUM_KEYS w.
Proof. destruct r; reflexivity. Qed.
Lemma write_configs f r w : GUILD_CONFIGS (writeJsonSafe f r w) = GUILD_CONFIGS w.
Proof. destruct r; reflexivity. Qed.
Lemma write_reviews f r w : REVIEWS (writeJsonSafe f r w) = REVIEWS w.
Proof. destruct r; reflexivity. Qed.
Lemma write_rated f r w : RATED (writeJsonSafe f r w) = RATED w.
Proof. destruct r; reflexivity. Qed.

Lemma ensure_cases g now wr w :
  Ensured g now wr w (ensurePremiumActiveOrExpire g now wr w).
Proof.
  unfold ensurePremiumActiveOrExpire.
  destruct (PREMIUM_GUILDS w !! g) as [s|] eqn:Hs; [|constructor].
  destruct (Premium.r_isPremium s) as [[|]|] eqn:Hp; simpl; try constructor.
  destruct (Premium.r_expiresAt s) as [d|] eqn:He; [|constructor].
  destruct (Premium.parse d) as [ms|] eqn:Hd; [|constructor].
  destruct (ms <? now) eqn:Hlt; [|constructor].
  apply Z.ltb_lt in Hlt. eapply Demoted; eauto.
Qed.

Lemma ensure_keys g now wr w :
  PREMIUM_KEYS (ensurePremiumActiveOrExpire g now wr w) = PREMIUM_KEYS w.
Proof. destruct (ensure_cases g now wr w); [reflexivity|]. now rewrite write_keys. Qed.

Lemma ensure_configs g now wr w :
  GUILD_CONFIGS (ensurePremiumActiveOrExpire g now wr w) = GUILD_CONFIGS w.
Proof. destruct (ensure_cases g now wr w); [reflexivity|]. now rewrite write_configs. Qed.

(** A guild's stored record after the check of [g]: the same, or demoted. *)
Lemma ensure_stored g now wr w g' :
  stored g' (ensurePremiumActiveOrExpire g now wr w) = stored g' w
  \/ stored g' (ensurePremiumActiveOrExpire g now wr w) = Premium.demoted (stored g' w).
Proof.
  destruct (ensure_cases g now wr w) as [|s ms Hs Hp He Hlt]; [now left|].
  unfold stored. rewrite write_guilds. simpl.
  destruct (decide (g = g')) as [<-|Hne].
  - right. now rewrite lookup_insert_eq, Hs.
  - left. now rewrite lookup_insert_ne.
Qed.

(** The check never turns the flag on. *)
Lemma ensure_flag g now wr w g' :
  premiumFlag g' w = false ->
  premiumFlag g' (ensurePremiumActiveOrExpire g now wr w) = false.
Proof.
  intros H. unfold premiumFlag.
  destruct (ensure_stored g now wr w g') as [-> | ->]; [exact H|reflexivity].
Qed.

(** It turns the flag off for an expired record. *)
Lemma ensure_expired g now wr w s d ms :
  PREMIUM_GUILDS w !! g = Some s ->
  Premium.r_expiresAt s = Some d -> Premium.parse d = Some ms -> ms < now ->
  premiumFlag g (ensurePremiumActiveOrExpire g now wr w) = false.
Proof.
  intros Hs He Hd Hlt. unfold ensurePremiumActiveOrExpire. rewrite Hs.
  destruct (Premium.r_isPremium s) as [[|]|] eqn:Hp; simpl.
  - rewrite He, Hd. apply Z.ltb_lt in Hlt. rewrite Hlt.
    rewrite (flag_lookup g _ (Premium.demoted s)); [reflexivity|].
    rewrite write_guilds. simpl. apply lookup_insert_eq.
  - now rewrite (flag_lookup g w s Hs), Hp.
  - now rewrite (flag_lookup g w s Hs), Hp.
Qed.


Lemma get_world g now wr w :
  snd (getPremiumState g now wr w) = ensurePremiumActiveOrExpire g now wr w.
Proof. reflexivity. Qed.

Lemma save_world g patch wrSave now wr w :
  snd (savePremiumState g patch wrSave now wr w)
  = ensurePremiumActiveOrExpire g now wr
      (writeJsonSafe PREMIUM_FILE wrSave
         (setPremiumGuilds
            (<[g := Premium.merge (stored g w) patch]> (PREMIUM_GUILDS w)) w)).
Proof. reflexivity. Qed.

Lemma save_keys g patch wrSave now wr w :
  PREMIUM_KEYS (snd (savePremiumState g patch wrSave now wr w)) = PREMIUM_KEYS w.
Proof. rewrite save_world, ensure_keys, write_keys. reflexivity. Qed.

(** The stored record of another guild is not touched by a save. *)
Lemma save_other g patch wrSave now wr w g' :
  g <> g' ->
  stored g' (snd (savePremiumState g patch wrSave now wr w)) = stored g' w.
Proof.
  intros Hne. rewrite save_world.
  destruct (ensure_cases g now wr
              (writeJsonSafe PREMIUM_FILE wrSave
                 (setPremiumGuilds
                    (<[g := Premium.merge (stored g w) patch]> (PREMIUM_GUILDS w)) w)))
    as [|s ms Hs Hp He Hlt];
    unfold stored; rewrite ?write_guilds; simpl; rewrite ?write_guilds; simpl;
    now rewrite ?lookup_insert_ne by assumption.
Qed.

(** A save of settings keeps a flag that is off. *)
Lemma save_settings_flag g b f wrSave now wr w g' :
  premiumFlag g' w = false ->
  premiumFlag g' (snd (savePremiumState g (Run.settingsPatch b f) wrSave now wr w)) = false.
Proof.
  intros H. rewrite save_world. apply ensure_flag.
  unfold premiumFlag, stored in *. rewrite write_guilds. simpl.
  destruct (decide (g = g')) as [<-|Hne].
  - rewrite lookup_insert_eq. simpl in *.
    destruct (Premium.r_isPremium _); simpl in *; exact H.
  - rewrite lookup_insert_ne by assumption. exact H.
Qed.

End EntitlementFacts.

Module RedeemFacts.
Import World Entitlement EntitlementFacts.

(** An own property is what the lookup finds. *)
Lemma lookup_own key k w :
  PREMIUM_KEYS w !! key = Some k -> lookupKey key w = Some k.
Proof. intros H. unfold lookupKey. now rewrite H. Qed.

Lemma assign_guilds key k g t w :
  PREMIUM_GUILDS (assignConsumed key k g t w) = PREMIUM_GUILDS w.
Proof.
  unfold assignConsumed. destruct (PREMIUM_KEYS w !! key); [reflexivity|].
  now destruct (String.eqb key "__proto__").
Qed.

Lemma consume_guilds key k g t wr w :
  PREMIUM_GUILDS (consume key k g t wr w) = PREMIUM_GUILDS w.
Proof. unfold consume. now rewrite write_guilds, assign_guilds. Qed.

(** The record of an own key after it is consumed. *)
Lemma consume_keys key k k0 g t wr w :
  PREMIUM_KEYS w !! key = Some k0 ->
  PREMIUM_KEYS (consume key k g t wr w)
  = <[key := Premium.consumed k g (Premium.Parsable t)]> (PREMIUM_KEYS w).
Proof.
  intros H. unfold consume, assignConsumed. now rewrite write_keys, H.
Qed.

(** The other keys keep their records. *)
Lemma consume_keys_other key' k' g t wr w key :
  key' <> key ->
  PREMIUM_KEYS (consume key' k' g t wr w) !! key = PREMIUM_KEYS w !! key.
Proof.
  intros Hne. unfold consume, assignConsumed. rewrite write_keys.
  destruct (PREMIUM_KEYS w !! key'); cbn [PREMIUM_KEYS setPremiumKeys];
    [now rewrite lookup_insert_ne|].
  destruct (String.eqb key' "__proto__"); cbn [PREMIUM_KEYS setPremiumKeys setKeysPrototype];
    [reflexivity|now rewrite lookup_insert_ne].
Qed.

Lemma consume_stored key k g t wr w g' :
  stored g' (consume key k g t wr w) = stored g' w.
Proof. unfold stored. now rewrite consume_guilds. Qed.

Lemma toISOString_representable ms :
  representable ms -> Premium.toISOString ms = Some (Premium.Parsable ms).
Proof.
  unfold representable, Premium.toISOString. intros [H1 H2].
  apply Z.leb_le in H1, H2. now rewrite H1, H2.
Qed.

(** A redemption of a used key is refused and changes nothing. *)
Lemma redeem_used m g key k env w :
  fromOwnerOf m g -> asksToRedeem m key ->
  PREMIUM_KEYS w !! key = Some k -> Premium.used k = true ->
  redeem m env w = (KeyAlreadyUsed, w).
Proof.
  intros (Hg & Hb & Ha) [Hc Hk] Hl Hu. apply lookup_own in Hl. unfold redeem.
  rewrite Hb, Hc, Hg, Ha, String.eqb_refl, Hk, Hl, Hu. reflexivity.
Qed.

(** Whoever sends it, a redemption of a used key changes nothing. *)
Lemma redeem_used_any m key k env w :
  asksToRedeem m key ->
  PREMIUM_KEYS w !! key = Some k -> Premium.used k = true ->
  snd (redeem m env w) = w.
Proof.
  intros [Hc Hk] Hl Hu. apply lookup_own in Hl. unfold redeem.
  destruct (authorBot m); [reflexivity|]. rewrite Hc, Hk, Hl, Hu. cbn [negb].
  destruct (guild m); [|reflexivity].
  destruct (negb (String.eqb _ _)); reflexivity.
Qed.

(** A redemption by the owner of what the lookup finds unused: it is
    consumed, and the guild's state is saved when the new expiry is a
    date. *)
Lemma redeem_found m g key k env w :
  fromOwnerOf m g -> asksToRedeem m key ->
  lookupKey key w = Some k -> Premium.used k = false ->
  let w0 := consume key k (id g) (usedAtClock env) (keysWrite env) w in
  let current := stored (id g) w in
  redeem m env w =
    match Premium.toISOString (Premium.base (now env) current + Premium.addMs k) with
    | None => (RangeError, w0)
    | Some d =>
        (Activated,
         snd (savePremiumState (id g)
                (activation k current (activatedAtClock env) d)
                (stateWrite env) (readClock env) (expireWrite env) w0))
    end.
Proof.
  intros (Hg & Hb & Ha) [Hc Hk] Hl Hu w0 current. unfold redeem.
  rewrite Hb, Hc, Hg, Ha, String.eqb_refl, Hk, Hl, Hu. simpl negb. cbv iota.
  subst w0 current. rewrite (consume_stored key k (id g) _ _ w (id g)).
  destruct (Premium.toISOString _); [|reflexivity].
  destruct (savePremiumState _ _ _ _ _ _); reflexivity.
Qed.

(** The same for an unused key of the store. *)
Lemma redeem_fresh m g key k env w :
  fromOwnerOf m g -> asksToRedeem m key ->
  PREMIUM_KEYS w !! key = Some k -> Premium.used k = false ->
  let w0 := consume key k (id g) (usedAtClock env) (keysWrite env) w in
  let current := stored (id g) w in
  redeem m env w =
    match Premium.toISOString (Premium.base (now env) current + Premium.addMs k) with
    | None => (RangeError, w0)
    | Some d =>
        (Activated,
         snd (savePremiumState (id g)
                (activation k current (activatedAtClock env) d)
                (stateWrite env) (readClock env) (expireWrite env) w0))
    end.
Proof.
  intros Ho Ha Hl Hu. apply lookup_own in Hl. now apply redeem_found.
Qed.

Lemma redeem_cases m env w : Redeemed m env w (snd (redeem m env w)).
Proof.
  unfold redeem.
  destruct (authorBot m); [constructor|].
  destruct (negb (Str.startsWith _ _)); [constructor|].
  destruct (guild m) as [g|] eqn:Hg; [|constructor].
  destruct (negb (String.eqb _ _)); [constructor|].
  destruct (nth_error _ 1) as [key|]; [|constructor].
  destruct (lookupKey key w) as [k|] eqn:Hk; [|constructor].
  destruct (Premium.used k) eqn:Hu; [constructor|].
  destruct (Premium.toISOString _) as [d|].
  - destruct (savePremiumState _ _ _ _ _ _) as [p w'] eqn:E.
    change w' with (snd (p, w')). rewrite <- E.
    eapply Saved; eauto.
  - eapply Consumed; eauto.
Qed.

(** A used key keeps its record through any redemption. *)
Lemma redeem_keeps_used m env w key k :
  PREMIUM_KEYS w !! key = Some k -> Premium.used k = true ->
  PREMIUM_KEYS (snd (redeem m env w)) !! key = Some k.
Proof.
  intros Hl Hu.
  assert (Hins : forall key' k' g t wr,
             lookupKey key' w = Some k' -> Premium.used k' = false ->
             PREMIUM_KEYS (consume key' k' g t wr w) !! key = Some k).
  { intros key' k' g t wr Hl' Hu'. rewrite consume_keys_other; [exact Hl|].
    intros ->. rewrite (lookup_own key k w Hl) in Hl'. congruence. }
  destruct (redeem_cases m env w) as [|g key' k' Hg Hl' Hu'|g key' k' patch Hg Hl' Hu'].
  - exact Hl.
  - now apply Hins.
  - rewrite save_keys. now apply Hins.
Qed.


(** What the code does with a word that names something every object
    inherits: the owner of a guild who redeems [constructor], with no key
    in the store, is given 30 days of premium, and the word is then a used
    key; the same with [__proto__], after which the words [used] and
    [usedAt] can be redeemed too. *)
Example redeem_inherited_names :
  let says text :=
    {| guild := Some Sample.homeGuild; authorId := "500000000000000005";
       authorBot := false; content := text |} in
  let w1 := snd (redeem (says "?premium-redeem constructor")
                   (Sample.calmAt 1700000005000) Sample.legacyWorld) in
  let w2 := snd (redeem (says "?premium-redeem __proto__")
                   (Sample.calmAt 1700000005000) Sample.legacyWorld) in
  PREMIUM_KEYS Sample.legacyWorld = ∅
  /\ fst (redeem (says "?premium-redeem DS-AAAA-BBBB-CCCC")
            (Sample.calmAt 1700000005000) Sample.legacyWorld) = InvalidKey
  /\ fst (redeem (says "?premium-redeem constructor")
            (Sample.calmAt 1700000005000) Sample.legacyWorld) = Activated
  /\ Premium.r_expiresAt (stored "100000000000000001" w1)
     = Some (Premium.Parsable (1700000005000 + 30 * 86400000))
  /\ fst (redeem (says "?premium-redeem constructor")
            (Sample.calmAt 1700000006000) w1) = KeyAlreadyUsed
  /\ fst (redeem (says "?premium-redeem __proto__")
            (Sample.calmAt 1700000005000) Sample.legacyWorld) = Activated
  /\ PREMIUM_KEYS w2 = ∅
  /\ fst (redeem (says "?premium-redeem __proto__")
            (Sample.calmAt 1700000006000) w2) = KeyAlreadyUsed
  /\ fst (redeem (says "?premium-redeem used")
            (Sample.calmAt 1700000006000) Sample.legacyWorld) = InvalidKey
  /\ fst (redeem (says "?premium-redeem used")
            (Sample.calmAt 1700000006000) w2) = Activated.
Proof. repeat split; vm_compute; reflexivity. Qed.

End RedeemFacts.

(** ** What the other handlers leave alone *)

Module FrameFacts.
Import World Entitlement EntitlementFacts RedeemFacts.

Lemma setTopic_guild t ok c : Tickets.guildId (Tickets.setTopic t ok c) = Tickets.guildId c.
Proof. destruct ok; reflexivity. Qed.

Lemma setName_guild n ok c : Tickets.guildId (Tickets.setName n ok c) = Tickets.guildId c.
Proof. destruct ok; reflexivity. Qed.

Lemma autoTag_guild prem ok c : Tickets.guildId (Tickets.autoTag prem ok c) = Tickets.guildId c.
Proof.
  unfold Tickets.autoTag.
  repeat match goal with |- context [if ?b then _ else _] => destruct b end;
    now rewrite ?setName_guild.
Qed.

Lemma autoUntag_guild prem ok c :
  Tickets.guildId (Tickets.autoUntag prem ok c) = Tickets.guildId c.
Proof.
  unfold Tickets.autoUntag.
  repeat match goal with |- context [if ?b then _ else _] => destruct b end;
    now rewrite ?setName_guild.
Qed.

Lemma claimCommand_world m ch env w :
  snd (Tickets.claimCommand m ch env w) = w
  \/ exists c, ch = Some c
       /\ snd (Tickets.claimCommand m ch env w) = Tickets.checkedTwice (Tickets.guildId c) env w.
Proof.
  unfold Tickets.claimCommand.
  destruct ch as [c|]; [|now left].
  destruct (_ || _); [now left|].
  destruct (negb (Tickets.canManageTicket _ _ _)); [now left|].
  destruct (match Topic.claimed _ with Some _ => _ | None => _ end); [now left|].
  right. exists c. split; [reflexivity|].
  unfold getPremiumState. cbv zeta. cbn [snd].
  unfold Tickets.checkedTwice.
  now rewrite ?autoTag_guild, ?autoUntag_guild, ?setTopic_guild.
Qed.

Lemma unclaimCommand_world m ch env w :
  snd (Tickets.unclaimCommand m ch env w) = w
  \/ exists c, ch = Some c
       /\ snd (Tickets.unclaimCommand m ch env w) = Tickets.checkedTwice (Tickets.guildId c) env w.
Proof.
  unfold Tickets.unclaimCommand.
  destruct ch as [c|]; [|now left].
  destruct (_ || _); [now left|].
  destruct (negb (Tickets.canManageTicket _ _ _)); [now left|].
  destruct (Topic.claimed _) as [cl|]; [|now left].
  destruct (_ && _); [now left|].
  right. exists c. split; [reflexivity|].
  unfold getPremiumState. cbv zeta. cbn [snd].
  unfold Tickets.checkedTwice.
  now rewrite ?autoTag_guild, ?autoUntag_guild, ?setTopic_guild.
Qed.

Lemma claim_world route m ch env w :
  snd (Run.claim route m ch env w) = w
  \/ exists c, ch = Some c
       /\ snd (Run.claim route m ch env w) = Tickets.checkedTwice (Tickets.guildId c) env w.
Proof.
  destruct route; simpl.
  - left. now destruct (Tickets.claimButton _ _ _ _).
  - apply claimCommand_world.
Qed.

Lemma checkedTwice_keys g env w : PREMIUM_KEYS (Tickets.checkedTwice g env w) = PREMIUM_KEYS w.
Proof. unfold Tickets.checkedTwice. now rewrite !ensure_keys. Qed.


(** A rating changes the ledger and the marks only. *)
Lemma rate_guilds_keys i env w :
  PREMIUM_GUILDS (snd (Ratings.rate i env w)) = PREMIUM_GUILDS w
  /\ PREMIUM_KEYS (snd (Ratings.rate i env w)) = PREMIUM_KEYS w.
Proof.
  unfold Ratings.rate, Ratings.markRated, Ratings.addReviewForStaff,
    Ratings.addReviewForService.
  repeat match goal with
         | |- context [if ?b then _ else _] => destruct b
         | |- context [match ?x with Some _ => _ | None => _ end] => destruct x
         end;
    simpl; rewrite ?write_guilds, ?write_keys; simpl;
    rewrite ?write_guilds, ?write_keys; split; reflexivity.
Qed.

(** The loop of the generator stores records under the keys it draws,
    and under no other. *)
Lemma issue_other dur author env key :
  (forall i : nat, KeyGen.draw env i <> key) ->
  forall (count i : nat) (store : gmap string Premium.Key),
    snd (KeyGen.issue dur author env i count store) !! key = store !! key.
Proof.
  intros Hne. induction count as [|count IH]; intros i store; [reflexivity|].
  cbn [KeyGen.issue].
  specialize (IH (S i) (<[KeyGen.draw env i :=
                            KeyGen.fresh dur author (KeyGen.createdAtClock env i)]> store)).
  destruct (KeyGen.issue dur author env (S i) count _) as [keys store'].
  cbn [snd] in *. rewrite IH. apply lookup_insert_ne, Hne.
Qed.

(** What a call of the generator may do to the world: nothing, or the
    store of keys replaced by the one the loop leaves, and written. *)
Lemma generate_cases m env w :
  snd (KeyGen.generate m env w) = w
  \/ exists dur count,
       snd (KeyGen.generate m env w)
       = writeJsonSafe PREMIUM_KEYS_FILE (KeyGen.genWrite env)
           (setPremiumKeys
              (snd (KeyGen.issue dur (authorId m) env 0 count (PREMIUM_KEYS w))) w).
Proof.
  unfold KeyGen.generate.
  destruct (authorBot m); [now left|].
  destruct (negb (Str.startsWith _ _)); [now left|].
  destruct (guild m); [|now left].
  destruct (negb (KeyGen.isBotOwner _ _)); [now left|].
  destruct (nth_error _ 1) as [planArg|]; [|now left].
  destruct (Duration.parseDurationToMs planArg) as [dur|]; [|now left].
  destruct (KeyGen.countOf _) as [count|]; [|now left].
  right. exists dur, count.
  destruct (KeyGen.issue dur (authorId m) env 0 count (PREMIUM_KEYS w)); reflexivity.
Qed.

Lemma generate_other m env w key :
  (forall i : nat, KeyGen.draw env i <> key) ->
  PREMIUM_KEYS (snd (KeyGen.generate m env w)) !! key = PREMIUM_KEYS w !! key.
Proof.
  intros Hne. destruct (generate_cases m env w) as [->|(dur & count & ->)];
    [reflexivity|].
  rewrite write_keys. simpl. now apply issue_other.
Qed.


(** The timer of the configuration save writes the configuration file. *)
Lemma configTimer_guilds_keys wr w :
  PREMIUM_GUILDS (configTimer wr w) = PREMIUM_GUILDS w
  /\ PREMIUM_KEYS (configTimer wr w) = PREMIUM_KEYS w.
Proof.
  unfold configTimer. simpl.
  destruct (_cfgDirty w); simpl; [|now split].
  destruct (DISK_FULL w); simpl; [now split|].
  now rewrite write_guilds, write_keys.
Qed.

Lemma postSave_world logged g body w : snd (Dashboard.postSave logged g body w) = w.
Proof. unfold Dashboard.postSave. now destruct logged. Qed.

(** The branding route: nothing, or the record of a guild whose flag is
    on replaced by one with the same flag. *)
Lemma postBranding_cases logged g body wr w :
  snd (Dashboard.postBranding logged g body wr w) = w
  \/ exists s s',
       PREMIUM_GUILDS w !! g = Some s
       /\ Premium.r_isPremium s' = Premium.r_isPremium s
       /\ default false (Premium.r_isPremium s) = true
       /\ snd (Dashboard.postBranding logged g body wr w)
          = writeJsonSafe PREMIUM_FILE wr
              (setPremiumGuilds (<[g := s']> (PREMIUM_GUILDS w)) w).
Proof.
  unfold Dashboard.postBranding.
  destruct logged; [|now left]. cbn [negb].
  destruct (PREMIUM_GUILDS w !! g) as [s|] eqn:Hs; [|now left].
  destruct (default false (Premium.r_isPremium s)) eqn:Hp; [|now left].
  right. eexists s, _. cbn [negb snd].
  split; [reflexivity|]. split; [|split; [exact Hp|reflexivity]]. reflexivity.
Qed.

Lemma postBranding_keys logged g body wr w :
  PREMIUM_KEYS (snd (Dashboard.postBranding logged g body wr w)) = PREMIUM_KEYS w.
Proof.
  destruct (postBranding_cases logged g body wr w) as [->|(s & s' & _ & _ & _ & ->)];
    [reflexivity|].
  now rewrite write_keys.
Qed.

Lemma postBranding_flag logged g body wr w g' :
  premiumFlag g' (snd (Dashboard.postBranding logged g body wr w)) = premiumFlag g' w.
Proof.
  destruct (postBranding_cases logged g body wr w)
    as [->|(s & s' & Hs & Hsame & _ & ->)]; [reflexivity|].
  unfold premiumFlag, stored. rewrite write_guilds. simpl.
  destruct (decide (g' = g)) as [->|Hne].
  - rewrite lookup_insert_eq, Hs. simpl. now rewrite Hsame.
  - now rewrite lookup_insert_ne by congruence.
Qed.

(** A used key keeps its record through every event, a generation that
    draws the same key again apart. *)
Lemma step_keeps_used w ev key k :
  PREMIUM_KEYS w !! key = Some k -> Premium.used k = true ->
  match ev with
  | Run.Generate _ env => forall i : nat, KeyGen.draw env i <> key
  | _ => True
  end ->
  PREMIUM_KEYS (Run.step w ev) !! key = Some k.
Proof.
  intros Hl Hu Hev. destruct ev; unfold Run.step.
  - now apply redeem_keeps_used.
  - now rewrite generate_other.
  - destruct (configTimer_guilds_keys wr w) as [_ ->]. exact Hl.
  - now rewrite postSave_world.
  - now rewrite postBranding_keys.
  - rewrite get_world, ensure_keys. exact Hl.
  - rewrite save_keys. exact Hl.
  - exact Hl.
  - destruct (rate_guilds_keys interaction env w) as [_ ->]. exact Hl.
  - destruct (claim_world route member channel env w) as [->|(c & _ & ->)];
      [exact Hl|]. now rewrite checkedTwice_keys.
  - destruct (unclaimCommand_world member channel env w) as [->|(c & _ & ->)];
      [exact Hl|]. now rewrite checkedTwice_keys.
Qed.

Lemma run_keeps_used events w key k :
  PREMIUM_KEYS w !! key = Some k -> Premium.used k = true ->
  Run.neverDraws key events ->
  PREMIUM_KEYS (Run.run events w) !! key = Some k.
Proof.
  revert w. induction events as [|ev events IH]; intros w Hl Hu Hev; [exact Hl|].
  inversion Hev as [|? ? Hhd Htl]; subst. simpl.
  apply IH; [|exact Hu|exact Htl]. now apply step_keeps_used.
Qed.



End FrameFacts.

(** ** Licence keys and expiry: the claims *)

Section Redemption.
Import World Entitlement.

Variables (w : World.t) (key : string) (k : Premium.Key).
Variables (message : Message) (g : Guild) (env : Env).

Hypothesis Hrecord : PREMIUM_KEYS w !! key = Some k.
Hypothesis Hunused : Premium.used k = false.
Hypothesis Howner : fromOwnerOf message g.
Hypothesis Hasks : asksToRedeem message key.

Let current : Premium.Raw := stored (id g) w.
Let expiry : Z := Premium.base (now env) current + Premium.addMs k.
Let w0 : World.t := consume key k (id g) (usedAtClock env) (keysWrite env) w.

(** The key's record after the call, whatever the call replies. *)
Lemma redeem_consumes :
  PREMIUM_KEYS (snd (redeem message env w)) !! key
  = Some (Premium.consumed k (id g) (Premium.Parsable (usedAtClock env))).
Proof.
  rewrite (RedeemFacts.redeem_fresh message g key k env w Howner Hasks Hrecord Hunused).
  fold current. destruct (Premium.toISOString _); cbn [snd].
  - rewrite EntitlementFacts.save_keys, (RedeemFacts.consume_keys _ _ _ _ _ _ _ Hrecord).
    apply lookup_insert_eq.
  - rewrite (RedeemFacts.consume_keys _ _ _ _ _ _ _ Hrecord). apply lookup_insert_eq.
Qed.

Lemma redeem_activates :
  representable expiry ->
  redeem message env w
  = (Activated,
     snd (savePremiumState (id g)
            (activation k current (activatedAtClock env) (Premium.Parsable expiry))
            (stateWrite env) (readClock env) (expireWrite env) w0)).
Proof.
  intros Hrep.
  rewrite (RedeemFacts.redeem_fresh message g key k env w Howner Hasks Hrecord Hunused).
  fold current expiry. now rewrite (RedeemFacts.toISOString_representable expiry Hrep).
Qed.

(** The record saved for the guild: the merged one, demoted at once when
    the new expiry has already passed as the save reads the state back. *)
Lemma redeem_stores :
  representable expiry ->
  stored (id g) (snd (redeem message env w))
  = let merged :=
      Premium.merge current
        (activation k current (activatedAtClock env) (Premium.Parsable expiry)) in
    if expiry <? readClock env then Premium.demoted merged else merged.
Proof.
  intros Hrep. rewrite (redeem_activates Hrep). cbn [snd].
  rewrite EntitlementFacts.save_world. unfold w0.
  rewrite (RedeemFacts.consume_stored key k (id g) _ _ w (id g)). fold current.
  cbv zeta. set (M := Premium.merge current _).
  set (w' := writeJsonSafe _ _ _).
  assert (Hl : PREMIUM_GUILDS w' !! id g = Some M).
  { subst w'. rewrite EntitlementFacts.write_guilds. simpl. apply lookup_insert_eq. }
  unfold ensurePremiumActiveOrExpire. rewrite Hl. simpl.
  destruct (expiry <? readClock env).
  - unfold stored. rewrite EntitlementFacts.write_guilds. simpl.
    now rewrite lookup_insert_eq.
  - unfold stored. now rewrite Hl.
Qed.

End Redemption.

(** C1. A licence key is single-use. The first redemption of an unused key
    by the owner of a guild marks the record used, with the guild and the
    time, and succeeds (whenever the new expiry is a date that JavaScript
    can represent); after that, and after any further events in which the
    generator does not draw the same key anew, a redemption of the same key
    is answered with the key-already-used error when the owner of a guild
    sends it, and, whoever sends it, leaves every variable of the program
    as it was: the key's record and the guild's premium state with it. *)
Theorem key_is_single_use
    (w : World.t) (key : string) (k : Premium.Key)
    (message : Entitlement.Message) (g : Entitlement.Guild) (env : Entitlement.Env) :
  World.PREMIUM_KEYS w !! key = Some k ->
  Premium.used k = false ->
  Entitlement.fromOwnerOf message g ->
  Entitlement.asksToRedeem message key ->
  let w1 := snd (Entitlement.redeem message env w) in
  (exists k1 : Premium.Key,
      World.PREMIUM_KEYS w1 !! key = Some k1
      /\ Premium.used k1 = true
      /\ Premium.usedByGuildId k1 = Some (Entitlement.id g)
      /\ Premium.usedAt k1 = Some (Premium.Parsable (Entitlement.usedAtClock env)))
  /\ (Entitlement.representable
        (Premium.base (Entitlement.now env) (Entitlement.stored (Entitlement.id g) w)
         + Premium.addMs k) ->
      fst (Entitlement.redeem message env w) = Entitlement.Activated)
  /\ forall (events : list Run.Event)
            (message' : Entitlement.Message) (env' : Entitlement.Env),
       Run.neverDraws key events ->
       Entitlement.asksToRedeem message' key ->
       snd (Entitlement.redeem message' env' (Run.run events w1)) = Run.run events w1
       /\ forall g' : Entitlement.Guild,
            Entitlement.fromOwnerOf message' g' ->
            fst (Entitlement.redeem message' env' (Run.run events w1))
            = Entitlement.KeyAlreadyUsed.
Proof.
  intros Hrecord Hunused Howner Hasks w1.
  pose proof (redeem_consumes w key k message g env Hrecord Hunused Howner Hasks) as Hk1.
  split; [|split].
  - eexists. split; [exact Hk1|]. repeat split.
  - intros Hrep.
    now rewrite (redeem_activates w key k message g env Hrecord Hunused Howner Hasks Hrep).
  - intros events message' env' Hdraws Hasks'.
    assert (Hstill : World.PREMIUM_KEYS (Run.run events w1) !! key
                     = Some (Premium.consumed k (Entitlement.id g)
                               (Premium.Parsable (Entitlement.usedAtClock env))))
      by (apply FrameFacts.run_keeps_used; [exact Hk1|reflexivity|exact Hdraws]).
    split.
    + apply (RedeemFacts.redeem_used_any message' key _ env' _ Hasks' Hstill eq_refl).
    + intros g' Howner'.
      now rewrite (RedeemFacts.redeem_used message' g' key _ env' _ Howner' Hasks'
                     Hstill eq_refl).
Qed.

Lemma key_is_single_use_witness :
  Entitlement.redeem Sample.redeemMessage (Sample.calmAt 1700000100000)
    (snd (Entitlement.redeem Sample.redeemMessage (Sample.calmAt 1700000005000)
            Sample.keyWorld))
  = (Entitlement.KeyAlreadyUsed,
     snd (Entitlement.redeem Sample.redeemMessage (Sample.calmAt 1700000005000)
            Sample.keyWorld)).
Proof.
  destruct (key_is_single_use Sample.keyWorld "DS-AAAA-BBBB-CCCC" Sample.dayKey
              Sample.redeemMessage Sample.homeGuild (Sample.calmAt 1700000005000)
              eq_refl eq_refl (conj eq_refl (conj eq_refl eq_refl))
              (conj eq_refl eq_refl))
    as (_ & _ & H).
  destruct (H [] Sample.redeemMessage (Sample.calmAt 1700000100000)
              (List.Forall_nil _) (conj eq_refl eq_refl)) as [Hworld Hreply].
  specialize (Hreply Sample.homeGuild (conj eq_refl (conj eq_refl eq_refl))).
  cbn [Run.run fold_left] in Hworld, Hreply.
  rewrite (surjective_pairing (Entitlement.redeem _ _ _)).
  now rewrite Hworld, Hreply.
Defined.

(** C2, as the code has it. Redeeming a key of duration [D] extends premium
    and never shortens it. [D] is the key's [durationMs]; for a key without
    it, its [durationDays] in days; for a key with neither, 30 days. With
    [now] the time the handler reads: when the guild's expiry is [now + X]
    with [X > 0] the new expiry is [now + X + D]; when it is in the past,
    absent or unreadable the new expiry is [now + D]. The redemption stores
    the premium flag on and keeps a first activation time; the handler
    reads the state back before it ends, and the flag it leaves is on when
    the new expiry has not passed at that read, and off again when it has.
    The new expiry is taken to be a date JavaScript can represent. *)
Theorem redemption_extends
    (w : World.t) (key : string) (k : Premium.Key) (D : Z)
    (message : Entitlement.Message) (g : Entitlement.Guild) (env : Entitlement.Env) :
  World.PREMIUM_KEYS w !! key = Some k ->
  Premium.used k = false ->
  Premium.durationMs k = Some D
  \/ (Premium.durationMs k = None
      /\ exists days : Z, Premium.durationDays k = Some days /\ D = days * 86400000)
  \/ (Premium.durationMs k = None /\ Premium.durationDays k = None
      /\ D = 30 * 86400000) ->
  Entitlement.fromOwnerOf message g ->
  Entitlement.asksToRedeem message key ->
  let current := Entitlement.stored (Entitlement.id g) w in
  let now := Entitlement.now env in
  let expiry := Premium.base now current + D in
  Entitlement.representable expiry ->
  let after := Entitlement.stored (Entitlement.id g) (snd (Entitlement.redeem message env w)) in
  fst (Entitlement.redeem message env w) = Entitlement.Activated
  /\ Premium.r_expiresAt after = Some (Premium.Parsable expiry)
  /\ (forall X : Z,
        0 < X -> Premium.r_expiresAt current = Some (Premium.Parsable (now + X)) ->
        expiry = now + X + D)
  /\ (Premium.r_expiresAt current = None
      \/ Premium.r_expiresAt current = Some Premium.Unparsable
      \/ (exists ms : Z,
             Premium.r_expiresAt current = Some (Premium.Parsable ms) /\ ms <= now) ->
      expiry = now + D)
  /\ (forall ms : Z,
        Premium.r_expiresAt current = Some (Premium.Parsable ms) -> 0 <= D -> ms <= expiry)
  /\ (Entitlement.readClock env <= expiry -> Premium.r_isPremium after = Some true)
  /\ (expiry < Entitlement.readClock env -> Premium.r_isPremium after = Some false)
  /\ (forall a : Premium.DateStr,
        Premium.r_activatedAt current = Some a -> Premium.r_activatedAt after = Some a)
  /\ (Premium.r_activatedAt current = None ->
      Premium.r_activatedAt after
      = Some (Premium.Parsable (Entitlement.activatedAtClock env))).
Proof.
  intros Hrecord Hunused HD Howner Hasks current now expiry Hrep after.
  assert (Hadd : Premium.addMs k = D).
  { unfold Premium.addMs.
    destruct HD as [-> | [(-> & days & -> & ->) | (-> & -> & ->)]]; cbn [default]; unfold id; cbv iota; lia. }
  subst expiry. rewrite <- Hadd in *.
  set (expiry := Premium.base now current + Premium.addMs k) in *.
  pose proof (redeem_stores w key k message g env Hrecord Hunused Howner Hasks Hrep)
    as Hafter.
  fold current now expiry after in Hafter. cbv zeta in Hafter.
  split; [|split; [|split; [|split; [|split; [|split; [|split; [|split]]]]]]].
  - now rewrite (redeem_activates w key k message g env Hrecord Hunused Howner Hasks Hrep).
  - rewrite Hafter. now destruct (expiry <? Entitlement.readClock env).
  - intros X HX Hcur. subst expiry. unfold Premium.base. rewrite Hcur. simpl.
    destruct (now <? now + X) eqn:E; [reflexivity|]. apply Z.ltb_ge in E. lia.
  - intros [Hcur|[Hcur|(ms & Hcur & Hms)]]; subst expiry; unfold Premium.base;
      rewrite Hcur; simpl; try reflexivity.
    destruct (now <? ms) eqn:E; [|reflexivity]. apply Z.ltb_lt in E. lia.
  - intros ms Hcur HD0. subst expiry. unfold Premium.base. rewrite Hcur. simpl.
    destruct (now <? ms) eqn:E; [lia|]. apply Z.ltb_ge in E. lia.
  - intros Hclock. apply Z.ltb_ge in Hclock. rewrite Hafter, Hclock. reflexivity.
  - intros Hclock. apply Z.ltb_lt in Hclock. rewrite Hafter, Hclock. reflexivity.
  - intros a Ha. rewrite Hafter.
    destruct (expiry <? Entitlement.readClock env); simpl; now rewrite Ha.
  - intros Ha. rewrite Hafter.
    destruct (expiry <? Entitlement.readClock env); simpl; now rewrite Ha.
Qed.

Lemma redemption_extends_witness :
  Premium.r_expiresAt
    (Entitlement.stored "100000000000000001"
       (snd (Entitlement.redeem Sample.redeemMessage (Sample.calmAt 1700000005000)
               Sample.keyWorld)))
  = Some (Premium.Parsable (1700000005000 + 86400000))
  /\ Premium.r_expiresAt
       (Entitlement.stored "100000000000000001"
          (snd (Entitlement.redeem Sample.redeemMessage (Sample.calmAt 1700000005000)
                  (Cases.worldWith (Cases.keyOf None (Some 15))))))
     = Some (Premium.Parsable (1700000005000 + 15 * 86400000))
  /\ Premium.r_expiresAt
       (Entitlement.stored "100000000000000001"
          (snd (Entitlement.redeem Sample.redeemMessage (Sample.calmAt 1700000005000)
                  (Cases.worldWith (Cases.keyOf None None)))))
     = Some (Premium.Parsable (1700000005000 + 30 * 86400000)).
Proof.
  split; [|split].
  - destruct (redemption_extends Sample.keyWorld "DS-AAAA-BBBB-CCCC" Sample.dayKey
                86400000 Sample.redeemMessage Sample.homeGuild
                (Sample.calmAt 1700000005000)
                eq_refl eq_refl (or_introl eq_refl)
                (conj eq_refl (conj eq_refl eq_refl)) (conj eq_refl eq_refl))
      as (_ & H & _).
    + unfold Entitlement.representable. vm_compute. split; discriminate.
    + exact H.
  - destruct (redemption_extends (Cases.worldWith (Cases.keyOf None (Some 15)))
                "DS-AAAA-BBBB-CCCC" (Cases.keyOf None (Some 15))
                (15 * 86400000) Sample.redeemMessage Sample.homeGuild
                (Sample.calmAt 1700000005000)
                eq_refl eq_refl
                (or_intror (or_introl (conj eq_refl (ex_intro _ 15 (conj eq_refl eq_refl)))))
                (conj eq_refl (conj eq_refl eq_refl)) (conj eq_refl eq_refl))
      as (_ & H & _).
    + unfold Entitlement.representable. vm_compute. split; discriminate.
    + exact H.
  - destruct (redemption_extends (Cases.worldWith (Cases.keyOf None None))
                "DS-AAAA-BBBB-CCCC" (Cases.keyOf None None)
                (30 * 86400000) Sample.redeemMessage Sample.homeGuild
                (Sample.calmAt 1700000005000)
                eq_refl eq_refl
                (or_intror (or_intror (conj eq_refl (conj eq_refl eq_refl))))
                (conj eq_refl (conj eq_refl eq_refl)) (conj eq_refl eq_refl))
      as (_ & H & _).
    + unfold Entitlement.representable. vm_compute. split; discriminate.
    + exact H.
Defined.

(** C2 as stated fails in one part: the flag is not on after every
    redemption. The handler ends with a read of the state, which demotes a
    guild whose expiry has passed. A key of one second redeemed by a handler
    whose closing read comes 1001 ms after its reading of [now] leaves the
    guild's flag off, with the expiry at [now] plus one second; and so does
    the key of 0 ms that [?premium-gen 0.5] issues, one millisecond after
    [now]. *)
Lemma redemption_counterexample :
  (let w1 :=
     snd (Entitlement.redeem Sample.redeemMessage
            (Cases.readBackAfter 1700000005000 1001)
            (Cases.worldWith (Cases.keyOf (Some 1000) (Some 1)))) in
   fst (Entitlement.redeem Sample.redeemMessage
          (Cases.readBackAfter 1700000005000 1001)
          (Cases.worldWith (Cases.keyOf (Some 1000) (Some 1)))) = Entitlement.Activated
   /\ Premium.r_expiresAt (Entitlement.stored "100000000000000001" w1)
      = Some (Premium.Parsable 1700000006000)
   /\ Premium.r_isPremium (Entitlement.stored "100000000000000001" w1) = Some false)
  /\ (let w0 :=
        snd (KeyGen.generate (Cases.botOwnerSays "?premium-gen 0.5") Cases.zeros
               Sample.keyWorld) in
      let w1 :=
        snd (Entitlement.redeem (Cases.ownerSays "?premium-redeem DS-AAAA-AAAA-AAAA")
               (Cases.readBackAfter 1700000005000 1) w0) in
      fst (KeyGen.generate (Cases.botOwnerSays "?premium-gen 0.5") Cases.zeros
             Sample.keyWorld) = KeyGen.Generated ["DS-AAAA-AAAA-AAAA"]
      /\ fst (Entitlement.redeem (Cases.ownerSays "?premium-redeem DS-AAAA-AAAA-AAAA")
                (Cases.readBackAfter 1700000005000 1) w0) = Entitlement.Activated
      /\ Premium.r_isPremium (Entitlement.stored "100000000000000001" w1) = Some false).
Proof. repeat split; vm_compute; reflexivity. Qed.



(** ** Tickets *)

Module TicketFacts.
Import Str StrFacts Topic TopicFacts.

Lemma clean_plain s : clean s -> s <> "" -> plainId s = true.
Proof.
  intros [H1 H2] Hne. unfold plainId.
  now rewrite H1, H2, (isEmpty_false s Hne).
Qed.

Lemma orNull_clean v s : orNull v = Some s -> v = Some s /\ s <> "".
Proof.
  destruct v as [x|]; simpl; [|discriminate].
  destruct x; simpl; [discriminate|]. intros [= <-]. split; [reflexivity|discriminate].
Qed.

Lemma assign_fit def kv :
  fit def -> Forall clean kv -> fit (assign def kv).
Proof.
  intros [Ho Hc] Hkv. unfold assign.
  assert (Hv : forall s, orNull (nth_error kv 1) = Some s -> plainId s = true).
  { intros s Hs. apply orNull_clean in Hs as [Hs Hne].
    apply clean_plain; [|exact Hne].
    apply nth_error_In in Hs. rewrite Forall_forall in Hkv.
    apply Hkv. now apply list_elem_of_In. }
  destruct (String.eqb (hd "" kv) "opened");
    destruct (String.eqb (hd "" kv) "claimed");
    split; cbn [opened claimed]; auto.
  - intros c. destruct (orNull (nth_error kv 1)) as [s|] eqn:E; [|discriminate].
    destruct (String.eqb s "null") eqn:En; [discriminate|].
    intros [= <-]. split; [now apply Hv|].
    intros ->. discriminate.
  - intros c. destruct (orNull (nth_error kv 1)) as [s|] eqn:E; [|discriminate].
    destruct (String.eqb s "null") eqn:En; [discriminate|].
    intros [= <-]. split; [now apply Hv|].
    intros ->. discriminate.
Qed.

Lemma fold_assign_fit kvs def :
  fit def -> Forall (Forall clean) kvs -> fit (fold_left assign kvs def).
Proof.
  revert def. induction kvs as [|kv kvs IH]; intros def Hd Hk; [exact Hd|].
  inversion Hk; subst. simpl. apply IH; [|assumption]. now apply assign_fit.
Qed.

Lemma parts_clean s : Forall (Forall clean) (List.map (split ":") (split ";" s)).
Proof.
  rewrite Forall_forall. intros kv Hkv.
  apply list_elem_of_In, in_map_iff in Hkv as (p & <- & Hp).
  destruct (split_parts ";" ";" s p Hp) as [Hsemi _].
  rewrite Forall_forall. intros x Hx. apply list_elem_of_In in Hx.
  destruct (split_parts ":" ";" p x Hx) as [Hcolon Hkeep].
  split; [exact Hcolon|now apply Hkeep].
Qed.

Lemma parseTopic_fit topic : fit (parseTopic topic).
Proof.
  unfold parseTopic.
  destruct (orNull topic) as [s|].
  - apply fold_assign_fit; [|apply parts_clean]. split; intros ?; discriminate.
  - split; intros ?; discriminate.
Qed.

Lemma unknown_plain o :
  (forall x, o = Some x -> plainId x = true) -> plainId (default "unknown" o) = true.
Proof. destruct o as [x|]; simpl; [intros H; now apply H|reflexivity]. Qed.

Lemma show_plain o :
  (forall x, o = Some x -> plainId x = true) -> plainId (show o) = true.
Proof. destruct o as [x|]; simpl; [intros H; now apply H|reflexivity]. Qed.

End TicketFacts.

Module ClaimFacts.
Import Str Topic TopicFacts TicketFacts World Tickets.

Lemma setTopic_topic t c : topic (setTopic t true c) = Some t.
Proof. reflexivity. Qed.

Lemma setTopic_type t ok c : type (setTopic t ok c) = type c.
Proof. destruct ok; reflexivity. Qed.

Lemma setTopic_parent t ok c : parentId (setTopic t ok c) = parentId c.
Proof. destruct ok; reflexivity. Qed.

Lemma setTopic_name t ok c : name (setTopic t ok c) = name c.
Proof. destruct ok; reflexivity. Qed.

Lemma setName_same n ok c : sameChannel c (setName n ok c) /\ topic (setName n ok c) = topic c.
Proof. destruct ok; repeat split. Qed.

Lemma autoTag_same prem ok c : sameChannel c (autoTag prem ok c) /\ topic (autoTag prem ok c) = topic c.
Proof.
  unfold autoTag.
  repeat match goal with |- context [if ?b then _ else _] => destruct b end;
    first [apply setName_same | repeat split].
Qed.

Lemma autoUntag_same prem ok c :
  sameChannel c (autoUntag prem ok c) /\ topic (autoUntag prem ok c) = topic c.
Proof.
  unfold autoUntag.
  repeat match goal with |- context [if ?b then _ else _] => destruct b end;
    first [apply setName_same | repeat split].
Qed.

Lemma canManage_text m c w : canManageTicket m (Some c) w = true -> isText (Some c) = true.
Proof. unfold canManageTicket. destruct (isText (Some c)); [reflexivity|discriminate]. Qed.

(** Who may manage a ticket depends on the configuration and on the
    channel's type, guild and parent only. *)
Lemma canManage_ext m c c' w w' :
  sameChannel c c' -> GUILD_CONFIGS w' = GUILD_CONFIGS w ->
  canManageTicket m (Some c') w' = canManageTicket m (Some c) w.
Proof.
  intros (Ht & Hg & Hp) Hw.
  unfold canManageTicket, isText, isAdmin, isSupport, isTradeStaff, getGuildConfig.
  now rewrite Ht, Hg, Hp, Hw.
Qed.

(** A text channel whose topic names an opener is a ticket channel. *)
Lemma isTicket_by_topic c w o :
  isText (Some c) = true -> opened (parseTopic (topic c)) = Some o -> o <> "" ->
  isTicketChannel (Some c) w = true.
Proof.
  intros Ht Ho Hne. unfold isTicketChannel. rewrite Ht, Ho. simpl.
  rewrite (StrFacts.isEmpty_false o Hne). simpl.
  repeat match goal with |- context [if ?b then _ else _] => destruct b end; reflexivity.
Qed.

Lemma plain_nonempty s : plainId s = true -> s <> "".
Proof. intros H. now apply plainId_inv in H. Qed.

Section Attempt.
Variables (m : Member) (c : Channel) (w : World.t).

Hypothesis Hmanage : canManageTicket m (Some c) w = true.

Lemma button_claims ok :
  claimed (parseTopic (topic c)) = None ->
  claimButton m (Some c) ok w
  = (Claimed,
     Some (setTopic (makeTopic (opened (parseTopic (topic c))) (Some (userId m))) ok c)).
Proof.
  intros Hc. unfold claimButton.
  rewrite (canManage_text m c w Hmanage), Hmanage, Hc. reflexivity.
Qed.

Lemma button_refuses ok cl :
  claimed (parseTopic (topic c)) = Some cl ->
  claimButton m (Some c) ok w = (AlreadyClaimed, Some c).
Proof.
  intros Hc. unfold claimButton.
  rewrite (canManage_text m c w Hmanage), Hmanage, Hc. reflexivity.
Qed.

Hypothesis Hticket : isTicketChannel (Some c) w = true.

Lemma slash_refuses env cl :
  claimed (parseTopic (topic c)) = Some cl ->
  claimCommand m (Some c) env w = (AlreadyClaimed, Some c, w).
Proof.
  intros Hc. unfold claimCommand.
  rewrite (canManage_text m c w Hmanage), Hticket, Hmanage, Hc. simpl.
  destruct (parseTopic_fit (topic c)) as [_ Hfit].
  destruct (Hfit cl Hc) as [_ Hnull].
  destruct (String.eqb cl "null") eqn:E; [|reflexivity].
  apply String.eqb_eq in E. contradiction.
Qed.

(** The channel a successful [/claim] leaves: the topic written when the
    platform applies it, the rest as before, the name apart. *)
Lemma slash_claims env :
  claimed (parseTopic (topic c)) = None ->
  exists c' : Channel,
    claimCommand m (Some c) env w
    = (Claimed, Some c', checkedTwice (guildId c) env w)
    /\ sameChannel c c'
    /\ topic c'
       = topic (setTopic ("opened:" +:+ default "unknown" (opened (parseTopic (topic c)))
                          +:+ ";claimed:" +:+ userId m)
                         (setTopicOk env) c).
Proof.
  intros Hc. unfold claimCommand.
  rewrite (canManage_text m c w Hmanage), Hticket, Hmanage, Hc. cbn [negb orb].
  cbv iota. unfold Entitlement.getPremiumState. cbv zeta.
  set (c1 := setTopic _ _ c).
  set (c2 := autoTag _ _ c1).
  assert (Hsame1 : sameChannel c c1 /\ topic c1 = topic c1)
    by (subst c1; unfold sameChannel;
        now rewrite setTopic_type, setTopic_parent, FrameFacts.setTopic_guild).
  assert (Hsame2 : sameChannel c1 c2 /\ topic c2 = topic c1)
    by (subst c2; apply autoTag_same).
  destruct Hsame1 as [(Ht1 & Hg1 & Hp1) _].
  destruct Hsame2 as [(Ht2 & Hg2 & Hp2) Htopic].
  exists c2. split; [|split].
  - unfold checkedTwice. now rewrite Hg2, Hg1.
  - unfold sameChannel. now rewrite Ht2, Hg2, Hp2, Ht1, Hg1, Hp1.
  - exact Htopic.
Qed.

End Attempt.

(** A claim on a channel that has a claimer: the reply by cases, the
    channel and the world untouched. *)
Lemma claim_on_claimed route m c env w holder :
  Run.claimer (Some c) = Some holder ->
  Run.claim route m (Some c) env w
  = (match route with
     | Run.Button =>
         if negb (isText (Some c)) then InvalidChannel
         else if negb (canManageTicket m (Some c) w) then NotAllowed
         else AlreadyClaimed
     | Run.Slash =>
         if negb (isText (Some c)) || negb (isTicketChannel (Some c) w)
         then NotTicketChannel
         else if negb (canManageTicket m (Some c) w) then NotAllowed
         else AlreadyClaimed
     end, Some c, w).
Proof.
  intros Hc. unfold Run.claimer in Hc.
  destruct (parseTopic_fit (topic c)) as [_ Hfit].
  destruct (Hfit holder Hc) as [_ Hnull].
  assert (E : String.eqb holder "null" = false)
    by (destruct (String.eqb holder "null") eqn:E; [|reflexivity];
        apply String.eqb_eq in E; contradiction).
  destruct route; unfold Run.claim.
  - unfold claimButton.
    destruct (negb (isText (Some c))); [reflexivity|].
    destruct (negb (canManageTicket m (Some c) w)); [reflexivity|].
    now rewrite Hc.
  - unfold claimCommand.
    destruct (negb (isText (Some c)) || negb (isTicketChannel (Some c) w));
      [reflexivity|].
    destruct (negb (canManageTicket m (Some c) w)); [reflexivity|].
    rewrite Hc. cbv zeta. now rewrite E.
Qed.

End ClaimFacts.

(** C4, as the code has it. A ticket has at most one claimer. On a channel
    whose topic records a claimer, every further claim, by button or by
    [/claim] and by any actor, is rejected and leaves the channel and the
    program's variables as they were; the rejection is the already-claimed
    error for an actor who passes the checks that come first (the management
    check, and for [/claim] the ticket-channel check), and the error of the
    failed check otherwise. Of two claims handled one after the other on an
    unclaimed ticket, by actors who may manage it, the platform applying the
    first one's topic, the first succeeds, the second is rejected as already
    claimed, and the topic records the first actor. *)
Theorem claim_is_exclusive :
  (forall (route : Run.Route) (member : Tickets.Member) (c : Tickets.Channel)
          (env : Tickets.Env) (w : World.t) (holder : string),
      Run.claimer (Some c) = Some holder ->
      let '(reply, channel', w') := Run.claim route member (Some c) env w in
      channel' = Some c /\ w' = w
      /\ Tickets.errorOf reply <> None
      /\ (Tickets.canManageTicket member (Some c) w = true ->
          Tickets.isTicketChannel (Some c) w = true ->
          reply = Tickets.AlreadyClaimed))
  /\ (forall (route1 route2 : Run.Route) (a b : Tickets.Member) (c : Tickets.Channel)
             (env1 env2 : Tickets.Env) (w : World.t),
         Run.claimer (Some c) = None ->
         Tickets.isTicketChannel (Some c) w = true ->
         Tickets.canManageTicket a (Some c) w = true ->
         Tickets.canManageTicket b (Some c) w = true ->
         Topic.plainId (Tickets.userId a) = true ->
         Tickets.userId a <> "null" ->
         Tickets.setTopicOk env1 = true ->
         let '(reply1, channel1, w1) := Run.claim route1 a (Some c) env1 w in
         let '(reply2, channel2, w2) := Run.claim route2 b channel1 env2 w1 in
         reply1 = Tickets.Claimed
         /\ reply2 = Tickets.AlreadyClaimed
         /\ Run.claimer channel1 = Some (Tickets.userId a)
         /\ channel2 = channel1 /\ w2 = w1).
Proof.
  split.
  - intros route member c env w holder Hc.
    rewrite (ClaimFacts.claim_on_claimed route member c env w holder Hc).
    cbv beta iota zeta.
    split; [reflexivity|]. split; [reflexivity|].
    destruct (Tickets.canManageTicket member (Some c) w) eqn:Hm.
    + rewrite (ClaimFacts.canManage_text member c w Hm). cbn [negb orb].
      destruct route.
      * split; [discriminate|reflexivity].
      * destruct (Tickets.isTicketChannel (Some c) w); cbn [negb];
          (split; [discriminate|]); intros _ H; [reflexivity|discriminate].
    + cbn [negb].
      destruct route;
        repeat match goal with |- context [if ?b then _ else _] => destruct b end;
        (split; [discriminate|]); intros H; discriminate.
  - intros route1 route2 a b c env1 env2 w Hc Hk Ha Hb Hplain Hnull Hok.
    unfold Run.claimer in Hc.
    destruct (TicketFacts.parseTopic_fit (Tickets.topic c)) as [Hopened _].
    (* the first claim *)
    assert (H1 : exists c1 w1,
               Run.claim route1 a (Some c) env1 w = (Tickets.Claimed, Some c1, w1)
               /\ Tickets.sameChannel c c1
               /\ World.GUILD_CONFIGS w1 = World.GUILD_CONFIGS w
               /\ exists o, Topic.plainId o = true
                    /\ Tickets.topic c1
                       = Some ("opened:" +:+ o +:+ ";claimed:" +:+ Tickets.userId a)).
    { destruct route1; unfold Run.claim.
      - rewrite (ClaimFacts.button_claims a c w Ha _ Hc), Hok.
        eexists _, w. split; [reflexivity|]. split; [repeat split|].
        split; [reflexivity|].
        exists (Topic.show (Topic.opened (Topic.parseTopic (Tickets.topic c)))).
        split; [now apply TicketFacts.show_plain|reflexivity].
      - destruct (ClaimFacts.slash_claims a c w Ha Hk env1 Hc) as (c1 & -> & Hsame & Ht).
        eexists c1, _. split; [reflexivity|]. split; [exact Hsame|].
        split.
        + unfold Tickets.checkedTwice.
          now rewrite !EntitlementFacts.ensure_configs.
        + exists (default "unknown" (Topic.opened (Topic.parseTopic (Tickets.topic c)))).
          split; [now apply TicketFacts.unknown_plain|].
          rewrite Ht, Hok. reflexivity. }
    destruct H1 as (c1 & w1 & -> & Hsame & Hcfg & o & Ho & Htopic).
    assert (Hparse : Topic.parseTopic (Tickets.topic c1)
                     = {| Topic.opened := Some o;
                          Topic.claimed := Some (Tickets.userId a) |})
      by (rewrite Htopic; now apply TopicFacts.parse_written).
    assert (Hb1 : Tickets.canManageTicket b (Some c1) w1 = true)
      by (rewrite (ClaimFacts.canManage_ext b c c1 w w1 Hsame Hcfg); exact Hb).
    assert (Hk1 : Tickets.isTicketChannel (Some c1) w1 = true).
    { apply (ClaimFacts.isTicket_by_topic c1 w1 o).
      - now apply ClaimFacts.canManage_text in Hb1.
      - now rewrite Hparse.
      - now apply ClaimFacts.plain_nonempty. }
    assert (Hc1 : Topic.claimed (Topic.parseTopic (Tickets.topic c1))
                  = Some (Tickets.userId a)) by now rewrite Hparse.
    destruct route2; unfold Run.claim.
    + rewrite (ClaimFacts.button_refuses b c1 w1 Hb1 _ _ Hc1).
      repeat split. exact Hc1.
    + rewrite (ClaimFacts.slash_refuses b c1 w1 Hb1 Hk1 env2 _ Hc1).
      repeat split. exact Hc1.
Qed.

Lemma claim_is_exclusive_witness :
  fst (fst (Run.claim Run.Button Sample.staffB
              (snd (fst (Run.claim Run.Slash Sample.staffA (Some Sample.openTicket)
                           Sample.smooth Sample.legacyWorld)))
              Sample.smooth
              (snd (Run.claim Run.Slash Sample.staffA (Some Sample.openTicket)
                      Sample.smooth Sample.legacyWorld))))
  = Tickets.AlreadyClaimed.
Proof.
  destruct claim_is_exclusive as [_ H].
  specialize (H Run.Slash Run.Button Sample.staffA Sample.staffB Sample.openTicket
                Sample.smooth Sample.smooth Sample.legacyWorld
                eq_refl eq_refl eq_refl eq_refl eq_refl).
  destruct (Run.claim Run.Slash Sample.staffA (Some Sample.openTicket)
              Sample.smooth Sample.legacyWorld) as [[reply1 channel1] w1].
  cbn [fst snd].
  destruct (Run.claim Run.Button Sample.staffB channel1 Sample.smooth w1)
    as [[reply2 channel2] w2].
  cbn [fst snd].
  apply H; [discriminate|reflexivity].
Defined.

(** The button's handler is its checks followed by the platform's answer
    to the topic it asks for. *)
Lemma claimButton_in_two_steps
    (member : Tickets.Member) (channel : option Tickets.Channel) (ok : bool) (w : World.t) :
  Tickets.claimButton member channel ok w
  = (fst (Overlap.asks member channel w),
     Overlap.answered (snd (Overlap.asks member channel w)) ok channel).
Proof.
  unfold Tickets.claimButton, Overlap.asks. destruct channel as [c|]; [|reflexivity].
  destruct (negb (Tickets.isText (Some c))); [reflexivity|].
  destruct (negb (Tickets.canManageTicket member (Some c) w)); [reflexivity|].
  destruct (Topic.claimed _); reflexivity.
Qed.

(** C4 as stated fails in four ways. On a claimed ticket, an actor who may
    not manage it is rejected by both routes with the permission error, not
    the already-claimed one. Of two actors who may not manage an unclaimed
    ticket, neither succeeds. When the platform refuses the first claimer's
    topic, the refusal is swallowed, the first claimer is told the ticket is
    claimed, the topic records nobody, and a second claimer succeeds too.
    And when the second press is handled while the first handler waits for
    the platform, both handlers read the ticket as unclaimed and both
    claimers are told they claimed it. *)
Lemma claim_counterexample :
  (Run.claimer (Some Sample.claimedTicket) = Some "700000000000000007"
   /\ fst (fst (Run.claim Run.Button Sample.outsider (Some Sample.claimedTicket)
                  Sample.smooth Sample.legacyWorld)) = Tickets.NotAllowed
   /\ fst (fst (Run.claim Run.Slash Sample.outsider (Some Sample.claimedTicket)
                  Sample.smooth Sample.legacyWorld)) = Tickets.NotAllowed
   /\ Tickets.errorOf Tickets.NotAllowed <> Some Tickets.EAlreadyClaimed)
  /\ (Run.claimer (Some Sample.openTicket) = None
      /\ Run.claim Run.Button Sample.outsider (Some Sample.openTicket)
           Sample.smooth Sample.legacyWorld
         = (Tickets.NotAllowed, Some Sample.openTicket, Sample.legacyWorld)
      /\ Run.claim Run.Slash Cases.passerby (Some Sample.openTicket)
           Sample.smooth Sample.legacyWorld
         = (Tickets.NotAllowed, Some Sample.openTicket, Sample.legacyWorld))
  /\ (let '(reply1, channel1, w1) :=
        Run.claim Run.Button Sample.staffA (Some Sample.openTicket)
          Cases.refusing Sample.legacyWorld in
      let '(reply2, channel2, w2) :=
        Run.claim Run.Button Sample.staffB channel1 Sample.smooth w1 in
      reply1 = Tickets.Claimed /\ Run.claimer channel1 = None
      /\ reply2 = Tickets.Claimed
      /\ Run.claimer channel2 = Some "710000000000000007")
  /\ (let '(reply1, channel1, w1) :=
        Run.claim Run.Slash Sample.staffA (Some Sample.openTicket)
          Cases.refusing Sample.legacyWorld in
      let '(reply2, channel2, w2) :=
        Run.claim Run.Slash Sample.staffB channel1 Sample.smooth w1 in
      reply1 = Tickets.Claimed /\ Run.claimer channel1 = None
      /\ reply2 = Tickets.Claimed
      /\ Run.claimer channel2 = Some "710000000000000007")
  /\ (let '(replyA, replyB, channel') :=
        Overlap.bothPress Sample.staffA Sample.staffB (Some Sample.openTicket)
          true true Sample.legacyWorld in
      replyA = Tickets.Claimed /\ replyB = Tickets.Claimed
      /\ Run.claimer channel' = Some "710000000000000007").
Proof.
  split; [repeat split; try reflexivity; discriminate|].
  split; [repeat split; vm_compute; reflexivity|].
  split; [vm_compute; repeat split; reflexivity|].
  split; [vm_compute; repeat split; reflexivity|].
  vm_compute. repeat split; reflexivity.
Qed.

Module UnclaimFacts.
Import Str Topic TopicFacts TicketFacts World Tickets ClaimFacts.

(** The name after [/unclaim]'s renaming, spelled out. *)
Lemma autoUntag_name prem ok c :
  name (autoUntag prem ok c)
  = if Premium.isPremium prem && Premium.autoTagClaims (Premium.features prem)
       && startsWith (toLowerCase (name c)) "claimed-" && ok
    then take 90 (orElse (stripClaimed (name c)) "ticket")
    else name c.
Proof.
  unfold autoUntag.
  destruct (Premium.isPremium prem && Premium.autoTagClaims (Premium.features prem));
    [|reflexivity].
  destruct (startsWith (toLowerCase (name c)) "claimed-"); [|reflexivity].
  destruct ok; reflexivity.
Qed.

(** Taking the prefix off a tagged name gives back what it was put on. *)
Lemma stripClaimed_tagged base : stripClaimed ("claimed-" +:+ base) = dropDashes base.
Proof. reflexivity. Qed.

Lemma isTicket_text c w : isTicketChannel (Some c) w = true -> isText (Some c) = true.
Proof. unfold isTicketChannel. destruct (isText (Some c)); [reflexivity|discriminate]. Qed.

Section Unclaim.
Variables (m : Member) (c : Channel) (env : Env) (w : World.t).

Hypothesis Hticket : isTicketChannel (Some c) w = true.

Lemma unclaim_not_allowed :
  canManageTicket m (Some c) w = false ->
  unclaimCommand m (Some c) env w = (NotAllowed, Some c, w).
Proof.
  intros Hm. unfold unclaimCommand.
  rewrite (isTicket_text c w Hticket), Hticket, Hm. reflexivity.
Qed.

Hypothesis Hmanage : canManageTicket m (Some c) w = true.

Lemma unclaim_not_claimed :
  claimed (parseTopic (topic c)) = None ->
  unclaimCommand m (Some c) env w = (NotClaimed, Some c, w).
Proof.
  intros Hc. unfold unclaimCommand.
  rewrite (canManage_text m c w Hmanage), Hticket, Hmanage, Hc. reflexivity.
Qed.

Lemma unclaim_foreign cl :
  claimed (parseTopic (topic c)) = Some cl ->
  cl <> userId m -> isAdmin m w = false ->
  unclaimCommand m (Some c) env w = (ClaimerOrAdminOnly, Some c, w).
Proof.
  intros Hc Hne Ha. unfold unclaimCommand.
  rewrite (canManage_text m c w Hmanage), Hticket, Hmanage, Hc, Ha.
  destruct (String.eqb cl (userId m)) eqn:E; [|reflexivity].
  apply String.eqb_eq in E. contradiction.
Qed.

Lemma unclaim_releases cl :
  claimed (parseTopic (topic c)) = Some cl ->
  cl = userId m \/ isAdmin m w = true ->
  unclaimCommand m (Some c) env w
  = (Unclaimed, Some (released c env w), checkedTwice (guildId c) env w).
Proof.
  intros Hc Hmay. unfold unclaimCommand.
  rewrite (canManage_text m c w Hmanage), Hticket, Hmanage, Hc.
  assert (G : negb (String.eqb cl (userId m)) && negb (isAdmin m w) = false).
  { destruct Hmay as [-> | ->]; [now rewrite String.eqb_refl|apply andb_false_r]. }
  rewrite G. cbn [negb orb]. cbv iota.
  unfold Entitlement.getPremiumState. cbv zeta. unfold released, checkedTwice.
  unfold Entitlement.getPremiumState. cbn [fst snd].
  now rewrite FrameFacts.autoUntag_guild, FrameFacts.setTopic_guild.
Qed.

End Unclaim.

End UnclaimFacts.

(** C5, as the code has it. Unclaim is guarded. On a ticket channel, an
    actor who may not manage the ticket is refused with the permission
    error; for an actor who may: on an unclaimed ticket unclaim fails with
    the not-claimed error, and on a ticket claimed by someone else a
    non-admin is refused with the claimer-or-admin error; in all three cases
    the channel and the program's variables stay as they were. Unclaim
    succeeds only for the current claimer or an admin; it then writes a
    topic without claimer (when the platform applies it) and, for a guild
    that is premium with claim tagging on, takes the [claimed-] prefix off a
    name that starts with it (when the platform applies the new name); for
    any other guild the name stays. *)
Theorem unclaim_is_guarded
    (member : Tickets.Member) (c : Tickets.Channel) (env : Tickets.Env) (w : World.t) :
  Tickets.isTicketChannel (Some c) w = true ->
  let result := Tickets.unclaimCommand member (Some c) env w in
  let mayManage := Tickets.canManageTicket member (Some c) w in
  let holder := Run.claimer (Some c) in
  let prem :=
    fst (Entitlement.getPremiumState (Tickets.guildId c)
           (Tickets.now1 env) (Tickets.write1 env) w) in
  (mayManage = false -> result = (Tickets.NotAllowed, Some c, w))
  /\ (mayManage = true -> holder = None -> result = (Tickets.NotClaimed, Some c, w))
  /\ (mayManage = true ->
      forall cl : string,
        holder = Some cl -> cl <> Tickets.userId member ->
        Tickets.isAdmin member w = false ->
        result = (Tickets.ClaimerOrAdminOnly, Some c, w))
  /\ (fst (fst result) = Tickets.Unclaimed ->
      mayManage = true
      /\ (exists cl : string,
             holder = Some cl
             /\ (cl = Tickets.userId member \/ Tickets.isAdmin member w = true))
      /\ snd (fst result) = Some (Tickets.released c env w))
  /\ (Tickets.setTopicOk env = true ->
      Run.claimer (Some (Tickets.released c env w)) = None)
  /\ Tickets.name (Tickets.released c env w)
     = (if Premium.isPremium prem && Premium.autoTagClaims (Premium.features prem)
           && Str.startsWith (Str.toLowerCase (Tickets.name c)) "claimed-"
           && Tickets.setNameOk env
        then Str.take 90 (Tickets.orElse (Tickets.stripClaimed (Tickets.name c)) "ticket")
        else Tickets.name c).
Proof.
  intros Hticket result mayManage holder prem.
  split; [|split; [|split; [|split; [|split]]]].
  - intros Hm. now apply UnclaimFacts.unclaim_not_allowed.
  - intros Hm Hc. now apply UnclaimFacts.unclaim_not_claimed.
  - intros Hm cl Hc Hne Ha. now apply (UnclaimFacts.unclaim_foreign member c env w Hticket Hm cl).
  - intros Hreply. subst result.
    destruct mayManage eqn:Hm; subst mayManage.
    + destruct holder as [cl|] eqn:Hc; subst holder.
      * destruct (String.eqb cl (Tickets.userId member)) eqn:E.
        -- apply String.eqb_eq in E.
           rewrite (UnclaimFacts.unclaim_releases member c env w Hticket Hm cl Hc (or_introl E)).
           split; [reflexivity|]. split; [|reflexivity].
           exists cl. split; [reflexivity|now left].
        -- destruct (Tickets.isAdmin member w) eqn:Ha.
           ++ rewrite (UnclaimFacts.unclaim_releases member c env w Hticket Hm cl Hc
                         (or_intror Ha)).
              split; [reflexivity|]. split; [|reflexivity].
              exists cl. split; [reflexivity|now right].
           ++ apply String.eqb_neq in E.
              rewrite (UnclaimFacts.unclaim_foreign member c env w Hticket Hm cl Hc E Ha)
                in Hreply.
              discriminate.
      * rewrite (UnclaimFacts.unclaim_not_claimed member c env w Hticket Hm Hc) in Hreply.
        discriminate.
    + rewrite (UnclaimFacts.unclaim_not_allowed member c env w Hticket Hm) in Hreply.
      discriminate.
  - intros Hok. unfold Run.claimer, Tickets.released.
    destruct (ClaimFacts.autoUntag_same prem (Tickets.setNameOk env)
                (Tickets.setTopic
                   ("opened:"
                    +:+ default "unknown"
                          (Topic.opened (Topic.parseTopic (Tickets.topic c)))
                    +:+ ";claimed:null") (Tickets.setTopicOk env) c)) as [_ Ht].
    fold prem. rewrite Ht, Hok, ClaimFacts.setTopic_topic.
    rewrite TopicFacts.parse_written_null; [reflexivity|].
    apply TicketFacts.unknown_plain.
    now destruct (TicketFacts.parseTopic_fit (Tickets.topic c)) as [Ho _].
  - unfold Tickets.released. fold prem.
    now rewrite UnclaimFacts.autoUntag_name, !ClaimFacts.setTopic_name.
Qed.

Lemma unclaim_is_guarded_witness :
  Tickets.unclaimCommand Sample.staffB (Some Sample.claimedTicket)
    Sample.smooth Sample.legacyWorld
  = (Tickets.ClaimerOrAdminOnly, Some Sample.claimedTicket, Sample.legacyWorld).
Proof.
  destruct (unclaim_is_guarded Sample.staffB Sample.claimedTicket Sample.smooth
              Sample.legacyWorld eq_refl) as (_ & _ & H & _).
  apply (H eq_refl "700000000000000007" eq_refl); [discriminate|reflexivity].
Defined.

(** C5 as stated fails twice. On an unclaimed ticket an actor who may not
    manage it gets the permission error, not the not-claimed one. And when
    the guild is not premium the claimer's unclaim succeeds and leaves the
    [claimed-] prefix on the name. *)
Lemma unclaim_counterexample :
  (Run.claimer (Some Sample.openTicket) = None
   /\ fst (fst (Tickets.unclaimCommand Sample.outsider (Some Sample.openTicket)
                  Sample.smooth Sample.legacyWorld)) = Tickets.NotAllowed
   /\ Tickets.errorOf Tickets.NotAllowed <> Some Tickets.ENotClaimed)
  /\ (fst (fst (Tickets.unclaimCommand Sample.staffA (Some Sample.claimedTicket)
                  Sample.smooth Sample.legacyWorld)) = Tickets.Unclaimed
      /\ Tickets.name <$> snd (fst (Tickets.unclaimCommand Sample.staffA
                                      (Some Sample.claimedTicket)
                                      Sample.smooth Sample.legacyWorld))
         = Some "claimed-ticket-bob").
Proof. repeat split; try reflexivity. discriminate. Qed.

(** ** Ratings *)

Module DoubleFacts.

Lemma hundredths (n : Z) : Qeq (Qmake n 100) (Qmult (inject_Z n) (Qmake 1 100)).
Proof. unfold Qeq, inject_Z, Qmult. simpl. lia. Qed.

(** [toFixed(2)] moves a number by at most half a hundredth. *)
Lemma toFixed2_near (x : Q) :
  Qlt (Qabs x) (inject_Z (10 ^ 21)) ->
  Qle (Qabs (Qminus (Double.toFixed2 x) x)) (Qmake 1 200).
Proof.
  intros Hsmall. unfold Double.toFixed2.
  destruct (Qle_bool (inject_Z (10 ^ 21)) (Qabs x)) eqn:E.
  - apply Qle_bool_iff in E. lra.
  - clear E Hsmall. set (a := Qabs x).
    set (n := Qfloor (Qplus (Qmult a (inject_Z 100)) (Qmake 1 2))).
    assert (Hlo : Qle (inject_Z n) (Qplus (Qmult a (inject_Z 100)) (Qmake 1 2)))
      by apply Qfloor_le.
    assert (Hhi : Qlt (Qplus (Qmult a (inject_Z 100)) (Qmake 1 2)) (inject_Z (n + 1)))
      by apply Qlt_floor.
    rewrite inject_Z_plus in Hhi.
    change (inject_Z 100) with (Qmake 100 1) in *.
    change (inject_Z 1) with (Qmake 1 1) in *.
    destruct (Qle_bool (inject_Z 0) x) eqn:S.
    + apply Qle_bool_iff in S. change (inject_Z 0) with (Qmake 0 1) in S.
      assert (Ha : Qeq a x) by (subst a; apply Qabs_pos; exact S).
      rewrite hundredths. apply Qabs_Qle_condition.
      set (z := inject_Z n) in *. clearbody z a. split; lra.
    + assert (S' : Qlt x (Qmake 0 1)).
      { destruct (Qlt_le_dec x (Qmake 0 1)) as [H|H]; [exact H|].
        apply Qle_bool_iff in H. change (inject_Z 0) with (Qmake 0 1) in S.
        congruence. }
      assert (Ha : Qeq a (Qopp x)) by (subst a; apply Qabs_neg; lra).
      rewrite hundredths, inject_Z_opp. apply Qabs_Qle_condition.
      set (z := inject_Z n) in *. clearbody z a. split; lra.
Qed.

(** The stored average lies within half a hundredth of the quotient the
    program computes, the double nearest to the mean. *)
Lemma mean2_near (sum cnt : Z) (q : Q) :
  Double.divZ sum cnt = Double.Finite q ->
  Qlt (Qabs q) (inject_Z (10 ^ 21)) ->
  exists r : Q,
    Rating.mean2 sum cnt = Double.Finite r
    /\ Qle (Qabs (Qminus r q)) (Qmake 1 200).
Proof.
  intros Hq Hsmall. unfold Rating.mean2. rewrite Hq.
  eexists. split; [reflexivity|]. now apply toFixed2_near.
Qed.

End DoubleFacts.

Module RatingFacts.
Import Str StrFacts World Ratings.

(** The score of a button, from 1 to 5, as the id carries it. *)
Lemma stars s :
  1 <= s <= 5 ->
  noneOf ":" (pretty s) = true
  /\ Rating.parseInt (Some (pretty s)) = Some s
  /\ (s =? 0) = false.
Proof.
  intros H.
  assert (E : s = 1 \/ s = 2 \/ s = 3 \/ s = 4 \/ s = 5) by lia.
  destruct E as [-> | [-> | [-> | [-> | ->]]]]; repeat split; vm_compute; reflexivity.
Qed.

Lemma parts_trade t s sc :
  noneOf ":" t = true -> noneOf ":" s = true -> noneOf ":" sc = true ->
  split ":" ("rate:trade:" +:+ t +:+ ":" +:+ s +:+ ":" +:+ sc)
  = ["rate"; "trade"; t; s; sc].
Proof.
  intros Ht Hs Hc.
  change ("rate:trade:" +:+ t +:+ ":" +:+ s +:+ ":" +:+ sc)
    with ("rate" +:+ String ":" ("trade" +:+ String ":"
            (t +:+ String ":" (s +:+ String ":" sc)))).
  rewrite !split_prefix by first [reflexivity | assumption].
  now rewrite split_none.
Qed.

Lemma parts_service t sc :
  noneOf ":" t = true -> noneOf ":" sc = true ->
  split ":" ("rate:service:" +:+ t +:+ ":" +:+ sc) = ["rate"; "service"; t; sc].
Proof.
  intros Ht Hc.
  change ("rate:service:" +:+ t +:+ ":" +:+ sc)
    with ("rate" +:+ String ":" ("service" +:+ String ":" (t +:+ String ":" sc))).
  rewrite !split_prefix by first [reflexivity | assumption].
  now rewrite split_none.
Qed.

(** The handler on a button of the program, by cases on the mark. *)
Lemma rate_button kind ticketName staffId rater s env w :
  fitsId ticketName -> fitsId staffId -> 1 <= s <= 5 ->
  rate {| customId := buttonId kind ticketName staffId s; userId := rater |} env w
  = if rated (dedupKey kind ticketName rater) w then (AlreadyRated, w)
    else (Thanks s,
          record kind staffId s (dedupKey kind ticketName rater) env w).
Proof.
  intros [Ht0 Ht] [Hs0 Hs] Hscore.
  destruct (stars s Hscore) as (Hc & Hparse & Hnz).
  unfold rate. cbn [customId userId].
  destruct kind; unfold buttonId, dedupKey, record.
  - replace (startsWith _ "rate:") with true by reflexivity. cbn [negb].
    rewrite parts_trade by assumption. cbn [nth_error default].
    replace (String.eqb "trade" "trade") with true by reflexivity. cbn [orb].
    rewrite Hparse, (isEmpty_false _ Ht0), (isEmpty_false _ Hs0), Hnz. cbn [orb].
    reflexivity.
  - replace (startsWith _ "rate:") with true by reflexivity. cbn [negb].
    rewrite parts_service by assumption. cbn [nth_error default].
    replace (String.eqb "service" "trade" || String.eqb "service" "mm") with false
      by reflexivity.
    replace (String.eqb "service" "service") with true by reflexivity.
    rewrite Hparse, (isEmpty_false _ Ht0), Hnz. cbn [orb].
    reflexivity.
Qed.

(** A user id fits a button id. *)
Lemma snowflake_fits s : Topic.isValidSnowflake s = true -> fitsId s.
Proof.
  intros H. apply TopicFacts.snowflake_plain in H as [H _].
  unfold Topic.plainId in H.
  apply andb_prop in H as [H _]. apply andb_prop in H as [H0 H1].
  split; [|exact H1]. intros ->. discriminate.
Qed.

Lemma record_rated kind staffId s key env w :
  rated key (record kind staffId s key env w) = true.
Proof.
  unfold record, markRated, rated.
  rewrite EntitlementFacts.write_rated. simpl. now rewrite lookup_insert_eq.
Qed.

Lemma record_bucket kind staffId s key env w :
  bucket kind staffId (REVIEWS (record kind staffId s key env w))
  = Some (Rating.pushed (default Rating.fresh (bucket kind staffId (REVIEWS w))) s).
Proof.
  unfold record, markRated. rewrite EntitlementFacts.write_reviews. simpl.
  destruct kind; unfold addReviewForStaff, addReviewForService, bucket;
    rewrite EntitlementFacts.write_reviews; simpl; apply lookup_insert_eq.
Qed.

(** The key, cut at its underscores: the parts of the ticket name, then
    the rater and the kind's suffix. *)
Lemma dedupKey_parts kind t r :
  noneOf "_" r = true ->
  split "_" (dedupKey kind t r)
  = (split "_" t ++ [r; match kind with Trade => "mm" | Service => "service" end])%list.
Proof.
  intros Hr. destruct kind; unfold dedupKey.
  - change (t +:+ "_" +:+ r +:+ "_mm") with (t +:+ String "_" (r +:+ String "_" "mm")).
    now rewrite split_app, split_prefix by assumption.
  - change (t +:+ "_" +:+ r +:+ "_service")
      with (t +:+ String "_" (r +:+ String "_" "service")).
    now rewrite split_app, split_prefix by assumption.
Qed.

(** Raters are user ids, which hold no underscore: two keys are the same
    only for the same ticket, rater and kind. *)
Lemma dedupKey_inj kind kind' t t' r r' :
  noneOf "_" r = true -> noneOf "_" r' = true ->
  dedupKey kind t r = dedupKey kind' t' r' ->
  kind = kind' /\ t = t' /\ r = r'.
Proof.
  intros Hr Hr' E. apply (f_equal (split "_")) in E.
  rewrite !dedupKey_parts in E by assumption.
  change (?l ++ [?a; ?b])%list with (l ++ [a] ++ [b])%list in E.
  rewrite !List.app_assoc in E.
  apply app_inj_tail in E as [E Ek]. apply app_inj_tail in E as [Et Er].
  split; [|split; [now apply (split_inj "_")|assumption]].
  destruct kind, kind'; first [reflexivity | discriminate].
Qed.

Lemma record_other kind staffId s key key' env w :
  key <> key' ->
  rated key (record kind staffId s key' env w) = rated key w.
Proof.
  intros Hne. unfold record, markRated, rated.
  rewrite EntitlementFacts.write_rated. simpl.
  rewrite lookup_insert_ne by congruence.
  destruct kind; unfold addReviewForStaff, addReviewForService;
    now rewrite EntitlementFacts.write_rated.
Qed.

(** A rating of another ticket, by another rater or of the other kind
    leaves the mark of this one as it is. *)
Lemma rate_other kind kind' t t' staffId r r' s env w :
  fitsId t' -> fitsId staffId -> 1 <= s <= 5 ->
  noneOf "_" r = true -> noneOf "_" r' = true ->
  (kind, t, r) <> (kind', t', r') ->
  rated (dedupKey kind t r)
    (snd (rate {| customId := buttonId kind' t' staffId s; userId := r' |} env w))
  = rated (dedupKey kind t r) w.
Proof.
  intros Ht Hs Hscore Hr Hr' Hne.
  rewrite rate_button by assumption.
  destruct (rated (dedupKey kind' t' r') w); [reflexivity|]. cbn [snd].
  apply record_other. intros E.
  apply dedupKey_inj in E as (-> & -> & ->); [|assumption..]. now apply Hne.
Qed.

End RatingFacts.

(** The [rate:] block by itself deduplicates per ticket, rater and kind. Run
    on a button of the program (a ticket name without colon, the user id of
    the staff member, a score from 1 to 5) pressed by a rater whose key is
    not yet marked, it thanks the rater, appends the score to the bucket of
    the ledger, recomputes the count and the average and marks the key; run
    again on the same press it answers already rated and changes nothing. *)
Lemma rate_block_deduplicates
    (kind : Ratings.Kind) (ticketName staffId rater : string) (score : Z)
    (env env' : Ratings.Env) (w : World.t) :
  Ratings.fitsId ticketName ->
  Topic.isValidSnowflake staffId = true ->
  1 <= score <= 5 ->
  let press := {| Ratings.customId := Ratings.buttonId kind ticketName staffId score;
                  Ratings.userId := rater |} in
  let key := Ratings.dedupKey kind ticketName rater in
  Ratings.rated key w = false ->
  let w1 := snd (Ratings.rate press env w) in
  let before := default Rating.fresh (Ratings.bucket kind staffId (World.REVIEWS w)) in
  fst (Ratings.rate press env w) = Ratings.Thanks score
  /\ (exists e : Rating.Entry,
         Ratings.bucket kind staffId (World.REVIEWS w1) = Some e
         /\ Rating.reviews e = (Rating.reviews before ++ [score])%list
         /\ Rating.count e = Z.of_nat (length (Rating.reviews e))
         /\ Rating.avg e
            = Rating.mean2 (fold_left Z.add (Rating.reviews e) 0) (Rating.count e))
  /\ Ratings.rated key w1 = true
  /\ Ratings.rate press env' w1 = (Ratings.AlreadyRated, w1).
Proof.
  intros Ht Hs Hscore press key Hfresh w1 before.
  apply RatingFacts.snowflake_fits in Hs.
  assert (H1 : Ratings.rate press env w
               = (Ratings.Thanks score,
                  Ratings.record kind staffId score key env w)).
  { subst press key. rewrite RatingFacts.rate_button by assumption.
    now rewrite Hfresh. }
  assert (Hmark : Ratings.rated key w1 = true)
    by (subst w1; rewrite H1; apply RatingFacts.record_rated).
  split; [now rewrite H1|]. split; [|split; [exact Hmark|]].
  - eexists. subst w1. rewrite H1. cbn [snd].
    split; [apply RatingFacts.record_bucket|]. repeat split.
  - subst press key. rewrite RatingFacts.rate_button by assumption.
    now rewrite Hmark.
Qed.

Module ListenerFacts.
Import Str Listener.

Lemma starts_r (s : string) :
  startsWith s "rate:" = true -> exists rest : string, s = String "r" rest.
Proof.
  unfold startsWith. destruct s as [|c rest]; cbn [String.prefix]; [discriminate|].
  destruct (ascii_dec "r" c) as [<-|]; [eauto|discriminate].
Qed.

(** No block before line 3841 takes an id that starts with [rate:]. *)
Lemma rate_ids_throw (i : Ratings.Interaction) (w : World.t) :
  startsWith (Ratings.customId i) "rate:" = true -> button i w = Thrown w.
Proof.
  intros H. apply starts_r in H as (rest & H).
  unfold button. rewrite H. reflexivity.
Qed.

Lemma buttonId_starts kind ticketName staffId score :
  startsWith (Ratings.buttonId kind ticketName staffId score) "rate:" = true.
Proof. destruct kind; reflexivity. Qed.

End ListenerFacts.

(** C9, at the code. A press of a rating button is never recorded. For a
    button of the program (ticket name without colon, user id of the staff
    member, score from 1 to 5) pressed by a rater whose key is not marked,
    the listener enters none of its blocks and throws at line 3841, with
    every variable of the program as it was: the score is not in the ledger
    and the key is not marked, so the same press made again is treated the
    same way. The [rate:] block that stands below, had it been run, would
    have thanked the rater, put the score into the bucket and marked the
    key. *)
Theorem rating_press_is_never_recorded
    (kind : Ratings.Kind) (ticketName staffId rater : string) (score : Z)
    (env : Ratings.Env) (w : World.t) :
  Ratings.fitsId ticketName ->
  Topic.isValidSnowflake staffId = true ->
  1 <= score <= 5 ->
  let press := {| Ratings.customId := Ratings.buttonId kind ticketName staffId score;
                  Ratings.userId := rater |} in
  let key := Ratings.dedupKey kind ticketName rater in
  Ratings.rated key w = false ->
  Listener.button press w = Listener.Thrown w
  /\ (forall w' : World.t,
        Listener.button press w = Listener.Thrown w' ->
        Ratings.bucket kind staffId (World.REVIEWS w')
        = Ratings.bucket kind staffId (World.REVIEWS w)
        /\ Ratings.rated key w' = false
        /\ Listener.button press w' = Listener.Thrown w')
  /\ fst (Ratings.rate press env w) = Ratings.Thanks score
  /\ Ratings.bucket kind staffId (World.REVIEWS (snd (Ratings.rate press env w)))
     <> Ratings.bucket kind staffId (World.REVIEWS w)
  /\ Ratings.rated key (snd (Ratings.rate press env w)) = true.
Proof.
  intros Ht Hs Hscore press key Hfresh. subst key.
  assert (Hthrow : forall w0, Listener.button press w0 = Listener.Thrown w0)
    by (intros w0; apply ListenerFacts.rate_ids_throw, ListenerFacts.buttonId_starts).
  destruct (rate_block_deduplicates kind ticketName staffId rater score env env w
              Ht Hs Hscore Hfresh) as (Hreply & (e & He & Hr & _) & Hmark & _).
  split; [apply Hthrow|]. split; [|split; [exact Hreply|split; [|exact Hmark]]].
  - intros w' Hw'. rewrite Hthrow in Hw'. injection Hw' as <-.
    split; [reflexivity|]. split; [exact Hfresh|apply Hthrow].
  - subst press. rewrite He. intros E.
    assert (Hlen : length (Rating.reviews e)
                   = length (Rating.reviews
                               (default Rating.fresh
                                  (Ratings.bucket kind staffId (World.REVIEWS w)))))
      by (destruct (Ratings.bucket kind staffId (World.REVIEWS w));
          [injection E as ->; reflexivity|discriminate]).
    rewrite Hr, length_app in Hlen. cbn [length] in Hlen. lia.
Qed.

Lemma rating_press_is_never_recorded_witness :
  Listener.button (Sample.press Ratings.Trade 4) Sample.legacyWorld
  = Listener.Thrown Sample.legacyWorld
  /\ fst (Ratings.rate (Sample.press Ratings.Trade 4) Sample.bothWritten Sample.legacyWorld)
     = Ratings.Thanks 4.
Proof.
  destruct (rating_press_is_never_recorded Ratings.Trade "ticket-bob"
              "700000000000000007" "600000000000000006" 4 Sample.bothWritten
              Sample.legacyWorld) as (H1 & _ & H2 & _).
  - split; [discriminate|reflexivity].
  - reflexivity.
  - lia.
  - reflexivity.
  - split; [exact H1|exact H2].
Defined.

(** The average is the mean of the scores as a double, rounded to two
    decimals the way [toFixed] does: 5, 4, 4 give 4.33, and 199 ones with a
    two give 1.00, the double nearest to 201/200 lying just below 1.005. *)
Example average_examples :
  Rating.avg (Rating.pushed (Rating.pushed (Rating.pushed Rating.fresh 5) 4) 4)
  = Double.Finite (Qmake 433 100)
  /\ Rating.avg (Rating.pushed Sample.manyOnes 2) = Double.Finite (Qmake 100 100).
Proof. split; vm_compute; reflexivity. Qed.

(** * Further properties of the program *)

(** ** Channel names, colours, minutes and HTML *)

Module TextFacts.
Import Str StrFacts Text.

Lemma take_0 s : take 0 s = "".
Proof. now destruct s. Qed.

Lemma take_S n c s : take (S n) (String c s) = String c (take n s).
Proof. reflexivity. Qed.

Lemma take_nil n : take n "" = "".
Proof. now destruct n. Qed.

Lemma take_length n s : (String.length (take n s) <= n)%nat.
Proof.
  revert s. induction n as [|n IH]; intros s.
  - rewrite take_0. simpl. lia.
  - destruct s as [|c s]; [simpl; lia|]. rewrite take_S. simpl.
    specialize (IH s). lia.
Qed.

Lemma take_all n s : (String.length s <= n)%nat -> take n s = s.
Proof.
  revert s. induction n as [|n IH]; intros s H.
  - destruct s; [reflexivity|simpl in H; lia].
  - destruct s as [|c s]; [reflexivity|]. rewrite take_S, IH; [reflexivity|].
    simpl in H. lia.
Qed.

Lemma take_forallb p n s : forallb p s = true -> forallb p (take n s) = true.
Proof.
  revert s. induction n as [|n IH]; intros s H.
  - now rewrite take_0.
  - destruct s as [|c s]; [reflexivity|]. rewrite take_S. simpl in *.
    apply andb_prop in H as [Hc Hs]. now rewrite Hc, IH.
Qed.

Lemma take_startsDash n s : startsDash (take n s) = true -> startsDash s = true.
Proof.
  destruct n; [now rewrite take_0|]. destruct s as [|c s]; [discriminate|].
  now rewrite take_S.
Qed.

Lemma take_singleDashes n s : singleDashes s = true -> singleDashes (take n s) = true.
Proof.
  revert s. induction n as [|n IH]; intros s H.
  - now rewrite take_0.
  - destruct s as [|c s]; [reflexivity|]. rewrite take_S. simpl in *.
    apply andb_prop in H as [Hc Hs]. rewrite (IH s Hs), andb_true_r.
    destruct (Ascii.eqb c "-"); [|reflexivity]. simpl in *.
    destruct (startsDash (take n s)) eqn:E; [|reflexivity].
    apply take_startsDash in E. now rewrite E in Hc.
Qed.

Lemma dashOthers_chars s : forallb isNameChar (dashOthers s) = true.
Proof.
  unfold dashOthers. induction s as [|c s IH]; [reflexivity|].
  cbn [map forallb]. rewrite IH, andb_true_r.
  destruct (isNameChar c) eqn:E; [exact E|reflexivity].
Qed.

Lemma squeeze_forallb p s : forallb p s = true -> forallb p (squeeze s) = true.
Proof.
  induction s as [|c s IH]; [reflexivity|]. simpl. intros H.
  apply andb_prop in H as [Hc Hs].
  destruct (Ascii.eqb c "-" && startsDash s); [now apply IH|].
  simpl. now rewrite Hc, IH.
Qed.

Lemma squeeze_startsDash s : startsDash (squeeze s) = startsDash s.
Proof.
  induction s as [|c s IH]; [reflexivity|]. simpl.
  destruct (Ascii.eqb c "-") eqn:Ec; simpl; [|now rewrite Ec].
  destruct (startsDash s) eqn:Es; simpl; [now rewrite IH|exact Ec].
Qed.

Lemma squeeze_single s : singleDashes (squeeze s) = true.
Proof.
  induction s as [|c s IH]; [reflexivity|]. simpl.
  destruct (Ascii.eqb c "-" && startsDash s) eqn:E; [exact IH|].
  simpl. now rewrite squeeze_startsDash, E, IH.
Qed.

Lemma dropFirst_forallb p s : forallb p s = true -> forallb p (dropFirstDash s) = true.
Proof.
  destruct s as [|c s]; [reflexivity|]. intros H. unfold dropFirstDash.
  destruct (Ascii.eqb c "-"); [|exact H].
  cbn [forallb] in H. now apply andb_prop in H as [_ H].
Qed.

Lemma dropFirst_single s : singleDashes s = true -> singleDashes (dropFirstDash s) = true.
Proof.
  destruct s as [|c s]; [reflexivity|]. intros H. unfold dropFirstDash.
  destruct (Ascii.eqb c "-"); [|exact H].
  cbn [singleDashes] in H. now apply andb_prop in H as [_ H].
Qed.

Lemma dropFirst_noDash s :
  singleDashes s = true -> startsDash (dropFirstDash s) = false.
Proof.
  destruct s as [|c s]; [reflexivity|]. intros H. unfold dropFirstDash.
  destruct (Ascii.eqb c "-") eqn:E; [|simpl; exact E].
  cbn [singleDashes] in H. rewrite E in H. simpl in H.
  apply andb_prop in H as [H _]. now apply negb_true_iff in H.
Qed.

Lemma dropLast_forallb p s : forallb p s = true -> forallb p (dropLastDash s) = true.
Proof.
  induction s as [|c s IH]; [reflexivity|]. simpl. intros H.
  apply andb_prop in H as [Hc Hs].
  destruct (Ascii.eqb c "-" && isEmpty s); [reflexivity|]. simpl. now rewrite Hc, IH.
Qed.

Lemma dropLast_startsDash s : startsDash (dropLastDash s) = true -> startsDash s = true.
Proof.
  destruct s as [|c s]; [discriminate|]. simpl.
  destruct (Ascii.eqb c "-" && isEmpty s); [discriminate|]. intros H. exact H.
Qed.

Lemma dropLast_single s : singleDashes s = true -> singleDashes (dropLastDash s) = true.
Proof.
  induction s as [|c s IH]; [reflexivity|]. simpl. intros H.
  apply andb_prop in H as [Hc Hs].
  destruct (Ascii.eqb c "-" && isEmpty s) eqn:E; [reflexivity|]. simpl.
  rewrite (IH Hs), andb_true_r.
  destruct (Ascii.eqb c "-"); [|reflexivity]. simpl in *.
  destruct (startsDash (dropLastDash s)) eqn:Ed; [|reflexivity].
  apply dropLast_startsDash in Ed. now rewrite Ed in Hc.
Qed.

End TextFacts.

(** X1. The name [sanitizeChannelName] gives a new ticket channel is never
    empty, has at most 90 characters, all of them lower-case letters, digits
    or dashes, does not start with a dash and has no two dashes in a row,
    whatever the template and the user name put into it. *)
Theorem sanitized_name_is_wellformed (name : string) :
  let s := Text.sanitizeChannelName name in
  s <> ""
  /\ (String.length s <= 90)%nat
  /\ Str.forallb Text.isNameChar s = true
  /\ Text.startsDash s = false
  /\ Text.singleDashes s = true.
Proof.
  unfold Text.sanitizeChannelName.
  set (t := Text.dropLastDash
              (Text.dropFirstDash (Text.squeeze (Text.dashOthers (Str.toLowerCase name))))).
  assert (Hc : Str.forallb Text.isNameChar t = true)
    by (apply TextFacts.dropLast_forallb, TextFacts.dropFirst_forallb,
          TextFacts.squeeze_forallb, TextFacts.dashOthers_chars).
  assert (Hs : Text.singleDashes t = true)
    by (apply TextFacts.dropLast_single, TextFacts.dropFirst_single,
          TextFacts.squeeze_single).
  assert (Hd : Text.startsDash t = false).
  { destruct (Text.startsDash t) eqn:E; [|reflexivity].
    apply TextFacts.dropLast_startsDash in E.
    now rewrite TextFacts.dropFirst_noDash in E by apply TextFacts.squeeze_single. }
  cbv zeta. destruct (Str.isEmpty (Str.take 90 t)) eqn:E.
  - repeat split; try reflexivity; [discriminate|simpl; lia].
  - split; [intros H; now rewrite H in E|].
    split; [apply TextFacts.take_length|].
    split; [now apply TextFacts.take_forallb|].
    split; [|now apply TextFacts.take_singleDashes].
    destruct (Text.startsDash (Str.take 90 t)) eqn:Et; [|reflexivity].
    apply TextFacts.take_startsDash in Et. congruence.
Qed.

Module HtmlFacts.
Import Str StrFacts Text.

Lemma replaceAll_self c by_ s :
  noneOf c by_ = true -> noneOf c (replaceAll c by_ s) = true.
Proof.
  intros Hby. induction s as [|x s IH]; [reflexivity|]. cbn [replaceAll].
  destruct (Ascii.eqb x c) eqn:E.
  - now rewrite noneOf_app, Hby, IH.
  - unfold noneOf in *. cbn [forallb]. now rewrite E, IH.
Qed.

Lemma replaceAll_other d c by_ s :
  noneOf d by_ = true -> noneOf d s = true -> noneOf d (replaceAll c by_ s) = true.
Proof.
  intros Hby. induction s as [|x s IH]; [reflexivity|]. cbn [replaceAll].
  unfold noneOf at 1. cbn [forallb]. intros H. apply andb_prop in H as [Hx Hs].
  destruct (Ascii.eqb x c).
  - rewrite noneOf_app, Hby. now apply IH.
  - unfold noneOf in *. cbn [forallb]. rewrite Hx. now apply IH.
Qed.

Lemma replaceAll_absent c by_ s : noneOf c s = true -> replaceAll c by_ s = s.
Proof.
  induction s as [|x s IH]; [reflexivity|]. unfold noneOf. cbn [forallb replaceAll].
  intros H. apply andb_prop in H as [Hx Hs]. apply negb_true_iff in Hx.
  rewrite Hx. f_equal. now apply IH.
Qed.

Lemma plain_noneOf c s :
  isMarkup c = true -> forallb (fun x => negb (isMarkup x)) s = true -> noneOf c s = true.
Proof.
  intros Hc. induction s as [|x s IH]; [reflexivity|]. cbn [forallb].
  intros H. apply andb_prop in H as [Hx Hs]. specialize (IH Hs).
  unfold noneOf in *. cbn [forallb]. rewrite IH, andb_true_r.
  destruct (Ascii.eqb x c) eqn:E; [|reflexivity].
  apply Ascii.eqb_eq in E. subst x. now rewrite Hc in Hx.
Qed.

End HtmlFacts.

(** X2. What [escapeHtml] returns holds no [<], no [>], no double quotation
    mark and no apostrophe, whatever it is given, so a value put into a page
    or into an attribute of the dashboard cannot close the tag or the
    attribute it is in; and a text without any of the five characters it
    replaces comes back unchanged. *)
Theorem escapeHtml_leaves_no_markup (s : option string) :
  Str.noneOf "<" (Text.escapeHtml s) = true
  /\ Str.noneOf ">" (Text.escapeHtml s) = true
  /\ Str.noneOf Text.dquote (Text.escapeHtml s) = true
  /\ Str.noneOf "'" (Text.escapeHtml s) = true
  /\ (forall t : string,
        s = Some t -> Str.forallb (fun x => negb (Text.isMarkup x)) t = true ->
        Text.escapeHtml s = t).
Proof.
  unfold Text.escapeHtml.
  set (a := Text.replaceAll "&" "&amp;" (default "" s)).
  set (b := Text.replaceAll "<" "&lt;" a).
  set (c := Text.replaceAll ">" "&gt;" b).
  set (d := Text.replaceAll Text.dquote "&quot;" c).
  assert (Hb : Str.noneOf "<" b = true) by now apply HtmlFacts.replaceAll_self.
  assert (Hc1 : Str.noneOf "<" c = true) by now apply HtmlFacts.replaceAll_other.
  assert (Hc2 : Str.noneOf ">" c = true) by now apply HtmlFacts.replaceAll_self.
  assert (Hd1 : Str.noneOf "<" d = true) by now apply HtmlFacts.replaceAll_other.
  assert (Hd2 : Str.noneOf ">" d = true) by now apply HtmlFacts.replaceAll_other.
  assert (Hd3 : Str.noneOf Text.dquote d = true) by now apply HtmlFacts.replaceAll_self.
  split; [now apply HtmlFacts.replaceAll_other|].
  split; [now apply HtmlFacts.replaceAll_other|].
  split; [now apply HtmlFacts.replaceAll_other|].
  split; [now apply HtmlFacts.replaceAll_self|].
  intros t -> Ht. subst d c b a. cbn [default].
  rewrite (HtmlFacts.replaceAll_absent "&") by now apply HtmlFacts.plain_noneOf.
  rewrite (HtmlFacts.replaceAll_absent "<") by now apply HtmlFacts.plain_noneOf.
  rewrite (HtmlFacts.replaceAll_absent ">") by now apply HtmlFacts.plain_noneOf.
  rewrite (HtmlFacts.replaceAll_absent Text.dquote) by now apply HtmlFacts.plain_noneOf.
  now rewrite (HtmlFacts.replaceAll_absent "'") by now apply HtmlFacts.plain_noneOf.
Qed.

Lemma escapeHtml_leaves_no_markup_witness :
  Text.escapeHtml (Some "ticket-bob") = "ticket-bob".
Proof.
  destruct (escapeHtml_leaves_no_markup (Some "ticket-bob")) as (_ & _ & _ & _ & H).
  apply H; reflexivity.
Defined.

(** ** Premium settings *)

Module SettingsFacts.
Import Str StrFacts World Entitlement EntitlementFacts Text Settings.

(** The expiry check changes nothing but the flag. *)
Lemma ensure_rest g now wr w g' :
  rest (stored g' (ensurePremiumActiveOrExpire g now wr w)) = rest (stored g' w).
Proof. destruct (ensure_stored g now wr w g') as [-> | ->]; reflexivity. Qed.

Lemma save_stored g patch wrSave now wr w :
  rest (stored g (snd (savePremiumState g patch wrSave now wr w)))
  = rest (Premium.merge (stored g w) patch).
Proof.
  rewrite save_world, ensure_rest. unfold stored at 1.
  rewrite write_guilds. simpl. now rewrite lookup_insert_eq.
Qed.

Lemma save_rest_other g patch wrSave now wr w g' :
  g <> g' ->
  rest (stored g' (snd (savePremiumState g patch wrSave now wr w))) = rest (stored g' w).
Proof. intros Hne. now rewrite save_other. Qed.

Lemma merge_accent s c :
  rest (Premium.merge s (accentPatch c))
  = (Premium.r_plan s, Premium.r_activatedAt s, Premium.r_expiresAt s,
     {| Premium.b_name := Premium.b_name (Premium.r_branding s);
        Premium.b_iconUrl := Premium.b_iconUrl (Premium.r_branding s);
        Premium.b_accent := Some c |},
     Premium.r_features s).
Proof. destruct s as [? ? ? ? [] []]; reflexivity. Qed.

Lemma merge_autoclose s mins :
  Premium.r_plan (Premium.merge s (autoClosePatch mins)) = Premium.r_plan s
  /\ Premium.r_expiresAt (Premium.merge s (autoClosePatch mins)) = Premium.r_expiresAt s
  /\ Premium.r_branding (Premium.merge s (autoClosePatch mins)) = Premium.r_branding s
  /\ Premium.f_autoCloseMinutes (Premium.r_features (Premium.merge s (autoClosePatch mins)))
     = Some mins.
Proof. destruct s as [? ? ? ? [] []]; repeat split. Qed.

Lemma rest_eq s s' :
  rest s = rest s' ->
  Premium.r_plan s = Premium.r_plan s'
  /\ Premium.r_activatedAt s = Premium.r_activatedAt s'
  /\ Premium.r_expiresAt s = Premium.r_expiresAt s'
  /\ Premium.r_branding s = Premium.r_branding s'
  /\ Premium.r_features s = Premium.r_features s'.
Proof. unfold rest. intros H. injection H. auto. Qed.

(** The record after [?accent] saved: the accent, and the rest as it was. *)
Lemma save_accent g c wrSave now wr w :
  let after := stored g (snd (savePremiumState g (accentPatch c) wrSave now wr w)) in
  Premium.r_plan after = Premium.r_plan (stored g w)
  /\ Premium.r_activatedAt after = Premium.r_activatedAt (stored g w)
  /\ Premium.r_expiresAt after = Premium.r_expiresAt (stored g w)
  /\ Premium.r_branding after
     = {| Premium.b_name := Premium.b_name (Premium.r_branding (stored g w));
          Premium.b_iconUrl := Premium.b_iconUrl (Premium.r_branding (stored g w));
          Premium.b_accent := Some c |}
  /\ Premium.r_features after = Premium.r_features (stored g w).
Proof.
  intros after. pose proof (save_stored g (accentPatch c) wrSave now wr w) as E.
  fold after in E. rewrite merge_accent in E. clearbody after.
  unfold rest in E. injection E. auto.
Qed.

(** The record after [?autoclose] saved. *)
Lemma save_autoclose g mins wrSave now wr w :
  let after := stored g (snd (savePremiumState g (autoClosePatch mins) wrSave now wr w)) in
  Premium.r_plan after = Premium.r_plan (stored g w)
  /\ Premium.r_expiresAt after = Premium.r_expiresAt (stored g w)
  /\ Premium.r_branding after = Premium.r_branding (stored g w)
  /\ Premium.f_autoCloseMinutes (Premium.r_features after) = Some mins.
Proof.
  intros after. pose proof (save_stored g (autoClosePatch mins) wrSave now wr w) as E.
  fold after in E. apply rest_eq in E as (E1 & _ & E3 & E4 & E5).
  destruct (merge_autoclose (stored g w) mins) as (M1 & M3 & M4 & M5).
  rewrite E1, E3, E4, E5. auto.
Qed.

Lemma startsWith_hash s : startsWith s "#" = true -> s = String "#" (drop 1 s).
Proof.
  unfold startsWith. destruct s as [|c s]; cbn [String.prefix drop]; [discriminate|].
  destruct (ascii_dec "#" c) as [<-|]; [reflexivity|discriminate].
Qed.

Lemma hex_nospace c : Numeric.isHexDigit c = true -> isSpace c = false.
Proof.
  destruct c as [[|] [|] [|] [|] [|] [|] [|] [|]]; vm_compute; congruence.
Qed.

Lemma hexes_nospace s :
  forallb Numeric.isHexDigit s = true ->
  forallb (fun c => negb (isSpace c)) s = true.
Proof.
  induction s as [|c s IH]; [reflexivity|]. cbn [forallb]. intros H.
  apply andb_prop in H as [Hc Hs]. now rewrite (hex_nospace c Hc), IH.
Qed.

Lemma trimEnd_nospace s :
  forallb (fun c => negb (isSpace c)) s = true -> trimEnd s = s.
Proof.
  induction s as [|c s IH]; [reflexivity|]. cbn [forallb trimEnd]. intros H.
  apply andb_prop in H as [Hc Hs]. apply negb_true_iff in Hc.
  rewrite (IH Hs), Hc. now destruct s.
Qed.

Lemma trim_nospace s :
  forallb (fun c => negb (isSpace c)) s = true -> trim s = s.
Proof.
  intros H. unfold trim.
  replace (trimStart s) with s; [now apply trimEnd_nospace|].
  destruct s as [|c s]; [reflexivity|]. cbn [forallb] in H.
  apply andb_prop in H as [Hc _]. apply negb_true_iff in Hc.
  cbn [trimStart]. now rewrite Hc.
Qed.

(** A colour that passes the test is stored as the sign and six hex
    digits. *)
Lemma normalize_valid str :
  isValidHexColor str = true -> isStoredColor (normalizeHexColor str).
Proof.
  unfold isValidHexColor, normalizeHexColor, isStoredColor.
  destruct (startsWith (trim str) "#") eqn:E; intros H.
  - exists (drop 1 (trim str)). split; [|exact H].
    change ("#" +:+ drop 1 (trim str)) with (String "#" (drop 1 (trim str))).
    now apply startsWith_hash.
  - now exists (trim str).
Qed.

(** A stored colour passes the test again and is its own normal form. *)
Lemma stored_valid c :
  isStoredColor c -> isValidHexColor c = true /\ normalizeHexColor c = c.
Proof.
  intros (h & -> & Hh).
  assert (Ht : trim ("#" +:+ h) = "#" +:+ h).
  { apply trim_nospace. change ("#" +:+ h) with (String "#" h). cbn [forallb].
    unfold isHex6 in Hh. apply andb_prop in Hh as [Hh _].
    now rewrite hexes_nospace. }
  unfold isValidHexColor, normalizeHexColor. rewrite Ht.
  change ("#" +:+ h) with (String "#" h).
  assert (Hp : startsWith (String "#" h) "#" = true).
  { unfold startsWith. cbn [String.prefix].
    destruct (ascii_dec "#" "#"); [now destruct h|congruence]. }
  rewrite Hp. split; [exact Hh|reflexivity].
Qed.

(** What a call of [?accent] may do to the world. *)
Lemma accent_cases m env w :
  exists r w',
    accent m env w = (r, w')
    /\ ((r <> Saved
         /\ (w' = w
             \/ exists g, w' = ensurePremiumActiveOrExpire g (now1 env) (write1 env) w))
        \/ exists g c,
             guild m = Some g /\ authorId m = ownerId g /\ isStoredColor c
             /\ r = Saved
             /\ w' = snd (savePremiumState (id g) (accentPatch c)
                            (saveWrite env) (now2 env) (write2 env)
                            (ensurePremiumActiveOrExpire (id g)
                               (now1 env) (write1 env) w))).
Proof.
  unfold accent.
  destruct (authorBot m);
    [eexists _, _; split; [reflexivity|left; split; [discriminate|now left]]|].
  destruct (negb (startsWith _ "?accent "));
    [eexists _, _; split; [reflexivity|left; split; [discriminate|now left]]|].
  destruct (guild m) as [g|];
    [|eexists _, _; split; [reflexivity|left; split; [discriminate|now left]]].
  destruct (String.eqb (authorId m) (ownerId g)) eqn:Ho;
    [|eexists _, _; split; [reflexivity|left; split; [discriminate|now left]]].
  apply String.eqb_eq in Ho. cbn [negb].
  unfold getPremiumState. cbv zeta.
  destruct (negb (Premium.isPremium _)).
  { eexists _, _. split; [reflexivity|]. left. split; [discriminate|].
    right. now exists (id g). }
  destruct (isValidHexColor _) eqn:Hv; cbn [negb].
  2:{ eexists _, _. split; [reflexivity|]. left. split; [discriminate|].
      right. now exists (id g). }
  destruct (savePremiumState _ _ _ _ _ _) as [p w'] eqn:Es.
  eexists _, _. split; [reflexivity|]. right.
  exists g, (normalizeHexColor (trim (drop 8 (trim (content m))))).
  repeat split; [exact Ho|now apply normalize_valid|].
  unfold savePremiumState. unfold savePremiumState in Es. now rewrite Es.
Qed.

Lemma minutes_range x : 0 <= normalizeMinutes x <= 1440.
Proof.
  unfold normalizeMinutes. destruct x as [| |q]; try lia.
  destruct (Qle_bool (inject_Z 0) q) eqn:E; [|lia].
  apply Qle_bool_iff in E. apply Qfloor_resp_le in E. rewrite Qfloor_Z in E. lia.
Qed.

(** What a call of [?autoclose] may do to the world. *)
Lemma autoclose_cases m env w :
  exists r w',
    autoclose m env w = (r, w')
    /\ ((r <> Saved /\ r <> Disabled
         /\ (w' = w
             \/ exists g, w' = ensurePremiumActiveOrExpire g (now1 env) (write1 env) w))
        \/ exists g mins,
             guild m = Some g /\ authorId m = ownerId g
             /\ (r = Disabled /\ mins = 0 \/ r = Saved /\ 1 <= mins <= 1440)
             /\ w' = snd (savePremiumState (id g) (autoClosePatch mins)
                            (saveWrite env) (now2 env) (write2 env)
                            (ensurePremiumActiveOrExpire (id g)
                               (now1 env) (write1 env) w))).
Proof.
  unfold autoclose.
  destruct (authorBot m);
    [eexists _, _; split; [reflexivity|left; repeat split; try discriminate; now left]|].
  destruct (negb (startsWith _ "?autoclose "));
    [eexists _, _; split; [reflexivity|left; repeat split; try discriminate; now left]|].
  destruct (guild m) as [g|];
    [|eexists _, _; split; [reflexivity|left; repeat split; try discriminate; now left]].
  destruct (String.eqb (authorId m) (ownerId g)) eqn:Ho;
    [|eexists _, _; split; [reflexivity|left; repeat split; try discriminate; now left]].
  apply String.eqb_eq in Ho. cbn [negb].
  unfold getPremiumState. cbv zeta.
  destruct (negb (Premium.isPremium _)).
  { eexists _, _. split; [reflexivity|]. left. repeat split; try discriminate.
    right. now exists (id g). }
  destruct (String.eqb _ "off").
  - destruct (savePremiumState _ _ _ _ _ _) as [p w'] eqn:Es.
    eexists _, _. split; [reflexivity|]. right. exists g, 0.
    split; [reflexivity|]. split; [exact Ho|]. split; [now left|].
    now rewrite Es.
  - set (mins := normalizeMinutes _).
    pose proof (minutes_range (Numeric.Number
                  (toLowerCase (trim (drop 11 (trim (content m))))))) as Hr.
    fold mins in Hr.
    destruct (mins <=? 0) eqn:E.
    { eexists _, _. split; [reflexivity|]. left. repeat split; try discriminate.
      right. now exists (id g). }
    apply Z.leb_gt in E.
    destruct (savePremiumState _ _ _ _ _ _) as [p w'] eqn:Es.
    eexists _, _. split; [reflexivity|]. right. exists g, mins.
    split; [reflexivity|]. split; [exact Ho|].
    split; [right; split; [reflexivity|lia]|]. now rewrite Es.
Qed.

End SettingsFacts.

(** X3. [?accent] stores well-formed colours only. Whatever the message,
    after the call the accent stored for any guild is the one stored before
    or is the sign [#] followed by six hex digits; when the handler answers
    that it saved, the author owns the guild, the guild's stored accent is
    such a colour, which passes [isValidHexColor] again and is its own
    normal form, and the guild's plan, dates, features and the rest of its
    branding are what they were. *)
Theorem accent_stores_wellformed_colours
    (message : Entitlement.Message) (env : Settings.Env) (w : World.t) :
  let w' := snd (Settings.accent message env w) in
  let accentOf (g : string) (w : World.t) :=
    Premium.b_accent (Premium.r_branding (Entitlement.stored g w)) in
  (forall g : string,
      accentOf g w' = accentOf g w
      \/ exists c : string, accentOf g w' = Some c /\ Settings.isStoredColor c)
  /\ (fst (Settings.accent message env w) = Settings.Saved ->
      exists (g : Entitlement.Guild) (c : string),
        Entitlement.guild message = Some g
        /\ Entitlement.authorId message = Entitlement.ownerId g
        /\ accentOf (Entitlement.id g) w' = Some c
        /\ Settings.isStoredColor c
        /\ Text.isValidHexColor c = true /\ Text.normalizeHexColor c = c
        /\ let before := Entitlement.stored (Entitlement.id g) w in
           let after := Entitlement.stored (Entitlement.id g) w' in
           Premium.r_plan after = Premium.r_plan before
           /\ Premium.r_activatedAt after = Premium.r_activatedAt before
           /\ Premium.r_expiresAt after = Premium.r_expiresAt before
           /\ Premium.r_features after = Premium.r_features before
           /\ Premium.b_name (Premium.r_branding after)
              = Premium.b_name (Premium.r_branding before)
           /\ Premium.b_iconUrl (Premium.r_branding after)
              = Premium.b_iconUrl (Premium.r_branding before)).
Proof.
  intros w' accentOf. subst w' accentOf. cbv beta.
  destruct (SettingsFacts.accent_cases message env w)
    as (r & w' & -> & [[Hno [Hw | (g0 & Hw)]] | (g0 & c & Hg & Ho & Hc & Hr & Hw)]);
    cbn [fst snd].
  - rewrite Hw. split; [now left|]. intros H. contradiction.
  - rewrite Hw. split; [|intros H; contradiction].
    intros g. left.
    destruct (SettingsFacts.rest_eq _ _
                (SettingsFacts.ensure_rest g0 (Settings.now1 env) (Settings.write1 env) w g))
      as (_ & _ & _ & E & _).
    now rewrite E.
  - rewrite Hw.
    set (w1 := Entitlement.ensurePremiumActiveOrExpire (Entitlement.id g0)
                 (Settings.now1 env) (Settings.write1 env) w).
    destruct (SettingsFacts.save_accent (Entitlement.id g0) c (Settings.saveWrite env)
                (Settings.now2 env) (Settings.write2 env) w1)
      as (Es1 & Es2 & Es3 & Es4 & Es5).
    destruct (SettingsFacts.rest_eq _ _
                (SettingsFacts.ensure_rest (Entitlement.id g0) (Settings.now1 env)
                   (Settings.write1 env) w (Entitlement.id g0)))
      as (Ee1 & Ee2 & Ee3 & Ee4 & Ee5).
    fold w1 in Ee1, Ee2, Ee3, Ee4, Ee5.
    split.
    + intros g. destruct (decide (Entitlement.id g0 = g)) as [<-|Hne].
      * right. exists c. split; [now rewrite Es4|exact Hc].
      * left.
        destruct (SettingsFacts.rest_eq _ _
                    (SettingsFacts.save_rest_other (Entitlement.id g0)
                       (Settings.accentPatch c) (Settings.saveWrite env)
                       (Settings.now2 env) (Settings.write2 env) w1 g Hne))
          as (_ & _ & _ & Eo & _).
        destruct (SettingsFacts.rest_eq _ _
                    (SettingsFacts.ensure_rest (Entitlement.id g0) (Settings.now1 env)
                       (Settings.write1 env) w g))
          as (_ & _ & _ & Eg & _).
        fold w1 in Eg. now rewrite Eo, Eg.
    + intros _. exists g0, c.
      destruct (SettingsFacts.stored_valid c Hc) as [Hv Hn].
      split; [exact Hg|]. split; [exact Ho|]. split; [now rewrite Es4|].
      split; [exact Hc|]. split; [exact Hv|]. split; [exact Hn|].
      cbv zeta. rewrite Es1, Es2, Es3, Es4, Es5, Ee1, Ee2, Ee3, Ee4, Ee5.
      repeat split.
Qed.

Lemma accent_stores_wellformed_colours_witness :
  exists c : string,
    Premium.b_accent
      (Premium.r_branding
         (Entitlement.stored "100000000000000001"
            (snd (Settings.accent (Cases.ownerSays "?accent 6D5cff")
                    (Cases.settled 1700000005000) Cases.activeWorld))))
    = Some c
    /\ Text.normalizeHexColor c = c.
Proof.
  destruct (accent_stores_wellformed_colours (Cases.ownerSays "?accent 6D5cff")
              (Cases.settled 1700000005000) Cases.activeWorld) as [_ H].
  destruct (H eq_refl) as (g & c & Hg & _ & Ha & _ & _ & Hn & _).
  injection Hg as <-. exists c. split; [exact Ha|exact Hn].
Defined.

(** X4. [?autoclose] stores minutes within bounds only. Whatever the
    message, after the call the auto-close minutes stored for any guild are
    the ones stored before or a number from 0 to 1440; when the handler
    answers that it saved, the author owns the guild and the guild's stored
    minutes are from 1 to 1440, and when it answers that auto-close is
    disabled they are 0; either way the guild's plan, expiry and branding
    are what they were. *)
Theorem autoclose_stores_bounded_minutes
    (message : Entitlement.Message) (env : Settings.Env) (w : World.t) :
  let reply := fst (Settings.autoclose message env w) in
  let w' := snd (Settings.autoclose message env w) in
  let minutesOf (g : string) (w : World.t) :=
    Premium.f_autoCloseMinutes (Premium.r_features (Entitlement.stored g w)) in
  (forall g : string,
      minutesOf g w' = minutesOf g w
      \/ exists mins : Z, minutesOf g w' = Some mins /\ 0 <= mins <= 1440)
  /\ (reply = Settings.Saved \/ reply = Settings.Disabled ->
      exists (g : Entitlement.Guild) (mins : Z),
        Entitlement.guild message = Some g
        /\ Entitlement.authorId message = Entitlement.ownerId g
        /\ minutesOf (Entitlement.id g) w' = Some mins
        /\ (reply = Settings.Saved -> 1 <= mins <= 1440)
        /\ (reply = Settings.Disabled -> mins = 0)
        /\ let before := Entitlement.stored (Entitlement.id g) w in
           let after := Entitlement.stored (Entitlement.id g) w' in
           Premium.r_plan after = Premium.r_plan before
           /\ Premium.r_expiresAt after = Premium.r_expiresAt before
           /\ Premium.r_branding after = Premium.r_branding before).
Proof.
  intros reply w' minutesOf. subst reply w' minutesOf. cbv beta.
  destruct (SettingsFacts.autoclose_cases message env w)
    as (r & w' & -> & [(Hs & Hd & [Hw | (g0 & Hw)]) | (g0 & mins & Hg & Ho & Hr & Hw)]);
    cbn [fst snd].
  - rewrite Hw. split; [now left|]. intros [H | H]; contradiction.
  - rewrite Hw. split; [|intros [H | H]; contradiction].
    intros g. left.
    destruct (SettingsFacts.rest_eq _ _
                (SettingsFacts.ensure_rest g0 (Settings.now1 env) (Settings.write1 env) w g))
      as (_ & _ & _ & _ & E).
    now rewrite E.
  - rewrite Hw.
    set (w1 := Entitlement.ensurePremiumActiveOrExpire (Entitlement.id g0)
                 (Settings.now1 env) (Settings.write1 env) w).
    destruct (SettingsFacts.save_autoclose (Entitlement.id g0) mins (Settings.saveWrite env)
                (Settings.now2 env) (Settings.write2 env) w1)
      as (Es1 & Es3 & Es4 & Es5).
    destruct (SettingsFacts.rest_eq _ _
                (SettingsFacts.ensure_rest (Entitlement.id g0) (Settings.now1 env)
                   (Settings.write1 env) w (Entitlement.id g0)))
      as (Ee1 & _ & Ee3 & Ee4 & _).
    fold w1 in Ee1, Ee3, Ee4.
    assert (Hrange : 0 <= mins <= 1440) by (destruct Hr as [[_ ->] | [_ H]]; lia).
    split.
    + intros g. destruct (decide (Entitlement.id g0 = g)) as [<-|Hne].
      * right. exists mins. split; [exact Es5|exact Hrange].
      * left.
        destruct (SettingsFacts.rest_eq _ _
                    (SettingsFacts.save_rest_other (Entitlement.id g0)
                       (Settings.autoClosePatch mins) (Settings.saveWrite env)
                       (Settings.now2 env) (Settings.write2 env) w1 g Hne))
          as (_ & _ & _ & _ & Eo).
        destruct (SettingsFacts.rest_eq _ _
                    (SettingsFacts.ensure_rest (Entitlement.id g0) (Settings.now1 env)
                       (Settings.write1 env) w g))
          as (_ & _ & _ & _ & Eg).
        fold w1 in Eg. now rewrite Eo, Eg.
    + intros _. exists g0, mins.
      split; [exact Hg|]. split; [exact Ho|]. split; [exact Es5|].
      split; [|split].
      * intros ->. destruct Hr as [[H _] | [_ H]]; [discriminate|exact H].
      * intros ->. destruct Hr as [[_ H] | [H _]]; [exact H|discriminate].
      * cbv zeta. rewrite Es1, Es3, Es4, Ee1, Ee3, Ee4. repeat split.
Qed.

Lemma autoclose_stores_bounded_minutes_witness :
  exists mins : Z,
    Premium.f_autoCloseMinutes
      (Premium.r_features
         (Entitlement.stored "100000000000000001"
            (snd (Settings.autoclose (Cases.ownerSays "?autoclose 90.5")
                    (Cases.settled 1700000005000) Cases.activeWorld))))
    = Some mins
    /\ 1 <= mins <= 1440.
Proof.
  destruct (autoclose_stores_bounded_minutes (Cases.ownerSays "?autoclose 90.5")
              (Cases.settled 1700000005000) Cases.activeWorld) as [_ H].
  destruct (H (or_introl eq_refl)) as (g & mins & Hg & _ & Hm & Hs & _).
  injection Hg as <-. exists mins. split; [exact Hm|exact (Hs eq_refl)].
Defined.

(** ** Configuration: saving and the debounced write *)

Module SaveFacts.
Import World.

Lemma normalized_snowflakes a :
  Forall (fun r => Topic.isValidSnowflake r = true) (Config.normalizeArray a).
Proof.
  destruct a as [l|]; [|constructor]. simpl.
  induction l as [|x l IH]; simpl; [constructor|].
  destruct (Topic.isValidSnowflake x) eqn:E; [constructor|]; assumption.
Qed.

Lemma save_other_guild g patch w g' :
  g' <> g -> getGuildConfig g' (snd (saveGuildConfig g patch w)) = getGuildConfig g' w.
Proof.
  intros Hne. unfold saveGuildConfig, getGuildConfig. simpl.
  unfold Config.getGuildConfig. now rewrite lookup_insert_ne by congruence.
Qed.

End SaveFacts.

(** X5. A save is read back, and touches one guild. The configuration
    [saveGuildConfig] returns is the one [getGuildConfig] reads for the
    guild afterwards; the configuration of every other guild reads as
    before; and the save leaves the premium records, the licence keys and
    the files on disk alone (the configuration file is written later, by
    the timer). *)
Theorem config_save_is_read_back
    (guildId : string) (patch : Config.Patch) (w : World.t) :
  let cfg := fst (World.saveGuildConfig guildId patch w) in
  let w' := snd (World.saveGuildConfig guildId patch w) in
  World.getGuildConfig guildId w' = cfg
  /\ (forall other : string,
        other <> guildId -> World.getGuildConfig other w' = World.getGuildConfig other w)
  /\ World.PREMIUM_GUILDS w' = World.PREMIUM_GUILDS w
  /\ World.PREMIUM_KEYS w' = World.PREMIUM_KEYS w
  /\ World.files w' = World.files w.
Proof.
  cbv zeta. split; [apply saveGuildConfig_then_get|].
  split; [intros other Hne; now apply SaveFacts.save_other_guild|].
  repeat split.
Qed.

Lemma config_save_is_read_back_witness :
  World.getGuildConfig "100000000000000009"
    (snd (World.saveGuildConfig "100000000000000001"
            (Dashboard.patchOf Sample.sampleBody) Sample.legacyWorld))
  = World.getGuildConfig "100000000000000009" Sample.legacyWorld.
Proof.
  destruct (config_save_is_read_back "100000000000000001"
              (Dashboard.patchOf Sample.sampleBody) Sample.legacyWorld) as (_ & H & _).
  apply H. discriminate.
Defined.

(** X6. The role lists of a configuration hold snowflakes only. Whatever is
    stored for a guild, and whatever a patch puts into the lists, every role
    id in the three lists that [getGuildConfig] and [saveGuildConfig] return
    passes [isValidSnowflake]. *)
Theorem config_roles_are_snowflakes
    (guildId : string) (patch : Config.Patch) (w : World.t) :
  let ok (cfg : Config.t) :=
    Forall (fun r => Topic.isValidSnowflake r = true) (Config.supportRoles cfg)
    /\ Forall (fun r => Topic.isValidSnowflake r = true) (Config.mmRoles cfg)
    /\ Forall (fun r => Topic.isValidSnowflake r = true) (Config.adminRoles cfg) in
  ok (World.getGuildConfig guildId w)
  /\ ok (fst (World.saveGuildConfig guildId patch w)).
Proof.
  cbv zeta.
  assert (H : Forall (fun r => Topic.isValidSnowflake r = true)
                (Config.supportRoles (World.getGuildConfig guildId w))
              /\ Forall (fun r => Topic.isValidSnowflake r = true)
                   (Config.mmRoles (World.getGuildConfig guildId w))
              /\ Forall (fun r => Topic.isValidSnowflake r = true)
                   (Config.adminRoles (World.getGuildConfig guildId w)))
    by (repeat split; apply SaveFacts.normalized_snowflakes).
  split; [exact H|]. destruct H as (Hs & Hm & Ha).
  unfold World.saveGuildConfig. cbn [fst]. unfold Config.next. cbn.
  repeat split.
  - destruct (Config.p_supportRoles patch);
      [apply (SaveFacts.normalized_snowflakes (Some l))|exact Hs].
  - destruct (Config.p_mmRoles patch);
      [apply (SaveFacts.normalized_snowflakes (Some l))|exact Hm].
  - destruct (Config.p_adminRoles patch);
      [apply (SaveFacts.normalized_snowflakes (Some l))|exact Ha].
Qed.

(** X7. A save fixes the three toggles. After [saveGuildConfig] the stored
    record carries the toggles explicitly, and a patch that names none of
    them leaves each as it read before the save, whatever ids the patch
    sets: on a guild where support reads as disabled, saving a support
    category leaves support disabled. *)
Theorem save_without_toggles_keeps_them
    (guildId : string) (patch : Config.Patch) (w : World.t) :
  Config.p_supportEnabled patch = None ->
  Config.p_tradeEnabled patch = None ->
  Config.p_logsEnabled patch = None ->
  let before := World.getGuildConfig guildId w in
  let w' := snd (World.saveGuildConfig guildId patch w) in
  let after := World.getGuildConfig guildId w' in
  Config.supportEnabled after = Config.supportEnabled before
  /\ Config.tradeEnabled after = Config.tradeEnabled before
  /\ Config.logsEnabled after = Config.logsEnabled before
  /\ exists saved : Config.Saved,
       World.GUILD_CONFIGS w' !! guildId = Some saved
       /\ Config.s_supportEnabled saved = Some (Config.supportEnabled before)
       /\ Config.s_tradeEnabled saved = Some (Config.tradeEnabled before)
       /\ Config.s_logsEnabled saved = Some (Config.logsEnabled before).
Proof.
  intros Hs Ht Hl before w' after. subst after w'.
  rewrite saveGuildConfig_then_get.
  unfold World.saveGuildConfig. cbn [fst snd]. fold before.
  unfold Config.next. rewrite Hs, Ht, Hl. cbn [default].
  repeat split. eexists. cbn [World.GUILD_CONFIGS World.scheduleConfigSave
    World.setCfgTimer World.setGuildConfigs].
  rewrite lookup_insert_eq. split; [reflexivity|]. repeat split.
Qed.

Lemma save_without_toggles_keeps_them_witness :
  Config.supportEnabled
    (World.getGuildConfig "100000000000000009"
       (snd (World.saveGuildConfig "100000000000000009"
               (Dashboard.patchOf Sample.sampleBody) Sample.legacyWorld)))
  = false
  /\ Config.supportCategoryId
       (World.getGuildConfig "100000000000000009"
          (snd (World.saveGuildConfig "100000000000000009"
                  (Dashboard.patchOf Sample.sampleBody) Sample.legacyWorld)))
     = Some "223456789012345678".
Proof.
  destruct (save_without_toggles_keeps_them "100000000000000009"
              (Dashboard.patchOf Sample.sampleBody) Sample.legacyWorld
              eq_refl eq_refl eq_refl) as (H & _).
  split; [rewrite H; reflexivity|reflexivity].
Defined.

(** X8. The debounced write. A save marks the configuration dirty and arms
    the timer; when the timer fires with the disk not marked full and the
    write done, the configuration file holds exactly the configurations in
    memory, the dirty mark and the timer are cleared, and a further firing
    changes nothing. *)
Theorem config_timer_flushes
    (guildId : string) (patch : Config.Patch) (w : World.t) (wr : World.WriteResult) :
  World.DISK_FULL w = false ->
  let w1 := snd (World.saveGuildConfig guildId patch w) in
  let w2 := World.configTimer World.Written w1 in
  World._cfgDirty w1 = true /\ World._cfgSaveTimer w1 = true
  /\ World.guildConfigs_json (World.files w2) = World.GUILD_CONFIGS w1
  /\ World.GUILD_CONFIGS w2 = World.GUILD_CONFIGS w1
  /\ World._cfgDirty w2 = false /\ World._cfgSaveTimer w2 = false
  /\ World.configTimer wr w2 = w2.
Proof.
  intros Hdisk w1 w2. subst w2 w1.
  unfold World.saveGuildConfig, World.configTimer, World.scheduleConfigSave.
  cbn. rewrite Hdisk. cbn. repeat split.
Qed.

Lemma config_timer_flushes_witness :
  World.guildConfigs_json
    (World.files
       (World.configTimer World.Written
          (snd (World.saveGuildConfig "100000000000000001"
                  (Dashboard.patchOf Sample.sampleBody) Sample.legacyWorld))))
  !! "100000000000000001"
  = World.GUILD_CONFIGS
      (snd (World.saveGuildConfig "100000000000000001"
              (Dashboard.patchOf Sample.sampleBody) Sample.legacyWorld))
    !! "100000000000000001".
Proof.
  destruct (config_timer_flushes "100000000000000001"
              (Dashboard.patchOf Sample.sampleBody) Sample.legacyWorld World.Written
              eq_refl) as (_ & _ & H & _).
  now rewrite H.
Defined.

(** X9. A save made while the disk is marked full is dropped by the timer.
    With [DISK_FULL] set, the firing timer clears the dirty mark and writes
    nothing, whatever the disk would answer; every later firing finds
    nothing to write, so the saved configuration stays in memory only,
    until another save arms the timer with the disk mark cleared. *)
Theorem config_timer_drops_when_disk_full
    (guildId : string) (patch : Config.Patch) (w : World.t)
    (wr : World.WriteResult) (later : list World.WriteResult) :
  World.DISK_FULL w = true ->
  let w1 := snd (World.saveGuildConfig guildId patch w) in
  let w2 := fold_left (fun w r => World.configTimer r w) (wr :: later) w1 in
  World.files w2 = World.files w
  /\ World.GUILD_CONFIGS w2 = World.GUILD_CONFIGS w1
  /\ World._cfgDirty w2 = false
  /\ World.DISK_FULL w2 = true.
Proof.
  intros Hdisk w1 w2. subst w2 w1. cbn [fold_left].
  set (w2 := World.configTimer wr _).
  assert (H : World.files w2 = World.files w
              /\ World.GUILD_CONFIGS w2
                 = World.GUILD_CONFIGS (snd (World.saveGuildConfig guildId patch w))
              /\ World._cfgDirty w2 = false /\ World.DISK_FULL w2 = true).
  { subst w2. unfold World.saveGuildConfig, World.configTimer, World.scheduleConfigSave.
    cbn. rewrite Hdisk. cbn. repeat split. exact Hdisk. }
  clearbody w2. revert w2 H.
  induction later as [|r later IH]; intros w2 H; [exact H|].
  cbn [fold_left]. apply IH. destruct H as (Hf & Hc & Hd & Hk).
  unfold World.configTimer. cbn. rewrite Hd. cbn. repeat split; assumption.
Qed.

Lemma config_timer_drops_when_disk_full_witness :
  World.files
    (fold_left (fun w r => World.configTimer r w) [World.Written; World.Written]
       (snd (World.saveGuildConfig "100000000000000001"
               (Dashboard.patchOf Sample.sampleBody) Cases.fullWorld)))
  = World.files Cases.fullWorld.
Proof.
  destruct (config_timer_drops_when_disk_full "100000000000000001"
              (Dashboard.patchOf Sample.sampleBody) Cases.fullWorld
              World.Written [World.Written] eq_refl) as (H & _).
  exact H.
Defined.

(** ** Premium state: what is kept *)

(** X10. Premium is kept up to and including the expiry instant, and for
    good without one. For a guild stored as premium, [getPremiumState]
    returns the state built from the stored record, [isPremium] true, and
    changes nothing, when the record has no expiry (the old lifetime keys),
    when its expiry does not parse, and when the clock has not passed the
    expiry: at the very millisecond of the expiry the guild is still
    premium. *)
Theorem premium_is_kept_until_expiry
    (w : World.t) (guildId : string) (s : Premium.Raw) (now : Z) (wr : World.WriteResult) :
  World.PREMIUM_GUILDS w !! guildId = Some s ->
  Premium.r_isPremium s = Some true ->
  (Premium.r_expiresAt s = None
   \/ (exists d, Premium.r_expiresAt s = Some d /\ Premium.parse d = None)
   \/ (exists d ms, Premium.r_expiresAt s = Some d /\ Premium.parse d = Some ms
                    /\ now <= ms)) ->
  Entitlement.getPremiumState guildId now wr w = (Premium.view s, w)
  /\ Premium.isPremium (Premium.view s) = true.
Proof.
  intros Hs Hp Hd.
  assert (He : Entitlement.ensurePremiumActiveOrExpire guildId now wr w = w).
  { unfold Entitlement.ensurePremiumActiveOrExpire. rewrite Hs, Hp. cbn.
    destruct Hd as [-> | [(d & -> & ->) | (d & ms & -> & -> & Hle)]]; try reflexivity.
    apply Z.ltb_ge in Hle. now rewrite Hle. }
  unfold Entitlement.getPremiumState. cbv zeta. rewrite He.
  unfold Entitlement.stored. rewrite Hs. cbn [default].
  split; [reflexivity|]. unfold Premium.view. cbn. now rewrite Hp.
Qed.

Lemma premium_is_kept_until_expiry_witness :
  Premium.isPremium
    (fst (Entitlement.getPremiumState "100000000000000001" 1700000000000 World.Written
            Cases.datedWorld))
  = true.
Proof.
  destruct (premium_is_kept_until_expiry Cases.datedWorld "100000000000000001"
              Cases.dated 1700000000000 World.Written eq_refl eq_refl)
    as [H1 H2].
  - right. right. exists (Premium.Parsable 1700000000000), 1700000000000.
    repeat split. lia.
  - now rewrite H1.
Defined.

(** X11. A settings save changes the named keys of one guild and nothing
    else. [savePremiumState] with a patch of branding and feature keys
    leaves the guild's plan, activation and expiry as they were, sets the
    branding and the features to the stored ones with the patch's keys put
    over them key by key, never turns the premium flag on, leaves every
    other guild's record and the licence keys untouched, and returns the
    state built from the record it leaves. *)
Theorem settings_save_merges_key_by_key
    (guildId : string) (b : Premium.BrandingPatch) (f : Premium.FeaturesPatch)
    (wrSave : World.WriteResult) (now : Z) (wr : World.WriteResult) (w : World.t) :
  let patch := Run.settingsPatch b f in
  let returned := fst (Entitlement.savePremiumState guildId patch wrSave now wr w) in
  let w' := snd (Entitlement.savePremiumState guildId patch wrSave now wr w) in
  let before := Entitlement.stored guildId w in
  let after := Entitlement.stored guildId w' in
  returned = Premium.view after
  /\ Premium.r_plan after = Premium.r_plan before
  /\ Premium.r_activatedAt after = Premium.r_activatedAt before
  /\ Premium.r_expiresAt after = Premium.r_expiresAt before
  /\ Premium.r_branding after
     = {| Premium.b_name :=
            Premium.overNull (Premium.pb_name b) (Premium.b_name (Premium.r_branding before));
          Premium.b_iconUrl :=
            Premium.overNull (Premium.pb_iconUrl b)
              (Premium.b_iconUrl (Premium.r_branding before));
          Premium.b_accent :=
            Premium.overNull (Premium.pb_accent b)
              (Premium.b_accent (Premium.r_branding before)) |}
  /\ Premium.r_features after = Premium.r_features (Premium.merge before patch)
  /\ (Entitlement.premiumFlag guildId w = false ->
      Entitlement.premiumFlag guildId w' = false)
  /\ (forall other : string,
        other <> guildId -> Entitlement.stored other w' = Entitlement.stored other w)
  /\ World.PREMIUM_KEYS w' = World.PREMIUM_KEYS w.
Proof.
  intros patch returned w' before after.
  destruct (SettingsFacts.rest_eq _ _
              (SettingsFacts.save_stored guildId patch wrSave now wr w))
    as (E1 & E2 & E3 & E4 & E5).
  fold w' after before in E1, E2, E3, E4, E5.
  split; [reflexivity|].
  split; [now rewrite E1|]. split; [now rewrite E2|]. split; [now rewrite E3|].
  split; [now rewrite E4|]. split; [exact E5|].
  split; [apply EntitlementFacts.save_settings_flag|].
  split; [|apply EntitlementFacts.save_keys].
  intros other Hne. apply EntitlementFacts.save_other. congruence.
Qed.

Lemma settings_save_merges_key_by_key_witness :
  Entitlement.stored "100000000000000009"
    (snd (Entitlement.savePremiumState "100000000000000001"
            (Run.settingsPatch Premium.noBrandingPatch Premium.noFeaturesPatch)
            World.Written 1700000005000 World.Written Sample.keyWorld))
  = Entitlement.stored "100000000000000009" Sample.keyWorld.
Proof.
  destruct (settings_save_merges_key_by_key "100000000000000001"
              Premium.noBrandingPatch Premium.noFeaturesPatch
              World.Written 1700000005000 World.Written Sample.keyWorld)
    as (_ & _ & _ & _ & _ & _ & _ & H & _).
  apply H. discriminate.
Defined.

(** ** Licence keys: what the generator issues *)

Module KeyGenFacts.
Import Str StrFacts World KeyGen.

Lemma letter_class i : isUpper (letter i) || isDigit (letter i) = true.
Proof.
  unfold letter.
  assert (H : (i mod String.length alphabet < 32)%nat)
    by (apply Nat.mod_upper_bound; discriminate).
  revert H. generalize (i mod String.length alphabet)%nat. intros n.
  do 32 (destruct n as [|n]; [reflexivity|]). intros H. exfalso. lia.
Qed.

Lemma class_nospace c : isUpper c || isDigit c = true -> isSpace c = false.
Proof.
  destruct c as [[|] [|] [|] [|] [|] [|] [|] [|]]; vm_compute; congruence.
Qed.

Lemma letter_nospace i : isSpace (letter i) = false.
Proof. apply class_nospace, letter_class. Qed.

(** The key, letter by letter. *)
Lemma key_letters env from :
  makeLicenseKey env from
  = string_of_list_ascii
      (["D"; "S"; "-";
        letter (random env (from + 0)); letter (random env (from + 1));
        letter (random env (from + 2)); letter (random env (from + 3)); "-";
        letter (random env (from + 4 + 0)); letter (random env (from + 4 + 1));
        letter (random env (from + 4 + 2)); letter (random env (from + 4 + 3)); "-";
        letter (random env (from + 8 + 0)); letter (random env (from + 8 + 1));
        letter (random env (from + 8 + 2)); letter (random env (from + 8 + 3))]%char).
Proof. reflexivity. Qed.

Lemma key_nospace env from :
  forallb (fun c => negb (isSpace c)) (makeLicenseKey env from) = true.
Proof.
  rewrite key_letters. cbn [string_of_list_ascii forallb].
  rewrite !letter_nospace. reflexivity.
Qed.

(** A run of characters that are not white space is one word. *)
Lemma wordsFrom_nospace k :
  forallb (fun c => negb (isSpace c)) k = true ->
  forall cur,
    wordsFrom cur k
    = match (rev cur ++ list_ascii_of_string k)%list with
      | [] => []
      | l => [string_of_list_ascii l]
      end.
Proof.
  induction k as [|x k IH]; intros H cur.
  - cbn [wordsFrom list_ascii_of_string]. rewrite List.app_nil_r.
    destruct cur as [|c cur]; [reflexivity|]. cbn [rev].
    destruct (rev cur ++ [c])%list eqn:E; [|reflexivity].
    now apply List.app_eq_nil in E as [_ E].
  - cbn [forallb] in H. apply andb_prop in H as [Hx Hk].
    apply negb_true_iff in Hx. cbn [wordsFrom list_ascii_of_string].
    rewrite Hx, (IH Hk). cbn [rev]. now rewrite <- List.app_assoc.
Qed.

Lemma trimEnd_before a k :
  k <> "" -> forallb (fun c => negb (isSpace c)) k = true ->
  trimEnd (a +:+ k) = a +:+ k.
Proof.
  intros Hne Hk. induction a as [|c a IH].
  - rewrite app_nil. now apply SettingsFacts.trimEnd_nospace.
  - rewrite app_cons. cbn [trimEnd]. rewrite IH.
    destruct (a +:+ k) eqn:E; [|reflexivity].
    destruct a; [rewrite app_nil in E; congruence|now rewrite app_cons in E].
Qed.

(** A run without white space, a space, and the rest. *)
Lemma wordsFrom_word a k :
  forallb (fun c => negb (isSpace c)) a = true ->
  forall cur,
    wordsFrom cur (a +:+ String " " k)
    = match (rev cur ++ list_ascii_of_string a)%list with
      | [] => wordsFrom [] k
      | l => string_of_list_ascii l :: wordsFrom [] k
      end.
Proof.
  induction a as [|x a IH]; intros H cur.
  - rewrite app_nil. cbn [wordsFrom list_ascii_of_string].
    change (isSpace " ") with true. cbv iota. rewrite List.app_nil_r.
    destruct cur as [|c cur]; [reflexivity|]. cbn [rev].
    destruct (rev cur ++ [c])%list eqn:E; [|reflexivity].
    now apply List.app_eq_nil in E as [_ E].
  - cbn [forallb] in H. apply andb_prop in H as [Hx Ha].
    apply negb_true_iff in Hx. rewrite app_cons.
    cbn [wordsFrom list_ascii_of_string].
    rewrite Hx, (IH Ha). cbn [rev]. now rewrite <- List.app_assoc.
Qed.

(** The message that redeems a key printed by the generator. *)
Lemma redeems_as_printed k :
  k <> "" -> forallb (fun c => negb (isSpace c)) k = true ->
  trim ("?premium-redeem " +:+ k) = "?premium-redeem " +:+ k
  /\ words ("?premium-redeem " +:+ k) = ["?premium-redeem"; k].
Proof.
  intros Hne Hk. split.
  - unfold trim.
    replace (trimStart ("?premium-redeem " +:+ k)) with ("?premium-redeem " +:+ k)
      by reflexivity.
    now apply trimEnd_before.
  - unfold words.
    change ("?premium-redeem " +:+ k) with ("?premium-redeem" +:+ String " " k).
    rewrite (wordsFrom_word "?premium-redeem" k eq_refl []).
    cbn [rev app list_ascii_of_string string_of_list_ascii].
    rewrite (wordsFrom_nospace k Hk []). cbn [rev app].
    destruct k as [|x k]; [congruence|]. cbn [list_ascii_of_string].
    change (x :: list_ascii_of_string k) with (list_ascii_of_string (String x k)).
    now rewrite string_of_list_ascii_of_string.
Qed.

Lemma countOf_range a n : countOf a = Some n -> (1 <= n <= 25)%nat.
Proof.
  unfold countOf. destruct a as [a|]; [|intros [= <-]; lia].
  destruct (Numeric.Number a) as [| |q]; try discriminate.
  destruct (Qle_bool (inject_Z 1) q) eqn:E1; [|discriminate].
  destruct (Qle_bool q (inject_Z 25)) eqn:E2; [|discriminate].
  cbn [andb]. intros [= <-].
  apply Qle_bool_iff in E1, E2.
  apply Qfloor_resp_le in E1, E2. rewrite Qfloor_Z in E1, E2. lia.
Qed.

Lemma issue_length dur author env count :
  forall i store, length (fst (issue dur author env i count store)) = count.
Proof.
  induction count as [|count IH]; intros i store; [reflexivity|].
  cbn [issue]. specialize (IH (S i) (<[draw env i :=
                                        fresh dur author (createdAtClock env i)]> store)).
  destruct (issue dur author env (S i) count _). cbn [fst length] in *. now rewrite IH.
Qed.

(** A key that the loop does not list keeps what the store held for it. *)
Lemma issue_absent dur author env key count :
  forall i store,
    ~ In key (fst (issue dur author env i count store)) ->
    snd (issue dur author env i count store) !! key = store !! key.
Proof.
  induction count as [|count IH]; intros i store Hnot; [reflexivity|].
  cbn [issue] in *.
  specialize (IH (S i) (<[draw env i :=
                            fresh dur author (createdAtClock env i)]> store)).
  destruct (issue dur author env (S i) count _) as [keys store'].
  cbn [fst snd In] in *. rewrite IH by tauto.
  apply lookup_insert_ne. tauto.
Qed.

(** Every key the loop lists is stored with a record made in one of its
    turns. *)
Lemma issue_listed dur author env key count :
  forall i store,
    In key (fst (issue dur author env i count store)) ->
    exists j, snd (issue dur author env i count store) !! key
              = Some (fresh dur author (createdAtClock env j)).
Proof.
  induction count as [|count IH]; intros i store Hin; [contradiction|].
  cbn [issue] in *.
  pose proof (IH (S i) (<[draw env i :=
                            fresh dur author (createdAtClock env i)]> store)) as IH'.
  pose proof (issue_absent dur author env key count (S i)
                (<[draw env i := fresh dur author (createdAtClock env i)]> store))
    as Habs.
  destruct (issue dur author env (S i) count _) as [keys store'].
  cbn [fst snd In] in *.
  destruct (in_dec string_dec key keys) as [Hk|Hk]; [now apply IH'|].
  destruct Hin as [<-|Hin]; [|contradiction].
  exists i. rewrite (Habs Hk). apply lookup_insert_eq.
Qed.

(** What an accepted [?premium-gen] did. *)
Lemma generate_outcome m env w keys :
  fst (generate m env w) = Generated keys ->
  exists planArg dur count,
    Entitlement.authorBot m = false
    /\ isBotOwner (Entitlement.authorId m) env = true
    /\ nth_error (words (trim (Entitlement.content m))) 1 = Some planArg
    /\ Duration.parseDurationToMs planArg = Some dur
    /\ countOf (nth_error (words (trim (Entitlement.content m))) 2) = Some count
    /\ keys = fst (issue dur (Entitlement.authorId m) env 0 count (PREMIUM_KEYS w))
    /\ snd (generate m env w)
       = writeJsonSafe PREMIUM_KEYS_FILE (genWrite env)
           (setPremiumKeys
              (snd (issue dur (Entitlement.authorId m) env 0 count (PREMIUM_KEYS w))) w).
Proof.
  unfold generate.
  destruct (Entitlement.authorBot m); [discriminate|].
  destruct (negb (startsWith _ _)); [discriminate|].
  destruct (Entitlement.guild m); [|discriminate].
  destruct (isBotOwner _ _) eqn:Ho; [|discriminate]. cbn [negb].
  destruct (nth_error _ 1) as [planArg|]; [|discriminate].
  destruct (Duration.parseDurationToMs planArg) as [dur|] eqn:Hd; [|discriminate].
  destruct (countOf _) as [count|] eqn:Hc; [|discriminate].
  destruct (issue dur (Entitlement.authorId m) env 0 count (PREMIUM_KEYS w))
    as [ks store] eqn:Hi.
  cbn [fst snd]. intros [= <-]. exists planArg, dur, count. rewrite Hi.
  repeat split; try assumption; reflexivity.
Qed.

End KeyGenFacts.

(** X12. A key from [makeLicenseKey] has the printed shape and redeems as
    printed. Whatever the random draws, the key has 17 characters, starts
    with [DS-], consists of upper-case letters, digits and dashes, and is
    one word: the message [?premium-redeem <key>] is read by the redemption
    handler as a redemption of exactly that key. *)
Theorem licence_key_is_one_word (env : KeyGen.Env) (from : nat) (who : Entitlement.Message) :
  let key := KeyGen.makeLicenseKey env from in
  Entitlement.content who = "?premium-redeem " +:+ key ->
  String.length key = 17%nat
  /\ Str.startsWith key "DS-" = true
  /\ Str.forallb (fun c => Str.isUpper c || Str.isDigit c || Ascii.eqb c "-") key = true
  /\ Entitlement.asksToRedeem who key.
Proof.
  intros key Hc.
  assert (Hne : key <> "") by (subst key; now rewrite KeyGenFacts.key_letters).
  destruct (KeyGenFacts.redeems_as_printed key Hne (KeyGenFacts.key_nospace env from))
    as [Ht Hw].
  split; [reflexivity|]. split; [reflexivity|]. split.
  - subst key. rewrite KeyGenFacts.key_letters. cbn [string_of_list_ascii Str.forallb].
    rewrite !KeyGenFacts.letter_class. reflexivity.
  - unfold Entitlement.asksToRedeem. rewrite Hc, Ht, Hw. split; reflexivity.
Qed.

Lemma licence_key_is_one_word_witness :
  Entitlement.asksToRedeem (Cases.ownerSays "?premium-redeem DS-AAAA-AAAA-AAAA")
    "DS-AAAA-AAAA-AAAA".
Proof.
  destruct (licence_key_is_one_word Cases.zeros 0
              (Cases.ownerSays "?premium-redeem DS-AAAA-AAAA-AAAA") eq_refl)
    as (_ & _ & _ & H).
  exact H.
Defined.

Module IssueFacts.
Import Duration.

Lemma planToDays_named p a : planToDays p = Some a -> plan a <> "".
Proof.
  unfold planToDays.
  repeat match goal with
         | |- context [if ?b then _ else _] => destruct b
         | |- context [match ?x with _ => _ end] => destruct x
         end;
    intros [= <-]; discriminate.
Qed.

Lemma parse_named input r : parseDurationToMs input = Some r -> plan_ r <> "".
Proof.
  unfold parseDurationToMs. destruct (Str.isEmpty _); [discriminate|].
  destruct (planToDays _) as [a|] eqn:E.
  - intros [= <-]. cbn. now apply (planToDays_named _ _ E).
  - destruct (_ || _); [discriminate|]. intros [= <-]. discriminate.
Qed.

End IssueFacts.

(** X13. What [?premium-gen] issues. When the handler answers with keys,
    the author is one of the bot owners and not a bot, there are between 1
    and 25 keys, and every key listed is stored unused, without a guild,
    created by the author, with a duration from 0 to ten years in
    milliseconds; what the store held under any other key is untouched, and
    no premium record changes. *)
Theorem generated_keys_are_stored_unused
    (message : Entitlement.Message) (env : KeyGen.Env) (w : World.t) (keys : list string) :
  fst (KeyGen.generate message env w) = KeyGen.Generated keys ->
  let w' := snd (KeyGen.generate message env w) in
  Entitlement.authorBot message = false
  /\ In (Entitlement.authorId message) (KeyGen.OWNER_IDS env)
  /\ (1 <= length keys <= 25)%nat
  /\ (forall key : string,
        In key keys ->
        exists k : Premium.Key,
          World.PREMIUM_KEYS w' !! key = Some k
          /\ Premium.used k = false
          /\ Premium.usedByGuildId k = None
          /\ Premium.createdBy k = Some (Entitlement.authorId message)
          /\ exists ms : Z, Premium.durationMs k = Some ms /\ 0 <= ms <= 315360000000)
  /\ (forall key : string,
        ~ In key keys -> World.PREMIUM_KEYS w' !! key = World.PREMIUM_KEYS w !! key)
  /\ World.PREMIUM_GUILDS w' = World.PREMIUM_GUILDS w.
Proof.
  intros Hgen w'. subst w'.
  destruct (KeyGenFacts.generate_outcome message env w keys Hgen)
    as (planArg & dur & count & Hbot & Hown & Hplan & Hdur & Hcount & Hkeys & ->).
  split; [exact Hbot|]. split.
  { unfold KeyGen.isBotOwner in Hown. apply existsb_exists in Hown as (x & Hin & Hx).
    apply String.eqb_eq in Hx. now subst x. }
  split.
  { rewrite Hkeys, KeyGenFacts.issue_length. now apply KeyGenFacts.countOf_range in Hcount. }
  rewrite EntitlementFacts.write_keys, EntitlementFacts.write_guilds. cbn.
  split; [|split; [|reflexivity]].
  - intros key Hin. rewrite Hkeys in Hin.
    destruct (KeyGenFacts.issue_listed dur _ env key count 0 _ Hin) as (j & Hj).
    eexists. split; [exact Hj|]. repeat split.
    exists (Duration.ms dur). split; [reflexivity|].
    destruct (DurationFacts.parse_bounds planArg dur Hdur) as [Hb _].
    now rewrite DurationFacts.maxMs_value in Hb.
  - intros key Hnot. rewrite Hkeys in Hnot. now apply KeyGenFacts.issue_absent.
Qed.

Lemma generated_keys_are_stored_unused_witness :
  exists k : Premium.Key,
    World.PREMIUM_KEYS
      (snd (KeyGen.generate (Cases.botOwnerSays "?premium-gen 36h 2") Cases.zeros
              Sample.keyWorld))
    !! "DS-AAAA-AAAA-AAAA" = Some k
    /\ Premium.used k = false.
Proof.
  destruct (generated_keys_are_stored_unused (Cases.botOwnerSays "?premium-gen 36h 2")
              Cases.zeros Sample.keyWorld ["DS-AAAA-AAAA-AAAA"; "DS-AAAA-AAAA-AAAA"]
              eq_refl) as (_ & _ & _ & H & _).
  destruct (H "DS-AAAA-AAAA-AAAA" (or_introl eq_refl)) as (k & Hk & Hu & _).
  exists k. split; [exact Hk|exact Hu].
Defined.

(** X14. A generated key buys the duration it was generated for. After an
    accepted [?premium-gen <duration>], the redemption of any of the listed
    keys by the owner of a guild succeeds (the new expiry being a date
    JavaScript can represent), sets the guild's expiry to the later of now
    and its current expiry plus the milliseconds [parseDurationToMs] gave
    for the duration, and sets the plan to the one it gave. *)
Theorem generated_key_buys_its_duration
    (genMessage : Entitlement.Message) (genEnv : KeyGen.Env) (w0 : World.t)
    (keys : list string) (key planArg : string) (dur : Duration.t)
    (message : Entitlement.Message) (g : Entitlement.Guild) (env : Entitlement.Env) :
  fst (KeyGen.generate genMessage genEnv w0) = KeyGen.Generated keys ->
  In key keys ->
  nth_error (Str.words (Str.trim (Entitlement.content genMessage))) 1 = Some planArg ->
  Duration.parseDurationToMs planArg = Some dur ->
  Entitlement.fromOwnerOf message g ->
  Entitlement.asksToRedeem message key ->
  let w := snd (KeyGen.generate genMessage genEnv w0) in
  let expiry :=
    Premium.base (Entitlement.now env) (Entitlement.stored (Entitlement.id g) w)
    + Duration.ms dur in
  Entitlement.representable expiry ->
  let after := Entitlement.stored (Entitlement.id g) (snd (Entitlement.redeem message env w)) in
  fst (Entitlement.redeem message env w) = Entitlement.Activated
  /\ Premium.r_expiresAt after = Some (Premium.Parsable expiry)
  /\ Premium.r_plan after = Some (Duration.plan_ dur).
Proof.
  intros Hgen Hin Hplan Hdur Howner Hasks w expiry Hrep after.
  destruct (KeyGenFacts.generate_outcome genMessage genEnv w0 keys Hgen)
    as (planArg' & dur' & count & _ & _ & Hplan' & Hdur' & _ & Hkeys & Hw).
  rewrite Hplan in Hplan'. injection Hplan' as <-.
  rewrite Hdur in Hdur'. injection Hdur' as <-.
  rewrite Hkeys in Hin.
  destruct (KeyGenFacts.issue_listed dur _ genEnv key count 0 _ Hin) as (j & Hj).
  set (k := KeyGen.fresh dur (Entitlement.authorId genMessage)
              (KeyGen.createdAtClock genEnv j)) in Hj.
  assert (Hk : World.PREMIUM_KEYS w !! key = Some k).
  { subst w. rewrite Hw, EntitlementFacts.write_keys. exact Hj. }
  pose proof (redeem_activates w key k message g env Hk eq_refl Howner Hasks Hrep) as Hact.
  pose proof (redeem_stores w key k message g env Hk eq_refl Howner Hasks Hrep) as Hst.
  cbv zeta in Hst. fold after in Hst.
  split; [now rewrite Hact|]. rewrite Hst.
  assert (Hname : Premium.orNull (Some (Duration.plan_ dur)) = Some (Duration.plan_ dur)).
  { cbn. rewrite (StrFacts.isEmpty_false _ (IssueFacts.parse_named _ _ Hdur)). reflexivity. }
  set (M := Premium.merge _ _).
  assert (HM : Premium.r_expiresAt M = Some (Premium.Parsable expiry)
               /\ Premium.r_plan M = Some (Duration.plan_ dur)).
  { subst M. unfold Premium.merge, Entitlement.activation.
    cbn [Premium.r_expiresAt Premium.r_plan Premium.p_expiresAt Premium.p_plan
         Premium.over Premium.k_plan k KeyGen.fresh].
    unfold k, KeyGen.fresh. cbn [Premium.k_plan]. rewrite Hname. split; reflexivity. }
  destruct (_ <? _); exact HM.
Qed.

Lemma generated_key_buys_its_duration_witness :
  Premium.r_expiresAt
    (Entitlement.stored "100000000000000001"
       (snd (Entitlement.redeem
               (Cases.ownerSays "?premium-redeem DS-AAAA-AAAA-AAAA")
               (Sample.calmAt 1700000005000)
               (snd (KeyGen.generate (Cases.botOwnerSays "?premium-gen 36h") Cases.zeros
                       Sample.keyWorld)))))
  = Some (Premium.Parsable (1700000005000 + 129600000)).
Proof.
  destruct (generated_key_buys_its_duration
              (Cases.botOwnerSays "?premium-gen 36h") Cases.zeros Sample.keyWorld
              ["DS-AAAA-AAAA-AAAA"] "DS-AAAA-AAAA-AAAA" "36h"
              {| Duration.ms := 129600000; Duration.label := "36h";
                 Duration.plan_ := "custom"; Duration.days_ := 2 |}
              (Cases.ownerSays "?premium-redeem DS-AAAA-AAAA-AAAA")
              Sample.homeGuild (Sample.calmAt 1700000005000)
              eq_refl (or_introl eq_refl) eq_refl eq_refl
              (conj eq_refl (conj eq_refl eq_refl)) (conj eq_refl eq_refl))
    as (_ & H & _).
  - unfold Entitlement.representable. vm_compute. split; discriminate.
  - exact H.
Defined.

(** ** Tickets: topics, permissions, claim and release *)

Module RoleFacts.
Import World Tickets.

(** Without any of the guild's roles a member manages no channel. *)
Lemma no_role_no_manage m ch w :
  isAdmin m w = false -> isSupport m w = false -> isTradeStaff m w = false ->
  canManageTicket m ch w = false.
Proof.
  intros Ha Hs Ht. unfold canManageTicket. destruct ch as [c|]; [|reflexivity].
  rewrite Ha, Hs, Ht.
  repeat match goal with |- context [if ?b then _ else _] => destruct b end; reflexivity.
Qed.

Lemma no_roles_held m w :
  roles m = [] ->
  isAdmin m w = false /\ isSupport m w = false /\ isTradeStaff m w = false.
Proof.
  intros H. unfold isAdmin, isSupport, isTradeStaff, holdsAny. rewrite H.
  repeat split.
Qed.

End RoleFacts.

(** X15. What [parseTopic] reads is stable under writing it back. Whatever
    string a channel carries as its topic, the claimer read from it is never
    the empty string and never the word [null], and when an opener is read,
    writing the two fields with [makeTopic] and reading them again gives the
    same two fields. *)
Theorem parsed_topic_is_stable (topic : option string) :
  let t := Topic.parseTopic topic in
  Topic.claimed t <> Some "" /\ Topic.claimed t <> Some "null"
  /\ Topic.opened t <> Some ""
  /\ forall o : string,
       Topic.opened t = Some o ->
       Topic.parseTopic (Some (Topic.makeTopic (Some o) (Topic.claimed t))) = t.
Proof.
  intros t. destruct (TicketFacts.parseTopic_fit topic) as [Ho Hc]. fold t in Ho, Hc.
  assert (Hc1 : Topic.claimed t <> Some "").
  { intros E. destruct (Hc "" E) as [H _]. discriminate. }
  assert (Hc2 : Topic.claimed t <> Some "null").
  { intros E. now destruct (Hc "null" E) as [_ H]. }
  assert (Ho1 : Topic.opened t <> Some "").
  { intros E. specialize (Ho "" E). discriminate. }
  split; [exact Hc1|]. split; [exact Hc2|]. split; [exact Ho1|].
  intros o Hopen. clearbody t. destruct t as [op cl]. cbn in *. subst op.
  unfold Topic.makeTopic. destruct cl as [c|]; cbn [Topic.show].
  - destruct (Hc c eq_refl) as [Hp Hn].
    exact (TopicFacts.parse_written o c (Ho o eq_refl) Hp Hn).
  - exact (TopicFacts.parse_written_null o (Ho o eq_refl)).
Qed.

Lemma parsed_topic_is_stable_witness :
  Topic.parseTopic
    (Some (Topic.makeTopic (Some "600000000000000006")
             (Topic.claimed
                (Topic.parseTopic (Some "claimed:;x;opened:600000000000000006:y;z")))))
  = Topic.parseTopic (Some "claimed:;x;opened:600000000000000006:y;z").
Proof.
  destruct (parsed_topic_is_stable (Some "claimed:;x;opened:600000000000000006:y;z"))
    as (_ & _ & _ & H).
  apply H. reflexivity.
Defined.

(** X16. A member who holds none of the guild's admin, support and trade
    roles cannot claim or release anything. For such a member, be it the
    opener of the ticket or the owner of the server, the claim button,
    [/claim] and [/unclaim] answer with an error on every channel, claimed
    or not, and leave the channel and every variable of the program as they
    were. *)
Theorem members_without_roles_manage_nothing
    (member : Tickets.Member) (channel : option Tickets.Channel)
    (env : Tickets.Env) (w : World.t) :
  Tickets.isAdmin member w = false ->
  Tickets.isSupport member w = false ->
  Tickets.isTradeStaff member w = false ->
  (forall route : Run.Route,
      let '(reply, channel', w') := Run.claim route member channel env w in
      Tickets.errorOf reply <> None /\ channel' = channel /\ w' = w)
  /\ (let '(reply, channel', w') := Tickets.unclaimCommand member channel env w in
      Tickets.errorOf reply <> None /\ channel' = channel /\ w' = w).
Proof.
  intros Ha Hs Ht.
  pose proof (RoleFacts.no_role_no_manage member channel w Ha Hs Ht) as Hm.
  split.
  - intros route. destruct route; unfold Run.claim.
    + unfold Tickets.claimButton. destruct channel as [c|]; [|repeat split; discriminate].
      rewrite Hm. destruct (negb (Tickets.isText (Some c))); repeat split; discriminate.
    + unfold Tickets.claimCommand. destruct channel as [c|]; [|repeat split; discriminate].
      rewrite Hm. destruct (_ || _); repeat split; discriminate.
  - unfold Tickets.unclaimCommand. destruct channel as [c|]; [|repeat split; discriminate].
    rewrite Hm. destruct (_ || _); repeat split; discriminate.
Qed.

Lemma members_without_roles_manage_nothing_witness :
  Tickets.unclaimCommand Sample.outsider (Some Sample.claimedTicket)
    Sample.smooth Sample.legacyWorld
  = (Tickets.NotAllowed, Some Sample.claimedTicket, Sample.legacyWorld).
Proof.
  destruct (members_without_roles_manage_nothing Sample.outsider
              (Some Sample.claimedTicket) Sample.smooth Sample.legacyWorld
              eq_refl eq_refl eq_refl) as [_ H].
  destruct (Tickets.unclaimCommand Sample.outsider (Some Sample.claimedTicket)
              Sample.smooth Sample.legacyWorld) as [[reply channel'] w'] eqn:E.
  destruct H as (_ & -> & ->).
  apply (f_equal (fun r => fst (fst r))) in E. cbn in E. now rewrite <- E.
Defined.

(** X17. The claimer can always release the claim. When a member who may
    manage an unclaimed ticket claims it with [/claim] and then runs
    [/unclaim], the platform applying both topics, the first call answers
    claimed, the second answers unclaimed, and the topic then reads
    unclaimed with the opener it had (or [unknown] when it had none). *)
Theorem claim_then_unclaim_reopens
    (member : Tickets.Member) (c : Tickets.Channel)
    (env1 env2 : Tickets.Env) (w : World.t) :
  Tickets.isTicketChannel (Some c) w = true ->
  Tickets.canManageTicket member (Some c) w = true ->
  Run.claimer (Some c) = None ->
  Topic.plainId (Tickets.userId member) = true ->
  Tickets.userId member <> "null" ->
  Tickets.setTopicOk env1 = true ->
  Tickets.setTopicOk env2 = true ->
  let '(reply1, channel1, w1) := Tickets.claimCommand member (Some c) env1 w in
  let '(reply2, channel2, w2) := Tickets.unclaimCommand member channel1 env2 w1 in
  reply1 = Tickets.Claimed
  /\ Run.claimer channel1 = Some (Tickets.userId member)
  /\ reply2 = Tickets.Unclaimed
  /\ exists c2 : Tickets.Channel,
       channel2 = Some c2
       /\ Topic.parseTopic (Tickets.topic c2)
          = {| Topic.opened :=
                 Some (default "unknown"
                         (Topic.opened (Topic.parseTopic (Tickets.topic c))));
               Topic.claimed := None |}.
Proof.
  intros Hk Hm Hc Hplain Hnull Hok1 Hok2. unfold Run.claimer in Hc.
  destruct (TicketFacts.parseTopic_fit (Tickets.topic c)) as [Hopened _].
  destruct (ClaimFacts.slash_claims member c w Hm Hk env1 Hc) as (c1 & -> & Hsame & Ht).
  set (o := default "unknown" (Topic.opened (Topic.parseTopic (Tickets.topic c)))) in *.
  assert (Ho : Topic.plainId o = true) by now apply TicketFacts.unknown_plain.
  rewrite Hok1 in Ht. cbn in Ht.
  assert (Hparse : Topic.parseTopic (Tickets.topic c1)
                   = {| Topic.opened := Some o;
                        Topic.claimed := Some (Tickets.userId member) |})
    by (rewrite Ht; now apply TopicFacts.parse_written).
  set (w1 := Tickets.checkedTwice (Tickets.guildId c) env1 w).
  assert (Hcfg : World.GUILD_CONFIGS w1 = World.GUILD_CONFIGS w)
    by (subst w1; unfold Tickets.checkedTwice;
        now rewrite !EntitlementFacts.ensure_configs).
  assert (Hm1 : Tickets.canManageTicket member (Some c1) w1 = true)
    by (rewrite (ClaimFacts.canManage_ext member c c1 w w1 Hsame Hcfg); exact Hm).
  assert (Hk1 : Tickets.isTicketChannel (Some c1) w1 = true).
  { apply (ClaimFacts.isTicket_by_topic c1 w1 o).
    - now apply ClaimFacts.canManage_text in Hm1.
    - now rewrite Hparse.
    - now apply ClaimFacts.plain_nonempty. }
  assert (Hc1 : Topic.claimed (Topic.parseTopic (Tickets.topic c1))
                = Some (Tickets.userId member)) by now rewrite Hparse.
  rewrite (UnclaimFacts.unclaim_releases member c1 env2 w1 Hk1 Hm1 _ Hc1 (or_introl eq_refl)).
  split; [reflexivity|]. split; [exact Hc1|]. split; [reflexivity|].
  eexists. split; [reflexivity|].
  unfold Tickets.released.
  destruct (ClaimFacts.autoUntag_same
              (fst (Entitlement.getPremiumState (Tickets.guildId c1)
                      (Tickets.now1 env2) (Tickets.write1 env2) w1))
              (Tickets.setNameOk env2)
              (Tickets.setTopic
                 ("opened:"
                  +:+ default "unknown"
                        (Topic.opened (Topic.parseTopic (Tickets.topic c1)))
                  +:+ ";claimed:null") (Tickets.setTopicOk env2) c1)) as [_ Htop].
  rewrite Htop, Hok2, ClaimFacts.setTopic_topic, Hparse. cbn [Topic.opened default].
  now apply TopicFacts.parse_written_null.
Qed.

Lemma claim_then_unclaim_reopens_witness :
  fst (fst (Tickets.unclaimCommand Sample.staffA
              (snd (fst (Tickets.claimCommand Sample.staffA (Some Sample.openTicket)
                           Sample.smooth Sample.legacyWorld)))
              Sample.smooth
              (snd (Tickets.claimCommand Sample.staffA (Some Sample.openTicket)
                      Sample.smooth Sample.legacyWorld))))
  = Tickets.Unclaimed.
Proof.
  pose proof (claim_then_unclaim_reopens Sample.staffA Sample.openTicket
                Sample.smooth Sample.smooth Sample.legacyWorld
                eq_refl eq_refl eq_refl eq_refl) as H.
  destruct (Tickets.claimCommand Sample.staffA (Some Sample.openTicket)
              Sample.smooth Sample.legacyWorld) as [[reply1 channel1] w1].
  cbn [fst snd].
  destruct (Tickets.unclaimCommand Sample.staffA channel1 Sample.smooth w1)
    as [[reply2 channel2] w2].
  cbn [fst snd].
  apply H; [discriminate|reflexivity|reflexivity].
Defined.

(** ** The [claimed-] prefix of a channel name *)

Module TagFacts.
Import Str StrFacts Text TextFacts World Tickets.

Lemma dropDashes_noDash s : startsDash s = false -> dropDashes s = s.
Proof.
  destruct s as [|c r]; [reflexivity|]. cbn [startsDash]. intros H.
  destruct c as [[|] [|] [|] [|] [|] [|] [|] [|]]; vm_compute in H; try discriminate H;
    reflexivity.
Qed.

Lemma dropDashes_clean r : startsDash (dropDashes r) = false.
Proof.
  induction r as [|x r IH]; [reflexivity|].
  destruct x as [[|] [|] [|] [|] [|] [|] [|] [|]]; try reflexivity; exact IH.
Qed.

Lemma take_startsDash_false n s : startsDash s = false -> startsDash (take n s) = false.
Proof.
  intros H. destruct (startsDash (take n s)) eqn:E; [|reflexivity].
  apply take_startsDash in E. congruence.
Qed.

Lemma take_take n s : take n (take n s) = take n s.
Proof. apply take_all, take_length. Qed.

Lemma take_drop n s : take n s +:+ drop n s = s.
Proof.
  revert s. induction n as [|n IH]; intros s.
  - rewrite take_0. cbn [drop]. apply app_nil.
  - destruct s as [|c s]; [reflexivity|]. rewrite take_S. cbn [drop].
    now rewrite app_cons, IH.
Qed.

Lemma map_app f a b : map f (a +:+ b) = map f a +:+ map f b.
Proof.
  induction a as [|c a IH]; [now rewrite !app_nil|].
  cbn [map]. now rewrite !app_cons, <- IH.
Qed.

Lemma take_claimed b : take 90 ("claimed-" +:+ b) = "claimed-" +:+ take 82 b.
Proof. reflexivity. Qed.

(** A name that does not start with the prefix is left as it is. *)
Lemma not_tagged n :
  startsWith (toLowerCase n) "claimed-" = false -> stripClaimed n = n.
Proof.
  intros H. unfold stripClaimed.
  destruct (String.eqb (toLowerCase (take 7 n)) "claimed") eqn:E; [|reflexivity].
  apply String.eqb_eq in E.
  destruct (drop 7 n) as [|x r] eqn:D; [reflexivity|].
  destruct (Ascii.eqb x "-") eqn:Ex.
  - apply Ascii.eqb_eq in Ex. subst x. exfalso.
    rewrite <- (take_drop 7 n), D in H. unfold toLowerCase in *.
    rewrite map_app, E in H.
    assert (Ht : startsWith ("claimed" +:+ map toLower (String "-" r)) "claimed-" = true)
      by now destruct r.
    congruence.
  - destruct x as [[|] [|] [|] [|] [|] [|] [|] [|]]; vm_compute in Ex;
      try discriminate Ex; reflexivity.
Qed.

Lemma stripClaimed_clean m : startsDash m = false -> startsDash (stripClaimed m) = false.
Proof.
  intros H. unfold stripClaimed.
  destruct (String.eqb _ "claimed"); [|exact H].
  destruct (drop 7 m) as [|x r]; [exact H|].
  destruct x as [[|] [|] [|] [|] [|] [|] [|] [|]]; try exact H.
  apply dropDashes_clean.
Qed.

Lemma orElse_clean n : startsDash n = false -> startsDash (orElse n "ticket") = false.
Proof. intros H. unfold orElse. now destruct (isEmpty n). Qed.

Lemma length_app (a b : string) :
  String.length (a +:+ b) = (String.length a + String.length b)%nat.
Proof.
  induction a as [|c a IH]; [now rewrite app_nil|].
  rewrite app_cons. cbn [String.length]. now rewrite IH.
Qed.

Lemma longer_differs p n : p <> "" -> String.eqb (p +:+ n) n = false.
Proof.
  intros Hp. apply String.eqb_neq. intros E.
  apply (f_equal String.length) in E. rewrite length_app in E.
  destruct p; [congruence|]. cbn [String.length] in E. lia.
Qed.

Lemma setName_twice a b c : setName b true (setName a true c) = setName b true c.
Proof. reflexivity. Qed.

Lemma setName_own c : setName (name c) true c = c.
Proof. now destruct c. Qed.

End TagFacts.

(** X18. Claiming twice does not stack the prefix. For a premium guild
    with claim tagging on, and a channel whose name does not start with a
    dash, the renaming that [/claim] does, done again on its own result,
    changes nothing: the name carries [claimed-] once. *)
Theorem claim_tag_is_applied_once (prem : Premium.State) (c : Tickets.Channel) :
  Premium.isPremium prem = true ->
  Premium.autoTagClaims (Premium.features prem) = true ->
  Text.startsDash (Tickets.name c) = false ->
  Tickets.autoTag prem true (Tickets.autoTag prem true c) = Tickets.autoTag prem true c
  /\ Str.startsWith (Tickets.name (Tickets.autoTag prem true c)) "claimed-" = true.
Proof.
  intros Hp Hf Hd.
  set (b := Tickets.stripClaimed (Tickets.orElse (Tickets.name c) "ticket")).
  assert (Hb : Text.startsDash b = false)
    by now apply TagFacts.stripClaimed_clean, TagFacts.orElse_clean.
  assert (Hfirst : Tickets.autoTag prem true c
                   = if String.eqb ("claimed-" +:+ Str.take 82 b) (Tickets.name c)
                     then c
                     else Tickets.setName ("claimed-" +:+ Str.take 82 b) true c).
  { unfold Tickets.autoTag. rewrite Hp, Hf. cbn [andb]. fold b.
    rewrite TagFacts.take_claimed.
    replace (Str.isEmpty ("claimed-" +:+ Str.take 82 b)) with false by reflexivity.
    cbn [negb andb]. now destruct (String.eqb _ _). }
  assert (Hagain : forall c1 : Tickets.Channel,
             Tickets.name c1 = "claimed-" +:+ Str.take 82 b ->
             Tickets.autoTag prem true c1 = c1).
  { intros c1 Hn. unfold Tickets.autoTag. rewrite Hp, Hf, Hn. cbn [andb].
    replace (Tickets.orElse ("claimed-" +:+ Str.take 82 b) "ticket")
      with ("claimed-" +:+ Str.take 82 b) by reflexivity.
    rewrite UnclaimFacts.stripClaimed_tagged.
    rewrite TagFacts.dropDashes_noDash by now apply TagFacts.take_startsDash_false.
    rewrite TagFacts.take_claimed, TagFacts.take_take, String.eqb_refl.
    now rewrite andb_false_r. }
  rewrite Hfirst.
  destruct (String.eqb ("claimed-" +:+ Str.take 82 b) (Tickets.name c)) eqn:E.
  - apply String.eqb_eq in E. split; [now apply Hagain|]. rewrite <- E.
    now destruct (Str.take 82 b).
  - split; [now apply Hagain|]. cbn [Tickets.setName Tickets.name].
    now destruct (Str.take 82 b).
Qed.

Lemma claim_tag_is_applied_once_witness :
  Tickets.name
    (Tickets.autoTag (Premium.view Sample.lapsed) true
       (Tickets.autoTag (Premium.view Sample.lapsed) true Sample.claimedTicket))
  = "claimed-ticket-bob".
Proof.
  destruct (claim_tag_is_applied_once (Premium.view Sample.lapsed) Sample.claimedTicket
              eq_refl eq_refl eq_refl) as [H _].
  now rewrite H.
Defined.

(** X19. Releasing a claim gives the channel its name back. For a premium
    guild with claim tagging on, and a channel whose name is not empty, has
    at most 82 characters, does not start with a dash and is not yet tagged,
    the renaming of [/claim] puts [claimed-] in front of the name, and the
    renaming of [/unclaim] on the result gives back the channel as it
    was. *)
Theorem tag_then_untag_restores_name (prem : Premium.State) (c : Tickets.Channel) :
  Premium.isPremium prem = true ->
  Premium.autoTagClaims (Premium.features prem) = true ->
  Tickets.name c <> "" ->
  (String.length (Tickets.name c) <= 82)%nat ->
  Text.startsDash (Tickets.name c) = false ->
  Str.startsWith (Str.toLowerCase (Tickets.name c)) "claimed-" = false ->
  Tickets.name (Tickets.autoTag prem true c) = "claimed-" +:+ Tickets.name c
  /\ Tickets.autoUntag prem true (Tickets.autoTag prem true c) = c.
Proof.
  intros Hp Hf Hne Hlen Hd Htag.
  assert (Htagged : Tickets.autoTag prem true c
                    = Tickets.setName ("claimed-" +:+ Tickets.name c) true c).
  { unfold Tickets.autoTag. rewrite Hp, Hf. cbn [andb].
    replace (Tickets.orElse (Tickets.name c) "ticket") with (Tickets.name c)
      by (unfold Tickets.orElse; now rewrite (StrFacts.isEmpty_false _ Hne)).
    rewrite (TagFacts.not_tagged _ Htag), TagFacts.take_claimed.
    rewrite (TextFacts.take_all 82 _ Hlen).
    rewrite TagFacts.longer_differs by discriminate. reflexivity. }
  rewrite Htagged. split; [reflexivity|].
  unfold Tickets.autoUntag. rewrite Hp, Hf. cbn [andb].
  replace (Tickets.name (Tickets.setName ("claimed-" +:+ Tickets.name c) true c))
    with ("claimed-" +:+ Tickets.name c) by reflexivity.
  replace (Str.startsWith (Str.toLowerCase ("claimed-" +:+ Tickets.name c)) "claimed-")
    with true by now destruct (Tickets.name c).
  rewrite UnclaimFacts.stripClaimed_tagged, (TagFacts.dropDashes_noDash _ Hd).
  replace (Tickets.orElse (Tickets.name c) "ticket") with (Tickets.name c)
    by (unfold Tickets.orElse; now rewrite (StrFacts.isEmpty_false _ Hne)).
  rewrite TextFacts.take_all by lia.
  rewrite TagFacts.setName_twice. apply TagFacts.setName_own.
Qed.

Lemma tag_then_untag_restores_name_witness :
  Tickets.autoUntag (Premium.view Sample.lapsed) true
    (Tickets.autoTag (Premium.view Sample.lapsed) true Sample.openTicket)
  = Sample.openTicket.
Proof.
  apply (tag_then_untag_restores_name (Premium.view Sample.lapsed) Sample.openTicket);
    try reflexivity; [discriminate|simpl; lia].
Defined.

(** ** Ratings: the ledger *)

Module LedgerFacts.
Import World Ratings Ledger.






End LedgerFacts.



(** ** The dashboard: id lists and the branding route *)

Module FormFacts.
Import Str StrFacts Dashboard.

Lemma digit_nospace c : isDigit c = true -> isSpace c = false.
Proof.
  destruct c as [[|] [|] [|] [|] [|] [|] [|] [|]]; vm_compute; congruence.
Qed.

Lemma digits_nospace s :
  forallb isDigit s = true -> forallb (fun c => negb (isSpace c)) s = true.
Proof.
  induction s as [|c s IH]; [reflexivity|]. cbn [forallb]. intros H.
  apply andb_prop in H as [Hc Hs]. now rewrite (digit_nospace c Hc), IH.
Qed.

Lemma looksLikeId_inv s :
  looksLikeId s = true -> forallb isDigit s = true /\ s <> "".
Proof.
  unfold looksLikeId. intros H.
  apply andb_prop in H as [H _]. apply andb_prop in H as [H1 H2].
  split; [exact H1|]. intros ->. discriminate.
Qed.

Lemma snowflake_looksLikeId s : Topic.isValidSnowflake s = true -> looksLikeId s = true.
Proof.
  unfold Topic.isValidSnowflake, looksLikeId. intros H.
  apply andb_prop in H as [H H3]. apply andb_prop in H as [H1 H2].
  rewrite H1, H3. apply Nat.leb_le in H2.
  replace (10 <=? String.length s)%nat with true
    by (symmetry; apply Nat.leb_le; lia).
  reflexivity.
Qed.

(** A joined list of ids: no space in it, and its parts are the ids. *)
Lemma join_nospace l :
  Forall (fun r => looksLikeId r = true) l ->
  forallb (fun c => negb (isSpace c)) (join "," l) = true.
Proof.
  induction 1 as [|p l Hp Hl IH]; [reflexivity|].
  apply looksLikeId_inv in Hp as [Hp _]. apply digits_nospace in Hp.
  destruct l as [|q l]; [exact Hp|].
  change (join "," (p :: q :: l)) with (p +:+ String "," (join "," (q :: l))).
  rewrite forallb_app, Hp. cbn [forallb]. now rewrite IH.
Qed.

Lemma split_join l :
  l <> [] -> Forall (fun r => looksLikeId r = true) l -> split "," (join "," l) = l.
Proof.
  intros Hne H. induction H as [|p l Hp Hl IH]; [congruence|].
  apply looksLikeId_inv in Hp as [Hp _].
  assert (Hc : noneOf "," p = true) by now apply TopicFacts.digits_noneOf.
  destruct l as [|q l]; [now apply split_none|].
  change (join "," (p :: q :: l)) with (p +:+ String "," (join "," (q :: l))).
  rewrite split_prefix by exact Hc. f_equal. apply IH. discriminate.
Qed.

Lemma map_trim_ids l :
  Forall (fun r => looksLikeId r = true) l -> List.map trim l = l.
Proof.
  induction 1 as [|p l Hp Hl IH]; [reflexivity|]. cbn [List.map]. rewrite IH.
  apply looksLikeId_inv in Hp as [Hp _].
  now rewrite (SettingsFacts.trim_nospace p (digits_nospace p Hp)).
Qed.

Lemma filter_ids l :
  Forall (fun r => looksLikeId r = true) l -> List.filter looksLikeId l = l.
Proof.
  induction 1 as [|p l Hp Hl IH]; [reflexivity|]. cbn [List.filter].
  now rewrite Hp, IH.
Qed.

Lemma parse_join l :
  Forall (fun r => looksLikeId r = true) l -> parseIdList (Some (join "," l)) = l.
Proof.
  intros H. unfold parseIdList. cbn [default]. unfold id.
  rewrite (SettingsFacts.trim_nospace _ (join_nospace l H)).
  destruct l as [|p l]; [reflexivity|].
  assert (Hne : join "," (p :: l) <> "").
  { inversion H as [|? ? Hp _]; subst. apply looksLikeId_inv in Hp as [_ Hp].
    destruct l; cbn [join]; [exact Hp|]. destruct p; [congruence|].
    rewrite app_cons. discriminate. }
  rewrite (isEmpty_false _ Hne), split_join by (exact H || discriminate).
  now rewrite map_trim_ids, filter_ids.
Qed.

Lemma filtered_ids l : Forall (fun r => looksLikeId r = true) (List.filter looksLikeId l).
Proof.
  induction l as [|x l IH]; [constructor|]. cbn [List.filter].
  destruct (looksLikeId x) eqn:E; [constructor|]; assumption.
Qed.

Lemma roles_look_like_ids a :
  Forall (fun r => looksLikeId r = true) (Config.normalizeArray a).
Proof.
  eapply Forall_impl; [apply SaveFacts.normalized_snowflakes|].
  intros r. apply snowflake_looksLikeId.
Qed.

Lemma digit_plain c : isDigit c = true -> negb (Text.isMarkup c) = true.
Proof.
  destruct c as [[|] [|] [|] [|] [|] [|] [|] [|]]; vm_compute; congruence.
Qed.

Lemma join_plain l :
  Forall (fun r => looksLikeId r = true) l ->
  forallb (fun c => negb (Text.isMarkup c)) (join "," l) = true.
Proof.
  assert (Hd : forall p, forallb isDigit p = true ->
                         forallb (fun c => negb (Text.isMarkup c)) p = true).
  { induction p as [|c p IH]; [reflexivity|]. cbn [forallb]. intros H.
    apply andb_prop in H as [Hc Hp]. now rewrite (digit_plain c Hc), IH. }
  induction 1 as [|p l Hp Hl IH]; [reflexivity|].
  apply looksLikeId_inv in Hp as [Hp _]. apply Hd in Hp.
  destruct l as [|q l]; [exact Hp|].
  change (join "," (p :: q :: l)) with (p +:+ String "," (join "," (q :: l))).
  rewrite forallb_app, Hp. cbn [forallb]. now rewrite IH.
Qed.

(** The value the form shows for a list of ids is the list joined. *)
Lemma shown_plain l :
  Forall (fun r => looksLikeId r = true) l ->
  Text.escapeHtml (Some (join "," l)) = join "," l.
Proof.
  intros H. apply join_plain in H. unfold Text.escapeHtml. cbn [default].
  rewrite (HtmlFacts.replaceAll_absent "&") by now apply HtmlFacts.plain_noneOf.
  rewrite (HtmlFacts.replaceAll_absent "<") by now apply HtmlFacts.plain_noneOf.
  rewrite (HtmlFacts.replaceAll_absent ">") by now apply HtmlFacts.plain_noneOf.
  rewrite (HtmlFacts.replaceAll_absent Text.dquote) by now apply HtmlFacts.plain_noneOf.
  now rewrite (HtmlFacts.replaceAll_absent "'") by now apply HtmlFacts.plain_noneOf.
Qed.

Lemma shown_parses a :
  parseIdList (Some (Text.escapeHtml (Some (join "," (Config.normalizeArray a)))))
  = Config.normalizeArray a.
Proof.
  rewrite shown_plain by apply roles_look_like_ids.
  apply parse_join, roles_look_like_ids.
Qed.

End FormFacts.

(** X23. The settings form gives back the role lists it shows. For the
    configuration of any guild, the value the form shows for each of the
    three role lists (the list joined with commas and passed through
    [escapeHtml]) is read by [parseIdList] as the same list; and whatever is
    submitted, every id that [parseIdList] and [cleanId] let through is a
    string of 10 to 25 digits. *)
Theorem role_lists_survive_the_form (guildId : string) (w : World.t) :
  let cfg := World.getGuildConfig guildId w in
  let shown (roles : list string) := Text.escapeHtml (Some (Str.join "," roles)) in
  Dashboard.parseIdList (Some (shown (Config.supportRoles cfg))) = Config.supportRoles cfg
  /\ Dashboard.parseIdList (Some (shown (Config.mmRoles cfg))) = Config.mmRoles cfg
  /\ Dashboard.parseIdList (Some (shown (Config.adminRoles cfg))) = Config.adminRoles cfg
  /\ (forall v : option string,
        Forall (fun r => Dashboard.looksLikeId r = true) (Dashboard.parseIdList v))
  /\ (forall (v : option string) (id : string),
        Dashboard.cleanId v = Some id -> Dashboard.looksLikeId id = true).
Proof.
  cbv zeta.
  split; [apply FormFacts.shown_parses|].
  split; [apply FormFacts.shown_parses|].
  split; [apply FormFacts.shown_parses|].
  split.
  - intros v. unfold Dashboard.parseIdList.
    destruct (Str.isEmpty _); [constructor|apply FormFacts.filtered_ids].
  - intros v id. unfold Dashboard.cleanId.
    destruct (Str.isEmpty _); [discriminate|].
    destruct (Dashboard.looksLikeId _) eqn:E; [|discriminate].
    now intros [= <-].
Qed.

Lemma role_lists_survive_the_form_witness :
  Dashboard.looksLikeId "223456789012345678" = true.
Proof.
  destruct (role_lists_survive_the_form "100000000000000001" Sample.legacyWorld)
    as (_ & _ & _ & _ & H).
  apply (H (Some "  223456789012345678 ")). reflexivity.
Defined.

(** X24. The branding route changes branding only, and only for a guild
    stored as premium. Without a login, or for a guild whose stored flag is
    off, nothing changes; otherwise the route answers that the branding is
    saved, whoever is logged in and whether or not the expiry has passed,
    and each of the three branding fields is the one stored before (a blank
    submission) or a non-empty text of at most 40, 300 and 20 characters;
    the premium flag of every guild, the guild's plan, expiry and features
    and the licence keys are what they were. *)
Theorem branding_route_changes_branding_only
    (logged : bool) (guildId : string) (body : Dashboard.BrandingBody)
    (wr : World.WriteResult) (w : World.t) :
  let reply := fst (Dashboard.postBranding logged guildId body wr w) in
  let w' := snd (Dashboard.postBranding logged guildId body wr w) in
  let before := Entitlement.stored guildId w in
  let after := Entitlement.stored guildId w' in
  let bounded (limit : nat) (new old : option string) :=
    new = old
    \/ exists v : string, new = Some v /\ v <> "" /\ (String.length v <= limit)%nat in
  (reply = Dashboard.ToServer Dashboard.BrandingSaved
   <-> logged = true /\ Entitlement.premiumFlag guildId w = true)
  /\ (reply <> Dashboard.ToServer Dashboard.BrandingSaved -> w' = w)
  /\ bounded 40%nat (Premium.b_name (Premium.r_branding after))
       (Premium.b_name (Premium.r_branding before))
  /\ bounded 300%nat (Premium.b_iconUrl (Premium.r_branding after))
       (Premium.b_iconUrl (Premium.r_branding before))
  /\ bounded 20%nat (Premium.b_accent (Premium.r_branding after))
       (Premium.b_accent (Premium.r_branding before))
  /\ Premium.r_plan after = Premium.r_plan before
  /\ Premium.r_expiresAt after = Premium.r_expiresAt before
  /\ Premium.r_features after = Premium.r_features before
  /\ (forall g : string, Entitlement.premiumFlag g w' = Entitlement.premiumFlag g w)
  /\ World.PREMIUM_KEYS w' = World.PREMIUM_KEYS w.
Proof.
  cbv zeta.
  assert (Hcut : forall n v old,
             Dashboard.cut n v old = old
             \/ exists x, Dashboard.cut n v old = Some x /\ x <> ""
                          /\ (String.length x <= n)%nat).
  { intros n v old. unfold Dashboard.cut.
    destruct (Str.isEmpty (Str.take n _)) eqn:E; [now left|]. right.
    eexists. split; [reflexivity|]. split; [|apply TextFacts.take_length].
    intros H. now rewrite H in E. }
  split; [|split; [|split; [|split; [|split; [|split; [|split; [|split; [|split]]]]]]]];
    try apply FrameFacts.postBranding_flag; try apply FrameFacts.postBranding_keys.
  - unfold Dashboard.postBranding, Entitlement.premiumFlag, Entitlement.stored.
    destruct logged; cbn [negb]; [|split; [discriminate|intros [H _]; discriminate]].
    destruct (World.PREMIUM_GUILDS w !! guildId) as [s|]; cbn [default];
      [|split; [discriminate|intros [_ H]; discriminate]].
    unfold Premium.view, id. cbn [Premium.isPremium].
    destruct (Premium.r_isPremium s) as [[|]|]; cbn [default negb fst].
    + split; [intros _; split; reflexivity|reflexivity].
    + split; [discriminate|intros [_ H]; discriminate].
    + split; [discriminate|intros [_ H]; discriminate].
  - unfold Dashboard.postBranding.
    destruct logged; cbn [negb]; [|reflexivity].
    destruct (World.PREMIUM_GUILDS w !! guildId) as [s|]; [|reflexivity].
    destruct (default false (Premium.r_isPremium s)); cbn [negb fst snd];
      [intros H; now contradiction H|reflexivity].
  - unfold Dashboard.postBranding, Entitlement.stored.
    destruct logged; cbn [negb]; [|now left].
    destruct (World.PREMIUM_GUILDS w !! guildId) as [s|] eqn:Hs; cbn [default snd];
      [|rewrite Hs; now left].
    destruct (default false (Premium.r_isPremium s)); cbn [negb snd]; [|rewrite Hs; now left].
    rewrite EntitlementFacts.write_guilds. cbn. rewrite lookup_insert_eq. cbn.
    apply Hcut.
  - unfold Dashboard.postBranding, Entitlement.stored.
    destruct logged; cbn [negb]; [|now left].
    destruct (World.PREMIUM_GUILDS w !! guildId) as [s|] eqn:Hs; cbn [default snd];
      [|rewrite Hs; now left].
    destruct (default false (Premium.r_isPremium s)); cbn [negb snd]; [|rewrite Hs; now left].
    rewrite EntitlementFacts.write_guilds. cbn. rewrite lookup_insert_eq. cbn.
    apply Hcut.
  - unfold Dashboard.postBranding, Entitlement.stored.
    destruct logged; cbn [negb]; [|now left].
    destruct (World.PREMIUM_GUILDS w !! guildId) as [s|] eqn:Hs; cbn [default snd];
      [|rewrite Hs; now left].
    destruct (default false (Premium.r_isPremium s)); cbn [negb snd]; [|rewrite Hs; now left].
    rewrite EntitlementFacts.write_guilds. cbn. rewrite lookup_insert_eq. cbn.
    apply Hcut.
  - unfold Dashboard.postBranding, Entitlement.stored.
    destruct logged; cbn [negb]; [|reflexivity].
    destruct (World.PREMIUM_GUILDS w !! guildId) as [s|] eqn:Hs; cbn [default snd];
      [|now rewrite Hs].
    destruct (default false (Premium.r_isPremium s)); cbn [negb snd]; [|now rewrite Hs].
    rewrite EntitlementFacts.write_guilds. cbn. now rewrite lookup_insert_eq.
  - unfold Dashboard.postBranding, Entitlement.stored.
    destruct logged; cbn [negb]; [|reflexivity].
    destruct (World.PREMIUM_GUILDS w !! guildId) as [s|] eqn:Hs; cbn [default snd];
      [|now rewrite Hs].
    destruct (default false (Premium.r_isPremium s)); cbn [negb snd]; [|now rewrite Hs].
    rewrite EntitlementFacts.write_guilds. cbn. now rewrite lookup_insert_eq.
  - unfold Dashboard.postBranding, Entitlement.stored.
    destruct logged; cbn [negb]; [|reflexivity].
    destruct (World.PREMIUM_GUILDS w !! guildId) as [s|] eqn:Hs; cbn [default snd];
      [|now rewrite Hs].
    destruct (default false (Premium.r_isPremium s)); cbn [negb snd]; [|now rewrite Hs].
    rewrite EntitlementFacts.write_guilds. cbn. now rewrite lookup_insert_eq.
Qed.

Lemma branding_route_changes_branding_only_witness :
  snd (Dashboard.postBranding false "100000000000000001"
         {| Dashboard.brandName := Some "Shop"; Dashboard.iconUrl := None;
            Dashboard.accent := None |}
         World.Written Cases.activeWorld)
  = Cases.activeWorld.
Proof.
  destruct (branding_route_changes_branding_only false "100000000000000001"
              {| Dashboard.brandName := Some "Shop"; Dashboard.iconUrl := None;
                 Dashboard.accent := None |}
              World.Written Cases.activeWorld) as (_ & H & _).
  apply H. discriminate.
Defined.

(** ** Durations in days, and the branding of embeds *)

(** X25. The day count of a duration is the duration rounded up to whole
    days. Whatever input [parseDurationToMs] accepts, the days it returns
    are between 0 and 3650, they cover the milliseconds it returns, and they
    exceed them by less than one day; the day count is 0 only together with
    0 milliseconds. *)
Theorem duration_days_round_up (input : string) (r : Duration.t) :
  Duration.parseDurationToMs input = Some r ->
  0 <= Duration.days_ r <= 3650
  /\ Duration.ms r <= Duration.days_ r * Duration.dayMs < Duration.ms r + Duration.dayMs
  /\ (Duration.days_ r = 0 <-> Duration.ms r = 0).
Proof.
  unfold Duration.parseDurationToMs.
  destruct (Str.isEmpty (Str.trim input)); [discriminate|].
  destruct (Duration.planToDays (Str.trim input)) as [a|] eqn:Hp.
  - intros [= <-]. cbn [Duration.days_ Duration.ms].
    destruct (DurationFacts.planToDays_range _ _ Hp) as [[Hlo Hhi] _].
    change Duration.dayMs with 86400000. lia.
  - set (total := fold_left _ _ _).
    destruct (negb _ || (total <=? 0)) eqn:G; [discriminate|].
    apply orb_false_elim in G as [_ G]. apply Z.leb_gt in G.
    intros [= <-]. cbn [Duration.days_ Duration.ms].
    set (T := if Duration.maxMs <? total then Duration.maxMs else total).
    assert (HT : 0 < T <= 315360000000).
    { subst T. rewrite DurationFacts.maxMs_value.
      destruct (315360000000 <? total) eqn:C; [lia|]. apply Z.ltb_ge in C. lia. }
    clearbody T. unfold Duration.ceilDiv. change Duration.dayMs with 86400000.
    pose proof (Z.div_mod (- T) 86400000 ltac:(lia)) as Hd.
    pose proof (Z.mod_pos_bound (- T) 86400000 ltac:(lia)) as Hm.
    lia.
Qed.

Lemma duration_days_round_up_witness :
  Duration.parseDurationToMs "36h"
  = Some {| Duration.ms := 129600000; Duration.label := "36h";
            Duration.plan_ := "custom"; Duration.days_ := 2 |}
  /\ 129600000 <= 2 * Duration.dayMs < 129600000 + Duration.dayMs.
Proof.
  split; [reflexivity|].
  apply (duration_days_round_up "36h"
           {| Duration.ms := 129600000; Duration.label := "36h";
              Duration.plan_ := "custom"; Duration.days_ := 2 |} eq_refl).
Defined.

Module EmbedFacts.
Import World Entitlement Embeds.

(** The embed is returned as given unless the flag is on after the
    expiry check. *)
Lemma apply_off url e g now wr w :
  premiumFlag g (ensurePremiumActiveOrExpire g now wr w) = false ->
  applyBranding url e g now wr w = (e, ensurePremiumActiveOrExpire g now wr w).
Proof.
  intros H. unfold applyBranding, getPremiumState.
  change (Premium.isPremium (Premium.view (stored g (ensurePremiumActiveOrExpire g now wr w))))
    with (premiumFlag g (ensurePremiumActiveOrExpire g now wr w)).
  now rewrite H.
Qed.

Lemma apply_world url e g now wr w :
  snd (applyBranding url e g now wr w) = ensurePremiumActiveOrExpire g now wr w.
Proof.
  unfold applyBranding, getPremiumState.
  now destruct (negb _).
Qed.

End EmbedFacts.

(** X26. Branding reaches the embeds of live premium guilds only, and only
    as a well-formed colour. [applyBranding] returns the embed as given for
    a guild whose stored flag is off and for one whose expiry has passed
    (which it demotes); the colour it sets is the sign and six hex digits,
    whatever text is stored as the accent, and a stored accent of that form
    is set as it is; the thumbnail it sets is one [looksLikeUrl] accepts. *)
Theorem branding_reaches_live_premium_only
    (looksLikeUrl : string -> bool) (embed : Embeds.Embed)
    (guildId : string) (now : Z) (wr : World.WriteResult) (w : World.t) :
  let embed' := fst (Embeds.applyBranding looksLikeUrl embed guildId now wr w) in
  let w' := snd (Embeds.applyBranding looksLikeUrl embed guildId now wr w) in
  (Entitlement.premiumFlag guildId w = false -> embed' = embed)
  /\ (forall (s : Premium.Raw) (d : Premium.DateStr) (ms : Z),
        World.PREMIUM_GUILDS w !! guildId = Some s ->
        Premium.r_expiresAt s = Some d -> Premium.parse d = Some ms -> ms < now ->
        embed' = embed /\ Entitlement.premiumFlag guildId w' = false)
  /\ (Embeds.color embed' = Embeds.color embed
      \/ exists c : string, Embeds.color embed' = Some c /\ Settings.isStoredColor c)
  /\ (Embeds.thumbnail embed' = Embeds.thumbnail embed
      \/ exists u : string, Embeds.thumbnail embed' = Some u /\ looksLikeUrl u = true)
  /\ (forall c : string,
        Entitlement.premiumFlag guildId w' = true ->
        Premium.b_accent (Premium.r_branding (Entitlement.stored guildId w')) = Some c ->
        Settings.isStoredColor c ->
        Embeds.color embed' = Some c).
Proof.
  cbv zeta. rewrite EmbedFacts.apply_world.
  set (w1 := Entitlement.ensurePremiumActiveOrExpire guildId now wr w).
  split; [|split; [|split; [|split]]].
  - intros H.
    rewrite EmbedFacts.apply_off; [reflexivity|]. now apply EntitlementFacts.ensure_flag.
  - intros s d ms Hs He Hd Hlt.
    pose proof (EntitlementFacts.ensure_expired guildId now wr w s d ms Hs He Hd Hlt) as H.
    rewrite EmbedFacts.apply_off by exact H. split; [reflexivity|exact H].
  - unfold Embeds.applyBranding, Entitlement.getPremiumState. fold w1.
    destruct (negb _); [now left|].
    destruct (Premium.accent _) as [a|]; cbn [fst].
    + destruct (negb (Str.isEmpty a) && Text.isValidHexColor a) eqn:E.
      * right. exists (Text.normalizeHexColor a). apply andb_prop in E as [_ E].
        split; [|now apply SettingsFacts.normalize_valid].
        destruct (Premium.iconUrl _) as [u|]; [|reflexivity].
        now destruct (negb (Str.isEmpty u) && looksLikeUrl u).
      * left. destruct (Premium.iconUrl _) as [u|]; [|reflexivity].
        now destruct (negb (Str.isEmpty u) && looksLikeUrl u).
    + left. destruct (Premium.iconUrl _) as [u|]; [|reflexivity].
      now destruct (negb (Str.isEmpty u) && looksLikeUrl u).
  - unfold Embeds.applyBranding, Entitlement.getPremiumState. fold w1.
    destruct (negb _); [now left|]. cbn [fst].
    destruct (Premium.iconUrl _) as [u|].
    + destruct (negb (Str.isEmpty u) && looksLikeUrl u) eqn:E.
      * right. exists u. apply andb_prop in E as [_ E]. split; [reflexivity|exact E].
      * left. destruct (Premium.accent _) as [a|]; [|reflexivity].
        now destruct (negb (Str.isEmpty a) && Text.isValidHexColor a).
    + left. destruct (Premium.accent _) as [a|]; [|reflexivity].
      now destruct (negb (Str.isEmpty a) && Text.isValidHexColor a).
  - intros c Hflag Hacc Hc.
    unfold Embeds.applyBranding, Entitlement.getPremiumState. fold w1.
    change (Premium.isPremium (Premium.view (Entitlement.stored guildId w1)))
      with (Entitlement.premiumFlag guildId w1).
    rewrite Hflag. cbn [negb fst].
    change (Premium.accent (Premium.branding (Premium.view (Entitlement.stored guildId w1))))
      with (Premium.b_accent (Premium.r_branding (Entitlement.stored guildId w1))).
    rewrite Hacc.
    destruct (SettingsFacts.stored_valid c Hc) as [Hv Hn]. rewrite Hv, Hn.
    assert (Hne : Str.isEmpty c = false).
    { destruct Hc as (h & -> & _). reflexivity. }
    rewrite Hne. cbn [negb andb].
    destruct (Premium.iconUrl _) as [u|]; [|reflexivity].
    now destruct (negb (Str.isEmpty u) && looksLikeUrl u).
Qed.

Lemma branding_reaches_live_premium_only_witness :
  fst (Embeds.applyBranding (fun _ => true)
         {| Embeds.color := None; Embeds.thumbnail := None |}
         "100000000000000001" 1700000000001 World.Written Cases.datedWorld)
  = {| Embeds.color := None; Embeds.thumbnail := None |}.
Proof.
  destruct (branding_reaches_live_premium_only (fun _ => true)
              {| Embeds.color := None; Embeds.thumbnail := None |}
              "100000000000000001" 1700000000001 World.Written Cases.datedWorld)
    as (_ & H & _).
  destruct (H Cases.dated (Premium.Parsable 1700000000000) 1700000000000
              eq_refl eq_refl eq_refl ltac:(lia)) as [He _].
  exact He.
Defined.

(** ** The average of star ratings *)

Module MeanFacts.









End MeanFacts.


